(** * Alchemy resource handlers: lifecycle, adoption and pagination

    A shallow embedding of the provider handlers of the alchemy
    repository (TunnelRoute, WarpDeviceProfile, RedirectRule, RateCard,
    Rate, NeonProject and the Stripe v2 client) together with the
    properties the specification states about them.

    Handlers are asynchronous TypeScript functions that talk to a remote
    provider.  They are embedded as interaction programs ([Prog]): finite
    trees whose nodes are the requests the handler issues and whose
    branches are indexed by the provider's answers.  A program is run
    against an arbitrary provider ([Oracle]); properties are stated for
    every provider.  Calls of the logger are not requests and are left
    out. *)

From Stdlib Require Import ZArith List String Ascii Bool Lia.
From Stdlib Require Import DecimalString DecimalZ.
Import ListNotations.

Set Warnings "-register-all".

Local Open Scope list_scope.
Local Open Scope string_scope.
Local Open Scope Z_scope.

(* ================================================================== *)
(** ** JavaScript values and operators *)
(* ================================================================== *)

Module Js.

(** [a ?? b] with a defined right operand. *)
Definition nullish {A : Type} (a : option A) (b : A) : A :=
  match a with Some x => x | None => b end.

(** [a ?? b] where the right operand may itself be undefined. *)
Definition nullish_opt {A : Type} (a b : option A) : option A :=
  match a with Some x => Some x | None => b end.

(** Truthiness of a string: every string but the empty one. *)
Definition truthy_string (s : string) : bool := negb (String.eqb s "").

(** Truthiness of [string | undefined]. *)
Definition truthy (o : option string) : bool :=
  match o with Some s => truthy_string s | None => false end.

(** Truthiness of [number | undefined] on integer values. *)
Definition truthy_number (o : option Z) : bool :=
  match o with Some n => negb (n =? 0) | None => false end.

(** [a || b] on [string | undefined]. *)
Definition or_else (a b : option string) : option string :=
  if truthy a then a else b.

(** [x === false] on [boolean | undefined]. *)
Definition is_false (o : option bool) : bool :=
  match o with Some false => true | _ => false end.

(** [x === n] on [number | undefined]. *)
Definition is_number (o : option Z) (n : Z) : bool :=
  match o with Some m => m =? n | None => false end.

(** [x === s] on [string | undefined]. *)
Definition is_string (o : option string) (s : string) : bool :=
  match o with Some t => String.eqb t s | None => false end.

(** The double-quote character. *)
Definition dquote : ascii := ascii_of_nat 34.

(** [s.includes(sub)]. *)
Definition includes (s sub : string) : bool :=
  match index 0 sub s with Some _ => true | None => false end.

(** [l.find(p)]. *)
Definition find {A : Type} (p : A -> bool) (l : list A) : option A :=
  List.find p l.

(** [l.slice(0, n)] for an integer [n]: a negative [n] counts from the
    end of the array. *)
Definition slice0 {A : Type} (l : list A) (n : Z) : list A :=
  if 0 <=? n then firstn (Z.to_nat n) l
  else firstn (List.length l - Z.to_nat (- n))%nat l.

(** Classes of thrown values the handlers discriminate with
    [instanceof]. *)
Inductive ErrorClass : Type :=
| ErrorC                 (* Error and subclasses not listed below *)
| CloudflareApiErrorC    (* CloudflareApiError extends Error *)
| NeonProjectNotFoundC   (* NeonProjectNotFound extends Error *)
| NotAnError.            (* a thrown value that is not an Error *)

(** A thrown value with the properties the handlers read off it. *)
Record Error : Type := mkError {
  err_class : ErrorClass;
  message : string;
  err_status : option Z;
  err_statusCode : option Z;
  err_code : option string;
  err_type : option string
}.

Definition new_Error (msg : string) : Error :=
  mkError ErrorC msg None None None None.

Definition instanceof_Error (e : Error) : bool :=
  match err_class e with NotAnError => false | _ => true end.

Definition instanceof_CloudflareApiError (e : Error) : bool :=
  match err_class e with CloudflareApiErrorC => true | _ => false end.

Definition instanceof_NeonProjectNotFound (e : Error) : bool :=
  match err_class e with NeonProjectNotFoundC => true | _ => false end.

(** Request payloads. An object is the list of its own enumerable
    properties in insertion order; a property set to [undefined] is not
    serialised and is therefore not listed. *)
Inductive Json : Type :=
| JNull
| JBool (b : bool)
| JNum (n : Z)
| JStr (s : string)
| JArr (items : list Json)
| JObj (fields : list (string * Json)).

(** [if (v !== undefined) payload[key] = v]. *)
Definition field {A : Type} (key : string) (inj : A -> Json) (v : option A)
  : list (string * Json) :=
  match v with Some x => [(key, inj x)] | None => [] end.

Definition keys (j : Json) : list string :=
  match j with JObj fs => map fst fs | _ => [] end.

(** [j[key]] for an object [j]: the value of the property of that
    name, if there is one. *)
Definition get (key : string) (j : Json) : option Json :=
  match j with
  | JObj fs =>
      option_map snd (List.find (fun kv => String.eqb (fst kv) key) fs)
  | _ => None
  end.

End Js.

(* ================================================================== *)
(** ** Interaction programs *)
(* ================================================================== *)

Section Programs.

(** Requests a handler can issue; [E X] is a request answered by an [X]. *)
Variable E : Type -> Type.

(** An asynchronous computation: it returns, throws, issues a request
    and continues with the answer, or invokes the replace-mutator of
    its execution context.  [Diverge] stands for a loop that used up
    its iteration budget. *)
Inductive Prog (A : Type) : Type :=
| Ret (a : A)
| Throw (e : Js.Error)
| Vis (X : Type) (ev : E X) (k : X -> Prog A)
| Replace (force : bool) (k : Prog A)
| Diverge.

Arguments Ret {A} a.
Arguments Throw {A} e.
Arguments Vis {A X} ev k.
Arguments Replace {A} force k.
Arguments Diverge {A}.

Fixpoint bind {A B : Type} (p : Prog A) (f : A -> Prog B) : Prog B :=
  match p with
  | Ret a => f a
  | Throw e => Throw e
  | Vis ev k => Vis ev (fun x => bind (k x) f)
  | Replace force k => Replace force (bind k f)
  | Diverge => Diverge
  end.

(** [try { p } catch (error) { h error }]. *)
Fixpoint try_catch {A : Type} (p : Prog A) (h : Js.Error -> Prog A) : Prog A :=
  match p with
  | Ret a => Ret a
  | Throw e => h e
  | Vis ev k => Vis ev (fun x => try_catch (k x) h)
  | Replace force k => Replace force (try_catch k h)
  | Diverge => Diverge
  end.

(** [await request]: a request that resolves or rejects. *)
Definition await {X : Type} (ev : E (Js.Error + X)) : Prog X :=
  Vis ev (fun r => match r with inl e => Throw e | inr x => Ret x end).

(** What an observer of a run sees. *)
Inductive Entry : Type :=
| Requested (X : Type) (ev : E X)
| ReplaceCalled (force : bool).

Inductive Outcome (A : Type) : Type :=
| Returned (a : A)
| Threw (e : Js.Error)
| ReplaceSignalled (force : bool)
| OutOfFuel.

Arguments Returned {A} a.
Arguments Threw {A} e.
Arguments ReplaceSignalled {A} force.
Arguments OutOfFuel {A}.

(** A provider: it answers every request, knowing what was observed
    before. *)
Definition Oracle : Type := forall X : Type, list Entry -> E X -> X.

(** Modelled from the spec: the Runtime's side of a handler run (the
    execution context, context.ts, is not among the sources).
    [run returns o p hist] runs [p] against provider [o] after the
    observations [hist] and yields the outcome with the observations
    [p] added.  The spec calls [replace()] the replace-mutator by which
    a Handler requests replacement; whether the call hands control back
    to the Runtime at once or returns to the handler is not fixed there,
    so [returns] selects between the two readings. *)
Fixpoint run {A : Type} (returns : bool) (o : Oracle) (p : Prog A)
         (hist : list Entry) : Outcome A * list Entry :=
  match p with
  | Ret a => (Returned a, [])
  | Throw e => (Threw e, [])
  | Vis ev k =>
      let entry := Requested _ ev in
      let (out, t) := run returns o (k (o _ hist ev)) (hist ++ [entry])%list in
      (out, entry :: t)
  | Replace force k =>
      let entry := ReplaceCalled force in
      if returns then
        let (out, t) := run returns o k (hist ++ [entry])%list in
        (out, entry :: t)
      else (ReplaceSignalled force, [entry])
  | Diverge => (OutOfFuel, [])
  end.

End Programs.

Arguments Ret {E A} a.
Arguments Throw {E A} e.
Arguments Vis {E A X} ev k.
Arguments Replace {E A} force k.
Arguments Diverge {E A}.
Arguments bind {E A B} p f.
Arguments try_catch {E A} p h.
Arguments await {E X} ev.
Arguments Requested {E X} ev.
Arguments ReplaceCalled {E} force.
Arguments Returned {A} a.
Arguments Threw {A} e.
Arguments ReplaceSignalled {A} force.
Arguments OutOfFuel {A}.
Arguments run {E A} returns o p hist.

Notation "x <- p ;; k" := (bind p (fun x => k))
  (at level 61, p at next level, right associativity).
Notation "p ;;; k" := (bind p (fun _ => k))
  (at level 61, right associativity).

(* ================================================================== *)
(** ** Execution context of a handler *)
(* ================================================================== *)

(** [this.phase]. *)
Inductive Phase : Type := Create | Update | Delete.

Definition phase_eqb (a b : Phase) : bool :=
  match a, b with
  | Create, Create | Update, Update | Delete, Delete => true
  | _, _ => false
  end.

(** Modelled from the spec: the Scope of the data model (scope.ts is not
    among the sources), with the fields the handlers read: the identity
    path, the adoption default and the name prefix. *)
Record Scope : Type := mkScope {
  scope_id : string;
  scope_path : list string;
  scope_adopt : bool;
  namePrefix : string
}.

(** Modelled from the spec: the execution context handed to a Handler
    (context.ts is not among the sources): phase, previous output and
    scope.  [this.destroy()] is the destroy-marker a delete phase
    returns; [this.replace()] is [Replace] above. *)
Record Context (Out : Type) : Type := mkContext {
  phase : Phase;
  output : option Out;
  scope : Scope
}.

Arguments mkContext {Out} phase output scope.
Arguments phase {Out} c.
Arguments output {Out} c.
Arguments scope {Out} c.

(** What a handler returns: its output, or the destroyed state. *)
Inductive HandlerResult (Out : Type) : Type :=
| Output (out : Out)
| Destroyed.

Arguments Output {Out} out.
Arguments Destroyed {Out}.

(** Modelled from the spec: [this.replace(force)], the replace-mutator
    of the execution context (context.ts is not among the sources). *)
Definition this_replace {E : Type -> Type} (force : bool) : Prog E unit :=
  Replace force (Ret tt).

(** HTTP methods of the provider clients. *)
Inductive Method : Type := GET | POST | PATCH | PUT | DELETE.

Definition method_eqb (a b : Method) : bool :=
  match a, b with
  | GET, GET | POST, POST | PATCH, PATCH | PUT, PUT | DELETE, DELETE => true
  | _, _ => false
  end.

(* ================================================================== *)
(** ** Numbers as strings *)
(* ================================================================== *)

Module JsNumber.

(** TypeScript's [number] is a double; the numbers the handlers print
    and parse are integer-valued and are embedded as [Z]. *)

(** Decimal digits of an integer, with a leading minus sign when it is
    negative. *)
Definition decimal (n : Z) : string := NilZero.string_of_int (Z.to_int n).

Fixpoint strip_leading_zeros (l : list ascii) : list ascii :=
  match l with
  | "0"%char :: l' => strip_leading_zeros l'
  | _ => l
  end.

Definition strip_trailing_zeros (l : list ascii) : list ascii :=
  rev (strip_leading_zeros (rev l)).

(** Exponential notation of a positive integer: the first digit, the
    remaining significant digits after a point, and the decimal
    exponent.  (Beyond 17 significant digits the engine prints the
    shortest digits that denote the same double; the first digit and
    the exponent are the ones given here.) *)
Definition exponential (n : Z) : string :=
  let ds := list_ascii_of_string (decimal n) in
  match strip_trailing_zeros ds with
  | [] => "0"
  | d :: rest =>
      String d
        ((match rest with
          | [] => ""
          | _ => String "."%char (string_of_list_ascii rest)
          end)
         ++ "e+" ++ decimal (Z.of_nat (List.length ds) - 1))
  end.

(** [String(n)] and [n.toString()] for an integer-valued number:
    plain digits below 10^21 in magnitude, exponential notation from
    10^21 on. *)
Definition String (n : Z) : string :=
  if Z.abs n <? 10 ^ 21 then decimal n
  else if n <? 0 then String.String "-"%char (exponential (- n))
  else exponential n.

Definition is_digit (c : ascii) : bool :=
  let k := nat_of_ascii c in (48 <=? k)%nat && (k <=? 57)%nat.

Definition is_space (c : ascii) : bool :=
  let k := nat_of_ascii c in
  (k =? 32)%nat || ((9 <=? k)%nat && (k <=? 13)%nat).

Fixpoint skip_spaces (s : string) : string :=
  match s with
  | String.String c s' => if is_space c then skip_spaces s' else s
  | EmptyString => s
  end.

(** The longest prefix of decimal digits. *)
Fixpoint leading_digits (s : string) : string :=
  match s with
  | String.String c s' =>
      if is_digit c then String.String c (leading_digits s') else ""
  | EmptyString => ""
  end.

Definition parse_digits (s : string) : option Z :=
  match leading_digits s with
  | EmptyString => None
  | ds => option_map Z.of_uint (NilEmpty.uint_of_string ds)
  end.

(** [parseInt(s, 10)]: leading white space is skipped, an optional
    sign is read, then the longest run of decimal digits; [None] is
    NaN (no digit). *)
Definition parseInt (s : string) : option Z :=
  match skip_spaces s with
  | String.String "-"%char s' => option_map Z.opp (parse_digits s')
  | String.String "+"%char s' => parse_digits s'
  | s' => parse_digits s'
  end.

(** A [number] that is an integer or NaN. *)
Inductive number : Type :=
| Int (n : Z)
| NaN.

(** [String(x)]. *)
Definition String_number (x : number) : string :=
  match x with Int n => String n | NaN => "NaN" end.

(** [parseInt(s, 10)] as a number. *)
Definition parseInt_number (s : string) : number :=
  match parseInt s with Some n => Int n | None => NaN end.

End JsNumber.

(* ================================================================== *)
(** ** Cloudflare: data, requests and handlers *)
(* ================================================================== *)

Module Cloudflare.

(** The client [createCloudflareApi] resolves to (api.ts is not among
    the sources); the handlers read its account id. *)
Record CloudflareApi : Type := mkApi { accountId : string }.

(** A fetch [Response]: status line and body text. *)
Record ResponseHead : Type := mkHead {
  status : Z;
  statusText : string;
  text : string
}.

(** [response.ok]: the status is in the range 200-299. *)
Definition ok (r : ResponseHead) : bool :=
  (200 <=? status r) && (status r <=? 299).

(** A response whose JSON body is read at type [T]
    ([(await response.json()) as T]). *)
Record FetchResponse (T : Type) : Type := mkResponse {
  head : ResponseHead;
  json : T
}.
Arguments mkResponse {T} head json.
Arguments head {T} f.
Arguments json {T} f.

(** [interface CloudflareRoute]. *)
Record CloudflareRoute : Type := mkRoute {
  route_id : string;
  route_network : string;
  route_tunnel_id : string;
  route_comment : option string;
  route_virtual_network_id : option string;
  route_created_at : string;
  route_deleted_at : option string
}.

(** [result_info] of a list response. *)
Record ResultInfo : Type := mkInfo {
  info_page : Z;
  info_per_page : Z;
  info_total_count : Z
}.

(** [CloudflareApiListResponse<CloudflareRoute>]. *)
Record RouteList : Type := mkRouteList {
  list_result : list CloudflareRoute;
  list_result_info : ResultInfo
}.

(** [interface CloudflarePolicyResponse], the fields the handler reads. *)
Record CloudflarePolicyResponse : Type := mkPolicyResponse {
  presp_id : string;
  presp_policy_id : option string
}.

(** [interface CloudflarePolicyListItem], the fields the handler reads. *)
Record CloudflarePolicyListItem : Type := mkPolicyItem {
  pitem_id : string;
  pitem_policy_id : option string;
  pitem_name : string
}.

(** [interface CloudflareRule], the fields the handler reads. *)
Record CloudflareRule : Type := mkRule {
  rule_id : string;
  rule_enabled : option bool;
  rule_last_updated : string
}.

(** [interface CloudflareRuleset], the fields the handler reads. *)
Record CloudflareRuleset : Type := mkRuleset {
  ruleset_id : string;
  ruleset_phase : string;
  ruleset_rules : list CloudflareRule
}.

(** [Zone] (zone.ts is not among the sources): its id. *)
Record Zone : Type := mkZone { zone_id : string }.

(** The body types the handlers read responses at. *)
Inductive BodyKind : Type :=
| KNoBody | KRoute | KRouteList | KPolicy | KPolicyList
| KRulesetList | KRuleset.

(** For [KPolicy] the body is read through [extractCloudflareResult]
    (api-response.ts is not among the sources), which unwraps the
    result of the envelope or throws; the body is given by what that
    unwrapping yields. *)
Definition body (k : BodyKind) : Type :=
  match k with
  | KNoBody => unit
  | KRoute => CloudflareRoute
  | KRouteList => RouteList
  | KPolicy => (Js.Error + CloudflarePolicyResponse)%type
  | KPolicyList => option (list CloudflarePolicyListItem)
  | KRulesetList => list CloudflareRuleset
  | KRuleset => CloudflareRuleset
  end.

(** Requests of the Cloudflare handlers. *)
Inductive CloudflareE : Type -> Type :=
| Fetch (k : BodyKind) (m : Method) (path : string) (payload : option Js.Json)
    : CloudflareE (Js.Error + FetchResponse (body k))
| GetZoneByDomain (domain : string)
    : CloudflareE (Js.Error + option Zone)
| DateNow : CloudflareE Z.

Definition M : Type -> Type := Prog CloudflareE.

Definition api_get (k : BodyKind) (path : string) : M (FetchResponse (body k)) :=
  await (Fetch k GET path None).
Definition api_delete (k : BodyKind) (path : string) : M (FetchResponse (body k)) :=
  await (Fetch k DELETE path None).
Definition api_post (k : BodyKind) (path : string) (payload : Js.Json)
  : M (FetchResponse (body k)) :=
  await (Fetch k POST path (Some payload)).
Definition api_patch (k : BodyKind) (path : string) (payload : Js.Json)
  : M (FetchResponse (body k)) :=
  await (Fetch k PATCH path (Some payload)).
Definition api_put (k : BodyKind) (path : string) (payload : Js.Json)
  : M (FetchResponse (body k)) :=
  await (Fetch k PUT path (Some payload)).

(** [Tunnel] (tunnel.ts is not among the sources): its tunnel id. *)
Record Tunnel : Type := mkTunnel { tunnel_tunnelId : string }.

(** [interface TunnelRouteProps]. *)
Record TunnelRouteProps : Type := mkRouteProps {
  network : string;
  tunnel : string + Tunnel;
  comment : option string;
  virtualNetworkId : option string;
  adopt : option bool;
  delete : option bool;
  routeId : option string
}.

(** [interface TunnelRoute], the handler's output. *)
Record TunnelRouteOutput : Type := mkRouteOutput {
  out_id : string;
  out_network : string;
  out_tunnelId : string;
  out_comment : option string;
  out_virtualNetworkId : option string;
  out_createdAt : string;
  out_deletedAt : option string;
  out_type : string
}.

(** [interface ServiceModeV2]. *)
Record ServiceModeV2 : Type := mkServiceMode {
  sm_mode : string;
  sm_port : option Z
}.

(** [interface SplitTunnelEntry]. *)
Record SplitTunnelEntry : Type := mkSplitEntry {
  entry_address : option string;
  entry_host : option string;
  entry_description : option string
}.

(** [interface SplitTunnelConfig]. *)
Record SplitTunnelConfig : Type := mkSplitConfig {
  split_mode : string;
  entries : list SplitTunnelEntry
}.

(** The properties [WarpDeviceProfileProps] and the output
    [WarpDeviceProfile] share: every property but [name], [adopt] and
    [delete]. *)
Record WarpSettings : Type := mkWarpSettings {
  description : option string;
  match_ : option string;
  precedence : option Z;
  enabled : option bool;
  serviceModeV2 : option ServiceModeV2;
  disableAutoFallback : option bool;
  allowModeSwitch : option bool;
  switchLocked : option bool;
  tunnelProtocol : option string;
  autoConnect : option Z;
  allowedToLeave : option bool;
  captivePortal : option Z;
  supportUrl : option string;
  excludeOfficeIps : option bool;
  lanAllowMinutes : option Z;
  lanAllowSubnetSize : option Z;
  splitTunnel : option SplitTunnelConfig
}.

(** [interface WarpDeviceProfileProps]. *)
Record WarpDeviceProfileProps : Type := mkWarpProps {
  wp_name : option string;
  wp_settings : WarpSettings;
  wp_adopt : option bool;
  wp_delete : option bool
}.

(** [type WarpDeviceProfile], the handler's output. *)
Record WarpDeviceProfileOutput : Type := mkWarpOutput {
  wo_policyId : string;
  wo_name : string;
  wo_settings : WarpSettings;
  wo_createdAt : Z;
  wo_modifiedAt : Z
}.

(** [interface RedirectRuleProps]. *)
Record RedirectRuleProps : Type := mkRedirectProps {
  rr_description : option string;
  rr_zone : string + Zone;
  rr_requestUrl : option string;
  rr_expression : option string;
  rr_targetUrl : string;
  rr_statusCode : option Z;
  rr_preserveQueryString : option bool
}.

(** [interface RedirectRule], the handler's output. *)
Record RedirectRuleOutput : Type := mkRedirectOutput {
  ro_ruleId : string;
  ro_rulesetId : string;
  ro_zoneId : string;
  ro_description : string;
  ro_requestUrl : option string;
  ro_expression : option string;
  ro_targetUrl : string;
  ro_statusCode : Z;
  ro_preserveQueryString : bool;
  ro_enabled : bool;
  ro_lastUpdated : string
}.

Section Handlers.

(** The error [handleApiError] raises for a response, an action, a
    resource type and a resource name (api-error.ts is not among the
    sources). *)
Variable handleApiError : ResponseHead -> string -> string -> string -> Js.Error.

(** [scope.createPhysicalName(id)] (scope.ts is not among the
    sources): a function of the scope and the logical id. *)
Variable createPhysicalName : Scope -> string -> string.

Definition routes_path (api : CloudflareApi) : string :=
  "/accounts/" ++ accountId api ++ "/teamnet/routes".

(** One iteration of the [while (hasMorePages)] loop of
    [listTunnelRoutes], with [routes] and [page] the loop state;
    [fuel] bounds the number of iterations. *)
Fixpoint listTunnelRoutes_loop (fuel : nat) (api : CloudflareApi)
         (limit : option Z) (routes : list CloudflareRoute) (page : Z)
  : M (list CloudflareRoute) :=
  match fuel with
  | O => Diverge
  | S fuel' =>
      let perPage := 100 in
      let params :=
        "page=" ++ JsNumber.String page
          ++ "&per_page=" ++ JsNumber.String perPage in
      response <- api_get KRouteList (routes_path api ++ "?" ++ params) ;;
      if negb (ok (head response))
      then Throw (handleApiError (head response) "list" "route" "all")
      else
        let data := json response in
        let routes := (routes ++ list_result data)%list in
        let resultInfo := list_result_info data in
        if Js.truthy_number limit
           && (Js.nullish limit 0 <=? Z.of_nat (List.length routes))
        then Ret (Js.slice0 routes (Js.nullish limit 0))
        else
          let hasMorePages :=
            info_page resultInfo * info_per_page resultInfo
              <? info_total_count resultInfo in
          if hasMorePages
          then listTunnelRoutes_loop fuel' api limit routes (page + 1)
          else Ret routes
  end.

Definition listTunnelRoutes (fuel : nat) (api : CloudflareApi)
           (limit : option Z) : M (list CloudflareRoute) :=
  listTunnelRoutes_loop fuel api limit [] 1.

Definition findRouteByNetworkAndTunnel (fuel : nat) (api : CloudflareApi)
           (network tunnelId : string) : M (option CloudflareRoute) :=
  routes <- listTunnelRoutes fuel api None ;;
  let match_ :=
    Js.find (fun route =>
               String.eqb (route_network route) network
               && String.eqb (route_tunnel_id route) tunnelId) routes in
  Ret match_.

Definition deleteRoute (api : CloudflareApi) (routeId : string) : M unit :=
  response <- api_delete KNoBody (routes_path api ++ "/" ++ routeId) ;;
  if negb (ok (head response)) && negb (status (head response) =? 404)
  then Throw (handleApiError (head response) "delete" "route" routeId)
  else Ret tt.

Definition createRoute (api : CloudflareApi)
           (network tunnelId : string)
           (comment virtualNetworkId : option string) : M CloudflareRoute :=
  let payload :=
    Js.JObj ([("network", Js.JStr network); ("tunnel_id", Js.JStr tunnelId)]
               ++ Js.field "comment" Js.JStr comment
               ++ Js.field "virtual_network_id" Js.JStr virtualNetworkId) in
  response <- api_post KRoute (routes_path api) payload ;;
  if negb (ok (head response))
  then Throw (handleApiError (head response) "create" "route"
                (network ++ " -> " ++ tunnelId))
  else Ret (json response).

Definition updateRoute (api : CloudflareApi) (routeId : string)
           (comment virtualNetworkId : option string) : M CloudflareRoute :=
  let payload :=
    Js.JObj (Js.field "comment" Js.JStr comment
               ++ Js.field "virtual_network_id" Js.JStr virtualNetworkId) in
  response <- api_patch KRoute (routes_path api ++ "/" ++ routeId) payload ;;
  if negb (ok (head response))
  then Throw (handleApiError (head response) "update" "route" routeId)
  else Ret (json response).

(** [props.adopt ?? this.scope.adopt]. *)
Definition effective_adopt (props_adopt : option bool) (s : Scope) : bool :=
  Js.nullish props_adopt (scope_adopt s).

(** The test the TunnelRoute handler applies to a failed create
    before it adopts. *)
Definition route_already_exists (error : Js.Error) : bool :=
  Js.instanceof_Error error
  && (Js.includes (Js.message error) "already exists"
      || Js.includes (Js.message error) "duplicate"
      || Js.is_number (Js.err_status error) 409).

Definition route_output (routeData : CloudflareRoute) : TunnelRouteOutput :=
  mkRouteOutput
    (route_id routeData)
    (route_network routeData)
    (route_tunnel_id routeData)
    (route_comment routeData)
    (route_virtual_network_id routeData)
    (route_created_at routeData)
    (route_deleted_at routeData)
    "cloudflare::TunnelRoute".

(** The TunnelRoute handler, run with the client [api]. *)
Definition TunnelRoute (fuel : nat) (api : CloudflareApi)
           (this : Context TunnelRouteOutput) (id : string)
           (props : TunnelRouteProps)
  : M (HandlerResult TunnelRouteOutput) :=
  let tunnelId :=
    match tunnel props with
    | inl s => s
    | inr t => tunnel_tunnelId t
    end in
  let routeId :=
    Js.or_else (routeId props) (option_map out_id (output this)) in
  let adopt := effective_adopt (adopt props) (scope this) in
  if phase_eqb (phase this) Delete then
    (if Js.truthy routeId && negb (Js.is_false (delete props))
     then deleteRoute api (Js.nullish routeId "")
     else Ret tt) ;;;
    Ret Destroyed
  else
    (if phase_eqb (phase this) Update
        && Js.truthy (option_map out_network (output this))
        && negb (Js.is_string (option_map out_network (output this))
                   (network props))
     then this_replace true
     else Ret tt) ;;;
    (if phase_eqb (phase this) Update
        && Js.truthy (option_map out_tunnelId (output this))
        && negb (Js.is_string (option_map out_tunnelId (output this))
                   tunnelId)
     then this_replace true
     else Ret tt) ;;;
    routeData <-
      (if phase_eqb (phase this) Update && Js.truthy routeId
       then updateRoute api (Js.nullish routeId "")
              (comment props) (virtualNetworkId props)
       else
         try_catch
           (createRoute api (network props) tunnelId
              (comment props) (virtualNetworkId props))
           (fun error =>
              if adopt && route_already_exists error
              then
                existingRoute <-
                  findRouteByNetworkAndTunnel fuel api
                    (network props) tunnelId ;;
                match existingRoute with
                | None =>
                    Throw (Js.new_Error
                             ("Failed to find existing route for network '"
                                ++ network props ++ "' and tunnel '"
                                ++ tunnelId ++ "' for adoption"))
                | Some existingRoute =>
                    if match comment props with Some _ => true | None => false end
                       || match virtualNetworkId props with
                          | Some _ => true | None => false end
                    then updateRoute api (route_id existingRoute)
                           (comment props) (virtualNetworkId props)
                    else Ret existingRoute
                end
              else Throw error)) ;;
    Ret (Output (route_output routeData)).

(* -------------------------------------------------------------- *)
(** *** WarpDeviceProfile *)

Definition policy_path (api : CloudflareApi) : string :=
  "/accounts/" ++ accountId api ++ "/devices/policy".

(** [buildRequestBody(props)] for props that carry a name. *)
Definition buildRequestBody (name : string) (props : WarpSettings) : Js.Json :=
  Js.JObj
    ([("name", Js.JStr name)]
       ++ Js.field "description" Js.JStr (description props)
       ++ Js.field "match" Js.JStr (match_ props)
       ++ Js.field "precedence" Js.JNum (precedence props)
       ++ Js.field "enabled" Js.JBool (enabled props)
       ++ Js.field "service_mode_v2"
            (fun sm =>
               Js.JObj ([("mode", Js.JStr (sm_mode sm))]
                          ++ (if Js.truthy_number (sm_port sm)
                              then Js.field "port" Js.JNum (sm_port sm)
                              else [])))
            (serviceModeV2 props)
       ++ Js.field "disable_auto_fallback" Js.JBool (disableAutoFallback props)
       ++ Js.field "allow_mode_switch" Js.JBool (allowModeSwitch props)
       ++ Js.field "switch_locked" Js.JBool (switchLocked props)
       ++ Js.field "tunnel_protocol" Js.JStr (tunnelProtocol props)
       ++ Js.field "auto_connect" Js.JNum (autoConnect props)
       ++ Js.field "allowed_to_leave" Js.JBool (allowedToLeave props)
       ++ Js.field "captive_portal" Js.JNum (captivePortal props)
       ++ Js.field "support_url" Js.JStr (supportUrl props)
       ++ Js.field "exclude_office_ips" Js.JBool (excludeOfficeIps props)
       ++ Js.field "lan_allow_minutes" Js.JNum (lanAllowMinutes props)
       ++ Js.field "lan_allow_subnet_size" Js.JNum (lanAllowSubnetSize props)).

Definition createPolicy (api : CloudflareApi) (name : string)
           (props : WarpSettings) : M CloudflarePolicyResponse :=
  let requestBody := buildRequestBody name props in
  response <- api_post KPolicy (policy_path api) requestBody ;;
  if negb (ok (head response))
  then Throw (handleApiError (head response) "create"
                "warp_device_profile" name)
  else
    match json response with
    | inl e => Throw e
    | inr result => Ret result
    end.

Definition updatePolicy (api : CloudflareApi) (policyId name : string)
           (props : WarpSettings) : M unit :=
  let requestBody := buildRequestBody name props in
  response <- api_patch KNoBody (policy_path api ++ "/" ++ policyId)
                requestBody ;;
  if negb (ok (head response))
  then Throw (handleApiError (head response) "update"
                "warp_device_profile" policyId)
  else Ret tt.

Definition deletePolicy (api : CloudflareApi) (policyId : string) : M unit :=
  response <- api_delete KNoBody (policy_path api ++ "/" ++ policyId) ;;
  if negb (ok (head response)) && negb (status (head response) =? 404)
  then Throw (handleApiError (head response) "delete"
                "warp_device_profile" policyId)
  else Ret tt.

(** The [policy_id] of the first listed profile with the given name. *)
Definition findPolicyByName (api : CloudflareApi) (name : string)
  : M (option string) :=
  response <- api_get KPolicyList
                ("/accounts/" ++ accountId api ++ "/devices/policies") ;;
  if negb (ok (head response))
  then Throw (handleApiError (head response) "list"
                "warp_device_profile" "all")
  else
    let policy :=
      match json response with
      | Some result =>
          Js.find (fun p => String.eqb (pitem_name p) name) result
      | None => None
      end in
    match policy with
    | None => Ret None
    | Some policy =>
        Ret (Some (Js.nullish (pitem_policy_id policy) (pitem_id policy)))
    end.

Definition updateSplitTunnel (api : CloudflareApi) (policyId : string)
           (config : SplitTunnelConfig) : M unit :=
  let routes :=
    Js.JArr
      (map (fun entry =>
              Js.JObj
                ((if Js.truthy (entry_address entry)
                  then Js.field "address" Js.JStr (entry_address entry)
                  else [])
                   ++ (if Js.truthy (entry_host entry)
                       then Js.field "host" Js.JStr (entry_host entry)
                       else [])
                   ++ (if Js.truthy (entry_description entry)
                       then Js.field "description" Js.JStr
                              (entry_description entry)
                       else [])))
           (entries config)) in
  if String.eqb (split_mode config) "include" then
    response <- api_put KNoBody
                  (policy_path api ++ "/" ++ policyId ++ "/include") routes ;;
    if negb (ok (head response))
    then Throw (handleApiError (head response)
                  "update split tunnel includes"
                  "warp_device_profile" policyId)
    else Ret tt
  else
    response <- api_put KNoBody
                  (policy_path api ++ "/" ++ policyId ++ "/exclude") routes ;;
    if negb (ok (head response))
    then Throw (handleApiError (head response)
                  "update split tunnel excludes"
                  "warp_device_profile" policyId)
    else Ret tt.

(** The test the WarpDeviceProfile handler applies to a failed create
    before it adopts. *)
Definition profile_already_exists (error : Js.Error) : bool :=
  Js.instanceof_CloudflareApiError error
  && (Js.is_number (Js.err_status error) 400
      || Js.is_number (Js.err_status error) 409)
  && (Js.includes (Js.message error) "already exists"
      || Js.includes (Js.message error) "duplicate"
      || Js.includes (Js.message error) "precedence must be unique").

(** [props.name ?? this.output?.name ?? this.scope.createPhysicalName(id)]. *)
Definition profile_name (this : Context WarpDeviceProfileOutput)
           (id : string) (props : WarpDeviceProfileProps) : string :=
  Js.nullish
    (Js.nullish_opt (wp_name props) (option_map wo_name (output this)))
    (createPhysicalName (scope this) id).

Definition profile_output (policyId name : string) (props : WarpSettings)
           (createdAt modifiedAt : Z) : WarpDeviceProfileOutput :=
  mkWarpOutput policyId name
    (mkWarpSettings
       (description props) (match_ props) (precedence props)
       (Some (Js.nullish (enabled props) true))
       (serviceModeV2 props) (disableAutoFallback props)
       (allowModeSwitch props) (switchLocked props)
       (tunnelProtocol props) (autoConnect props)
       (allowedToLeave props) (captivePortal props)
       (supportUrl props) (excludeOfficeIps props)
       (lanAllowMinutes props) (lanAllowSubnetSize props)
       (splitTunnel props))
    createdAt modifiedAt.

(** The WarpDeviceProfile handler, run with the client [api]. *)
Definition WarpDeviceProfile (api : CloudflareApi)
           (this : Context WarpDeviceProfileOutput) (id : string)
           (props : WarpDeviceProfileProps)
  : M (HandlerResult WarpDeviceProfileOutput) :=
  let name := profile_name this id props in
  let adopt := effective_adopt (wp_adopt props) (scope this) in
  let output_policyId := option_map wo_policyId (output this) in
  if phase_eqb (phase this) Delete then
    (if Js.truthy output_policyId && negb (Js.is_false (wp_delete props))
     then deletePolicy api (Js.nullish output_policyId "")
     else Ret tt) ;;;
    Ret Destroyed
  else
    (if phase_eqb (phase this) Update
        && negb (Js.is_string (option_map wo_name (output this)) name)
     then this_replace false
     else Ret tt) ;;;
    createdAt0 <-
      match option_map wo_createdAt (output this) with
      | Some c => Ret c
      | None => Vis DateNow (fun now => Ret now)
      end ;;
    created <-
      (if phase_eqb (phase this) Update && Js.truthy output_policyId
       then
         updatePolicy api (Js.nullish output_policyId "") name
           (wp_settings props) ;;;
         Ret (Js.nullish output_policyId "", createdAt0)
       else
         try_catch
           (result <- createPolicy api name (wp_settings props) ;;
            now <- Vis DateNow (fun now => Ret now) ;;
            Ret (Js.nullish (presp_policy_id result) (presp_id result), now))
           (fun error =>
              if adopt && profile_already_exists error
              then
                existing <- findPolicyByName api name ;;
                match existing with
                | None =>
                    Throw (Js.new_Error
                             ("Failed to find existing WARP device profile '"
                                ++ name ++ "' for adoption"))
                | Some policy_id => Ret (policy_id, createdAt0)
                end
              else Throw error)) ;;
    let (policyId, createdAt) := (created : string * Z) in
    match splitTunnel (wp_settings props) with
    | Some config => updateSplitTunnel api policyId config
    | None => Ret tt
    end ;;;
    modifiedAt <- Vis DateNow (fun now => Ret now) ;;
    Ret (Output (profile_output policyId name (wp_settings props)
                   createdAt modifiedAt)).

(* -------------------------------------------------------------- *)
(** *** RedirectRule *)

(** [convertWildcardUrlToExpression]: it parses its argument with the
    platform's [URL] class, which throws on a malformed URL; the
    result of parsing and conversion is taken as given. *)
Variable convertWildcardUrlToExpression : string -> Js.Error + string.

Definition rulesets_path (zoneId : string) : string :=
  "/zones/" ++ zoneId ++ "/rulesets".

Definition getRedirectRuleset (api : CloudflareApi) (zoneId : string)
  : M (option string) :=
  response <- api_get KRulesetList (rulesets_path zoneId) ;;
  if negb (ok (head response)) then Ret None
  else
    let redirectRuleset :=
      Js.find (fun ruleset =>
                 String.eqb (ruleset_phase ruleset)
                   "http_request_dynamic_redirect")
              (json response) in
    Ret (Js.or_else (option_map ruleset_id redirectRuleset) None).

Definition createRedirectRuleset (api : CloudflareApi) (zoneId : string)
  : M string :=
  response <- api_post KRuleset (rulesets_path zoneId)
                (Js.JObj [("name", Js.JStr "Zone-level redirect ruleset");
                          ("description", Js.JStr "Redirect rules for the zone");
                          ("kind", Js.JStr "zone");
                          ("phase", Js.JStr "http_request_dynamic_redirect")]) ;;
  if negb (ok (head response))
  then Throw (Js.new_Error ("Failed to create redirect ruleset: "
                              ++ statusText (head response)))
  else Ret (ruleset_id (json response)).

Definition getOrCreateRedirectRuleset (api : CloudflareApi) (zoneId : string)
  : M string :=
  existingRulesetId <- getRedirectRuleset api zoneId ;;
  if Js.truthy existingRulesetId
  then Ret (Js.nullish existingRulesetId "")
  else createRedirectRuleset api zoneId.

Definition buildRuleBody (description expression targetUrl : string)
           (statusCode : Z) (preserveQueryString : bool) : Js.Json :=
  Js.JObj
    [("action", Js.JStr "redirect");
     ("description", Js.JStr description);
     ("expression", Js.JStr expression);
     ("enabled", Js.JBool true);
     ("action_parameters",
       Js.JObj
         [("from_value",
            Js.JObj
              [("status_code", Js.JNum statusCode);
               ("target_url", Js.JObj [("value", Js.JStr targetUrl)]);
               ("preserve_query_string", Js.JBool preserveQueryString)])])].

Definition fetch_failure (what : string) (r : ResponseHead) : Js.Error :=
  Js.new_Error ("Failed to " ++ what ++ " redirect rule: "
                  ++ JsNumber.String (status r) ++ " " ++ statusText r
                  ++ String (ascii_of_nat 10) ("Response: " ++ text r)).

Definition createRule (api : CloudflareApi) (zoneId rulesetId : string)
           (ruleBody : Js.Json) : M CloudflareRule :=
  response <- api_post KRuleset
                (rulesets_path zoneId ++ "/" ++ rulesetId ++ "/rules")
                ruleBody ;;
  if negb (ok (head response))
  then Throw (fetch_failure "create" (head response))
  else
    match last (map Some (ruleset_rules (json response))) None with
    | None => Throw (Js.new_Error "Created rule not found in response")
    | Some createdRule => Ret createdRule
    end.

Definition updateRule (api : CloudflareApi) (zoneId rulesetId ruleId : string)
           (ruleBody : Js.Json) : M CloudflareRule :=
  if negb (Js.truthy_string ruleId)
  then Throw (Js.new_Error "ruleId is required for update")
  else
    response <- api_patch KRuleset
                  (rulesets_path zoneId ++ "/" ++ rulesetId
                     ++ "/rules/" ++ ruleId)
                  ruleBody ;;
    if negb (ok (head response))
    then Throw (fetch_failure "update" (head response))
    else
      match Js.find (fun rule => String.eqb (rule_id rule) ruleId)
                    (ruleset_rules (json response)) with
      | None => Throw (Js.new_Error ("Updated rule " ++ ruleId
                                       ++ " not found in response"))
      | Some updatedRule => Ret updatedRule
      end.

Definition deleteRule (api : CloudflareApi) (zoneId rulesetId ruleId : string)
  : M unit :=
  response <- api_delete KNoBody
                (rulesets_path zoneId ++ "/" ++ rulesetId
                   ++ "/rules/" ++ ruleId) ;;
  if negb (ok (head response)) && negb (status (head response) =? 404)
  then Throw (fetch_failure "delete" (head response))
  else Ret tt.

Definition validation_error : Js.Error :=
  Js.new_Error
    "Cannot specify both requestUrl and expression. Use requestUrl for wildcard redirects or expression for dynamic redirects.".

Definition zone_text (zone : string + Zone) : string :=
  match zone with inl s => s | inr _ => "[object Object]" end.

(** The RedirectRule handler, run with the client [api]. *)
Definition RedirectRule (api : CloudflareApi)
           (this : Context RedirectRuleOutput) (id : string)
           (props : RedirectRuleProps)
  : M (HandlerResult RedirectRuleOutput) :=
  let description :=
    Js.nullish (rr_description props) (createPhysicalName (scope this) id) in
  zoneId <-
    match rr_zone props with
    | inl domain =>
        if Js.includes domain "."
        then zone <- await (GetZoneByDomain domain) ;;
             Ret (option_map zone_id zone)
        else Ret (Some domain)
    | inr zone => Ret (Some (zone_id zone))
    end ;;
  if negb (Js.truthy zoneId)
  then Throw (Js.new_Error ("Zone " ++ zone_text (rr_zone props)
                              ++ " not found"))
  else
    let zoneId := Js.nullish zoneId "" in
    let output_ruleId := option_map ro_ruleId (output this) in
    let output_rulesetId := option_map ro_rulesetId (output this) in
    if phase_eqb (phase this) Delete then
      (if Js.truthy output_ruleId && Js.truthy output_rulesetId
       then deleteRule api zoneId (Js.nullish output_rulesetId "")
              (Js.nullish output_ruleId "")
       else Ret tt) ;;;
      Ret Destroyed
    else if Js.truthy (rr_requestUrl props) && Js.truthy (rr_expression props)
    then Throw validation_error
    else
      let statusCode := Js.nullish (rr_statusCode props) 301 in
      let preserveQueryString :=
        Js.nullish (rr_preserveQueryString props) true in
      ruleExpression <-
        (if Js.truthy (rr_requestUrl props)
         then match convertWildcardUrlToExpression
                      (Js.nullish (rr_requestUrl props) "") with
              | inl e => Throw e
              | inr expression => Ret expression
              end
         else if Js.truthy (rr_expression props)
         then Ret (Js.nullish (rr_expression props) "")
         else Ret "true") ;;
      let ruleBody :=
        buildRuleBody description ruleExpression (rr_targetUrl props)
          statusCode preserveQueryString in
      let result (rule : CloudflareRule) (rulesetId : string) :=
        Output
          (mkRedirectOutput (rule_id rule) rulesetId zoneId description
             (rr_requestUrl props) (rr_expression props)
             (rr_targetUrl props) statusCode preserveQueryString
             (Js.nullish (rule_enabled rule) true)
             (rule_last_updated rule)) in
      if phase_eqb (phase this) Update
         && Js.truthy output_ruleId && Js.truthy output_rulesetId
      then
        updatedRule <-
          updateRule api zoneId (Js.nullish output_rulesetId "")
            (Js.nullish output_ruleId "") ruleBody ;;
        Ret (result updatedRule (Js.nullish output_rulesetId ""))
      else
        rulesetId <- getOrCreateRedirectRuleset api zoneId ;;
        createdRule <- createRule api zoneId rulesetId ruleBody ;;
        Ret (result createdRule rulesetId).

End Handlers.

End Cloudflare.

(* ================================================================== *)
(** ** Stripe v2: client, data and handlers *)
(* ================================================================== *)

Module Stripe.

(** [Secret] (secret.ts is not among the sources): a wrapped string. *)
Record Secret : Type := mkSecret { unencrypted : string }.

(** [interface StripeV2Client], the part fixed at construction. *)
Record StripeV2Client : Type := mkClient { apiKey : string }.

(** The key resolution of [createStripeV2Client]: the [apiKey] option
    when it is truthy, the environment variable STRIPE_API_KEY
    otherwise, and an error when neither is set.  (Loading the peer
    package is taken to succeed.) *)
Definition createStripeV2Client (options_apiKey : option (string + Secret))
           (env_STRIPE_API_KEY : option string)
  : Js.Error + StripeV2Client :=
  let from_env :=
    if negb (Js.truthy env_STRIPE_API_KEY)
    then inl (Js.new_Error
                "Stripe API key is required. Provide it via the apiKey parameter or set the STRIPE_API_KEY environment variable.")
    else inr (mkClient (Js.nullish env_STRIPE_API_KEY "")) in
  match options_apiKey with
  | Some (inl key) =>
      if Js.truthy_string key then inr (mkClient key) else from_env
  | Some (inr secret) => inr (mkClient (unencrypted secret))
  | None => from_env
  end.

(** [isStripeV2RetryableError]. *)
Definition isStripeV2RetryableError (error : Js.Error) : bool :=
  Js.is_number (Js.err_status error) 429
  || Js.is_number (Js.err_statusCode error) 429
  || Js.is_string (Js.err_code error) "rate_limit"
  || Js.is_string (Js.err_type error) "rate_limit_error".

(** [isStripeV2ConflictError]. *)
Definition isStripeV2ConflictError (error : Js.Error) : bool :=
  Js.is_number (Js.err_status error) 409
  || Js.is_number (Js.err_statusCode error) 409.

(** [error?.status === 404 || error?.statusCode === 404]. *)
Definition is_404 (error : Js.Error) : bool :=
  Js.is_number (Js.err_status error) 404
  || Js.is_number (Js.err_statusCode error) 404.

(** [handleStripeV2DeleteError]: it returns for a missing resource
    ([None]) and rethrows every other error. *)
Definition handleStripeV2DeleteError (error : Js.Error)
           (resourceType : string) (resourceId : option string)
  : option Js.Error :=
  if Js.is_string (Js.err_code error) "resource_missing"
     || Js.is_number (Js.err_status error) 404
     || Js.is_number (Js.err_statusCode error) 404
  then None
  else Some error.

(* ---------------------------------------------------------------- *)
(** *** The request helper of the client *)

(** A raw HTTP response of the Stripe SDK. *)
Record RawResponse : Type := mkRaw {
  content_type : option string;
  raw_text : string
}.

(** What [request] does to the outside: raw requests through the SDK
    and pauses between attempts. *)
Inductive RawE : Type -> Type :=
| RawRequest (m : Method) (path : string) (body : option string)
    : RawE (Js.Error + RawResponse)
| Sleep (ms : Z) : RawE unit.

Definition is_raw_request (e : Entry RawE) : bool :=
  match e with
  | @Requested _ _ (RawRequest _ _ _) => true
  | _ => false
  end.

(** The pauses observed in a run, in order. *)
Fixpoint sleeps (t : list (Entry RawE)) : list Z :=
  match t with
  | [] => []
  | @Requested _ _ (Sleep ms) :: t' => ms :: sleeps t'
  | _ :: t' => sleeps t'
  end.

(** Modelled from the spec: withExponentialBackoff (util/retry.ts is
    not among the sources).  The operation is attempted; a failure
    that is retryable is followed by a pause and another attempt, the
    pause starting at the initial delay and doubling each time; a
    failure that is not retryable, or the failure of the last allowed
    attempt, is propagated.  [attempts] is the number of attempts
    still allowed. *)
Fixpoint withExponentialBackoff {A : Type} (operation : Prog RawE A)
         (isRetryable : Js.Error -> bool) (attempts : nat) (delay : Z)
  : Prog RawE A :=
  match attempts with
  | O => operation
  | S O => operation
  | S attempts' =>
      try_catch operation
        (fun error =>
           if isRetryable error
           then Vis (Sleep delay) (fun _ =>
                  withExponentialBackoff operation isRetryable
                    attempts' (delay * 2))
           else Throw error)
  end.

Section Request.

(** [JSON.stringify] and [JSON.parse] of the platform. *)
Variable JSON_stringify : Js.Json -> string.
Variable JSON_parse : string -> Js.Error + Js.Json.

(** One attempt of [request]: the raw request, then the body parsed
    when the response is JSON. *)
Definition request_attempt (m : Method) (path : string)
           (body : option Js.Json) : Prog RawE Js.Json :=
  response <- await (RawRequest m path (option_map JSON_stringify body)) ;;
  if match content_type response with
     | Some contentType => Js.includes contentType "application/json"
     | None => false
     end
  then match JSON_parse (raw_text response) with
       | inl e => Throw e
       | inr v => Ret v
       end
  else Ret (Js.JObj []).

(** [request(method, path, body)] of [createStripeV2Client]. *)
Definition request (m : Method) (path : string) (body : option Js.Json)
  : Prog RawE Js.Json :=
  withExponentialBackoff (request_attempt m path body)
    isStripeV2RetryableError 5 1000.

End Request.

(* ---------------------------------------------------------------- *)
(** *** Data *)

Definition Metadata : Type := list (string * string).

Definition metadata_json (m : Metadata) : Js.Json :=
  Js.JObj (map (fun kv => (fst kv, Js.JStr (snd kv))) m).

(** [interface V2RateCard]. *)
Record V2RateCard : Type := mkV2RateCard {
  rc_id : string;
  rc_display_name : string;
  rc_currency : string;
  rc_service_interval : string;
  rc_service_interval_count : Z;
  rc_tax_behavior : string;
  rc_lookup_key : option string;
  rc_metadata : option Metadata;
  rc_created : Z;
  rc_updated : Z;
  rc_livemode : bool
}.

(** [number | "inf"]. *)
Inductive UpTo : Type :=
| UpToNumber (n : Z)
| UpToInf.

(** A tier as the API carries it: [up_to] is [number | "inf"] in
    request parameters and [number | null] in [V2RateTier]; [None] is
    [null]. *)
Record V2RateTier : Type := mkV2Tier {
  up_to : option UpTo;
  unit_amount : option string;
  flat_amount : option string
}.

(** [interface RateTier]. *)
Record RateTier : Type := mkTier {
  upTo : UpTo;
  unitAmount : option JsNumber.number;
  flatAmount : option JsNumber.number
}.

(** [interface V2Rate]. *)
Record V2Rate : Type := mkV2Rate {
  rate_id : string;
  rate_rate_card : string;
  rate_metered_item : string;
  rate_unit_amount : option string;
  rate_tiers : option (list V2RateTier);
  rate_tiers_mode : option string;
  rate_metadata : option Metadata;
  rate_created : Z;
  rate_updated : Z;
  rate_livemode : bool
}.

(** [{ id: string; deleted: boolean }]. *)
Record Deleted : Type := mkDeleted {
  deleted_id : string;
  deleted : bool
}.

(** [interface RateCardProps]. *)
Record RateCardProps : Type := mkRateCardProps {
  displayName : string;
  currency : string;
  serviceInterval : option string;
  serviceIntervalCount : option Z;
  taxBehavior : option string;
  lookupKey : option string;
  metadata : option Metadata;
  rcp_apiKey : option Secret;
  adopt : option bool
}.

(** [interface RateCard], the handler's output. *)
Record RateCardOutput : Type := mkRateCardOutput {
  rco_id : string;
  rco_displayName : string;
  rco_currency : string;
  rco_serviceInterval : string;
  rco_serviceIntervalCount : Z;
  rco_taxBehavior : string;
  rco_lookupKey : option string;
  rco_metadata : option Metadata;
  rco_createdAt : Z;
  rco_updatedAt : Z;
  rco_livemode : bool
}.

(** [MeteredItem] (metered-item.ts): its id. *)
Record MeteredItem : Type := mkMeteredItem { metered_item_id : string }.

(** [interface RateProps]. *)
Record RateProps : Type := mkRateProps {
  rateCard : string + RateCardOutput;
  meteredItem : string + MeteredItem;
  rp_unitAmount : option JsNumber.number;
  tiers : option (list RateTier);
  tiersMode : option string;
  rp_metadata : option Metadata;
  rp_apiKey : option Secret
}.

(** [interface Rate], the handler's output. *)
Record RateOutput : Type := mkRateOutput {
  ro_id : string;
  ro_rateCard : string;
  ro_meteredItem : string;
  ro_unitAmount : option string;
  ro_tiers : option (list RateTier);
  ro_tiersMode : option string;
  ro_metadata : option Metadata;
  ro_createdAt : Z;
  ro_updatedAt : Z;
  ro_livemode : bool
}.

(* ---------------------------------------------------------------- *)
(** *** Client methods as the handlers see them *)

Inductive Kind : Type := KRateCard | KRateCardList | KRate | KDeleted.

Definition payload (k : Kind) : Type :=
  match k with
  | KRateCard => V2RateCard
  | KRateCardList => list V2RateCard
  | KRate => V2Rate
  | KDeleted => Deleted
  end.

(** A call of the client's [request] helper, answered at type
    [payload k]: it resolves or rejects. *)
Inductive StripeE : Type -> Type :=
| Request (k : Kind) (m : Method) (path : string) (params : option Js.Json)
    : StripeE (Js.Error + payload k).

Definition M : Type -> Type := Prog StripeE.

Definition rateCards_create (params : Js.Json) : M V2RateCard :=
  await (Request KRateCard POST "/v2/billing/rate_cards" (Some params)).
Definition rateCards_update (id : string) (params : Js.Json) : M V2RateCard :=
  await (Request KRateCard POST ("/v2/billing/rate_cards/" ++ id) (Some params)).
Definition rateCards_del (id : string) : M Deleted :=
  await (Request KDeleted DELETE ("/v2/billing/rate_cards/" ++ id) None).
Definition rateCards_list : M (list V2RateCard) :=
  await (Request KRateCardList GET "/v2/billing/rate_cards" None).

Definition rates_create (rateCardId : string) (params : Js.Json) : M V2Rate :=
  await (Request KRate POST
           ("/v2/billing/rate_cards/" ++ rateCardId ++ "/rates") (Some params)).
Definition rates_update (rateCardId rateId : string) (params : Js.Json)
  : M V2Rate :=
  await (Request KRate POST
           ("/v2/billing/rate_cards/" ++ rateCardId ++ "/rates/" ++ rateId)
           (Some params)).
Definition rates_del (rateCardId rateId : string) : M Deleted :=
  await (Request KDeleted DELETE
           ("/v2/billing/rate_cards/" ++ rateCardId ++ "/rates/" ++ rateId)
           None).

(* ---------------------------------------------------------------- *)
(** *** RateCard *)

Definition mapV2RateCardToOutput (rateCard : V2RateCard) : RateCardOutput :=
  mkRateCardOutput
    (rc_id rateCard) (rc_display_name rateCard) (rc_currency rateCard)
    (rc_service_interval rateCard) (rc_service_interval_count rateCard)
    (rc_tax_behavior rateCard) (rc_lookup_key rateCard)
    (rc_metadata rateCard) (rc_created rateCard) (rc_updated rateCard)
    (rc_livemode rateCard).

(** The delete phase shared by the Stripe handlers: the delete call,
    whose 404 is logged and skipped and whose other errors go through
    [handleStripeV2DeleteError]. *)
Definition delete_remote (del : M Deleted) (resourceType id : string)
  : M unit :=
  try_catch (del ;;; Ret tt)
    (fun error =>
       if is_404 error then Ret tt
       else match handleStripeV2DeleteError error resourceType (Some id) with
            | None => Ret tt
            | Some e => Throw e
            end).

(** The RateCard handler; [env_STRIPE_API_KEY] is the environment
    variable of that name. *)
Definition RateCard (env_STRIPE_API_KEY : option string)
           (this : Context RateCardOutput) (_id : string)
           (props : RateCardProps) : M (HandlerResult RateCardOutput) :=
  let adopt := Js.nullish (adopt props) (scope_adopt (scope this)) in
  match createStripeV2Client (option_map inr (rcp_apiKey props))
          env_STRIPE_API_KEY with
  | inl e => Throw e
  | inr client =>
      let serviceInterval := Js.nullish (serviceInterval props) "month" in
      let serviceIntervalCount := Js.nullish (serviceIntervalCount props) 1 in
      let taxBehavior := Js.nullish (taxBehavior props) "exclusive" in
      let output_id := option_map rco_id (output this) in
      if phase_eqb (phase this) Delete then
        (if Js.truthy output_id
         then delete_remote (rateCards_del (Js.nullish output_id ""))
                "RateCard" (Js.nullish output_id "")
         else Ret tt) ;;;
        Ret Destroyed
      else
        try_catch
          (rateCard <-
             (if phase_eqb (phase this) Update && Js.truthy output_id
              then
                rateCards_update (Js.nullish output_id "")
                  (Js.JObj ([("display_name", Js.JStr (displayName props))]
                              ++ Js.field "lookup_key" Js.JStr (lookupKey props)
                              ++ Js.field "metadata" metadata_json
                                   (metadata props)))
              else
                try_catch
                  (rateCards_create
                     (Js.JObj
                        ([("display_name", Js.JStr (displayName props));
                          ("currency", Js.JStr (currency props));
                          ("service_interval", Js.JStr serviceInterval);
                          ("service_interval_count", Js.JNum serviceIntervalCount);
                          ("tax_behavior", Js.JStr taxBehavior)]
                           ++ Js.field "lookup_key" Js.JStr (lookupKey props)
                           ++ Js.field "metadata" metadata_json
                                (metadata props))))
                  (fun error =>
                     if isStripeV2ConflictError error && adopt
                        && Js.truthy (lookupKey props)
                     then
                       existingRateCards <- rateCards_list ;;
                       let existingRateCard :=
                         Js.find
                           (fun rc =>
                              match rc_lookup_key rc, lookupKey props with
                              | Some a, Some b => String.eqb a b
                              | None, None => true
                              | _, _ => false
                              end)
                           existingRateCards in
                       match existingRateCard with
                       | Some existingRateCard =>
                           rateCards_update (rc_id existingRateCard)
                             (Js.JObj
                                ([("display_name", Js.JStr (displayName props))]
                                   ++ Js.field "metadata" metadata_json
                                        (metadata props)))
                       | None => Throw error
                       end
                     else Throw error)) ;;
           Ret (Output (mapV2RateCardToOutput rateCard)))
          (fun error => Throw error)
  end.

(* ---------------------------------------------------------------- *)
(** *** Rate *)

(** [mapV2TierToOutput]. *)
Definition mapV2TierToOutput (tier : V2RateTier) : RateTier :=
  mkTier
    (match up_to tier with None => UpToInf | Some v => v end)
    (if Js.truthy (unit_amount tier)
     then Some (JsNumber.parseInt_number (Js.nullish (unit_amount tier) ""))
     else None)
    (if Js.truthy (flat_amount tier)
     then Some (JsNumber.parseInt_number (Js.nullish (flat_amount tier) ""))
     else None).

(** The element function of [props.tiers?.map(...)]: amounts become
    strings, [upTo] is passed through. *)
Definition apiTier (tier : RateTier) : V2RateTier :=
  mkV2Tier
    (Some (upTo tier))
    (option_map JsNumber.String_number (unitAmount tier))
    (option_map JsNumber.String_number (flatAmount tier)).

Definition mapV2RateToOutput (rate : V2Rate) : RateOutput :=
  mkRateOutput
    (rate_id rate) (rate_rate_card rate) (rate_metered_item rate)
    (rate_unit_amount rate)
    (option_map (map mapV2TierToOutput) (rate_tiers rate))
    (rate_tiers_mode rate) (rate_metadata rate)
    (rate_created rate) (rate_updated rate) (rate_livemode rate).

Definition upTo_json (u : option UpTo) : Js.Json :=
  match u with
  | Some (UpToNumber n) => Js.JNum n
  | Some UpToInf => Js.JStr "inf"
  | None => Js.JNull
  end.

Definition tier_json (t : V2RateTier) : Js.Json :=
  Js.JObj ([("up_to", upTo_json (up_to t))]
             ++ Js.field "unit_amount" Js.JStr (unit_amount t)
             ++ Js.field "flat_amount" Js.JStr (flat_amount t)).

Definition both_error : Js.Error :=
  Js.new_Error "Cannot specify both unitAmount and tiers. Use one or the other.".

Definition neither_error : Js.Error :=
  Js.new_Error "Either unitAmount or tiers is required".

(** The Rate handler. *)
Definition Rate (env_STRIPE_API_KEY : option string)
           (this : Context RateOutput) (_id : string) (props : RateProps)
  : M (HandlerResult RateOutput) :=
  match createStripeV2Client (option_map inr (rp_apiKey props))
          env_STRIPE_API_KEY with
  | inl e => Throw e
  | inr client =>
      let rateCardId :=
        match rateCard props with inl s => s | inr rc => rco_id rc end in
      let meteredItemId :=
        match meteredItem props with
        | inl s => s
        | inr mi => metered_item_id mi
        end in
      let output_id := option_map ro_id (output this) in
      let output_rateCard := option_map ro_rateCard (output this) in
      if phase_eqb (phase this) Delete then
        (if Js.truthy output_id && Js.truthy output_rateCard
         then delete_remote
                (rates_del (Js.nullish output_rateCard "")
                   (Js.nullish output_id ""))
                "Rate" (Js.nullish output_id "")
         else Ret tt) ;;;
        Ret Destroyed
      else
        let hasTiers :=
          match tiers props with
          | Some ts => (0 <? List.length ts)%nat
          | None => false
          end in
        let hasUnitAmount :=
          match rp_unitAmount props with Some _ => true | None => false end in
        if hasTiers && hasUnitAmount then Throw both_error
        else if negb hasTiers && negb hasUnitAmount then Throw neither_error
        else
          try_catch
            (let apiTiers := option_map (map apiTier) (tiers props) in
             let params :=
               (Js.field "unit_amount" Js.JStr
                  (option_map JsNumber.String_number (rp_unitAmount props))
                  ++ Js.field "tiers" (fun ts => Js.JArr (map tier_json ts))
                       apiTiers
                  ++ Js.field "tiers_mode" Js.JStr (tiersMode props)
                  ++ Js.field "metadata" metadata_json (rp_metadata props))%list in
             rate <-
               (if phase_eqb (phase this) Update && Js.truthy output_id
                then rates_update (Js.nullish output_rateCard "")
                       (Js.nullish output_id "") (Js.JObj params)
                else rates_create rateCardId
                       (Js.JObj (("metered_item", Js.JStr meteredItemId)
                                   :: params))) ;;
             Ret (Output (mapV2RateToOutput rate)))
            (fun error => Throw error)
  end.

End Stripe.

(* ================================================================== *)
(** ** Neon: data, requests and the project handler *)
(* ================================================================== *)

Module Neon.

(** [neon.Project], the fields the handler reads. *)
Record Project : Type := mkProject {
  project_id : string;
  project_name : string;
  project_created_at : string;
  project_updated_at : string;
  project_proxy_host : string;
  project_region_id : string;
  project_pg_version : Z;
  project_settings : option Js.Json;
  project_default_endpoint_settings : option Js.Json;
  project_history_retention_seconds : option Z
}.

(** [neon.Branch]: its id and the rest of the object. *)
Record Branch : Type := mkBranch {
  branch_id : string;
  branch_rest : Js.Json
}.

(** [neon.Database], the fields the handler reads. *)
Record Database : Type := mkDatabase {
  database_name : string;
  database_owner_name : string;
  database_branch_id : string
}.

(** The data of a created project. *)
Record CreatedProject : Type := mkCreated {
  created_project : Project;
  created_branch : Branch;
  created_operations : list Js.Json;
  created_connection_uris : list Js.Json;
  created_roles : list Js.Json;
  created_databases : list Database
}.

(** What [deleteProject] resolves to with [throwOnError: false]: an
    optional error with its message, and the response status. *)
Record DeleteResponse : Type := mkDeleteResponse {
  delete_error : option string;
  delete_status : Z
}.

(** [interface NeonProjectProps]. *)
Record NeonProjectProps : Type := mkProps {
  adopt : option bool;
  delete : option bool;
  name : option string;
  region_id : option string;
  pg_version : option Z;
  default_branch_name : option string;
  settings : option Js.Json;
  default_endpoint_settings : option Js.Json;
  history_retention_seconds : option Z
}.

(** [interface NeonProject], the handler's output. *)
Record NeonProjectOutput : Type := mkOutput {
  out_id : string;
  out_name : string;
  out_created_at : string;
  out_updated_at : string;
  out_proxy_host : string;
  out_region_id : string;
  out_pg_version : Z;
  out_settings : option Js.Json;
  out_default_endpoint_settings : option Js.Json;
  out_history_retention_seconds : option Z;
  out_connection_uris : list Js.Json;
  out_roles : list Js.Json;
  out_databases : list Database;
  out_branch : Branch;
  out_endpoints : list Js.Json
}.

(** Requests of the Neon client; each resolves or rejects.  The last
    constructor is no request: it stands for the timing of the
    answers (see [reject_first]). *)
Inductive NeonE : Type -> Type :=
| ListProjects (search : string) : NeonE (Js.Error + list Project)
| ListProjectEndpoints (project : string) : NeonE (Js.Error + list Js.Json)
| ListProjectBranches (project search : string)
    : NeonE (Js.Error + list Branch)
| ListProjectBranchRoles (project branch : string)
    : NeonE (Js.Error + list Js.Json)
| ListProjectBranchDatabases (project branch : string)
    : NeonE (Js.Error + list Database)
| GetConnectionUri (project branch database role : string) (pooled : bool)
    : NeonE (Js.Error + string)
| CreateProject (body : Js.Json) : NeonE (Js.Error + CreatedProject)
| WaitForOperations (operations : list Js.Json) : NeonE (Js.Error + unit)
| GetProjectBranch (project branch : string) : NeonE (Js.Error + Branch)
| UpdateProject (project : string) (body : Js.Json)
    : NeonE (Js.Error + Project)
| DeleteProject (project : string) : NeonE (Js.Error + DeleteResponse)
| FirstRejected (rejections : list Js.Error) : NeonE nat.

Definition M : Type -> Type := Prog NeonE.

(** A request issued now and awaited later. *)
Definition start {X : Type} (ev : NeonE (Js.Error + X)) : M (Js.Error + X) :=
  Vis ev (fun r => Ret r).

Definition settle {X : Type} (r : Js.Error + X) : M X :=
  match r with inl e => Throw e | inr x => Ret x end.

(** The rejection of a settled promise, if it rejected. *)
Definition rejection {X : Type} (r : Js.Error + X) : list Js.Error :=
  match r with inl e => [e] | inr _ => [] end.

(** The values of settled promises that all fulfilled. *)
Fixpoint all_fulfilled {X : Type} (l : list (Js.Error + X)) : option (list X) :=
  match l with
  | [] => Some []
  | inl _ :: _ => None
  | inr x :: l' => option_map (cons x) (all_fulfilled l')
  end.

(** [await Promise.all(...)] over promises that were all started, one
    of which rejects: the rejection that comes first in time is
    thrown.  [rejections] lists the rejections in the order in which
    the promises were started; when there are several, which of them
    came first is a matter of timing, which [FirstRejected] asks the
    provider's side for (it is no request of the client).  With no
    rejection the promise would stay pending. *)
Definition reject_first {A : Type} (rejections : list Js.Error) : M A :=
  match rejections with
  | [] => Diverge
  | [e] => Throw e
  | e :: _ =>
      Vis (FirstRejected rejections) (fun i => Throw (nth i rejections e))
  end.

Fixpoint for_each {A B : Type} (f : A -> M B) (l : list A) : M (list B) :=
  match l with
  | [] => Ret []
  | a :: l' => b <- f a ;; bs <- for_each f l' ;; Ret (b :: bs)
  end.

Section Handler.

(** [scope.createPhysicalName(id)] (scope.ts is not among the
    sources): a function of the scope and the logical id. *)
Variable createPhysicalName : Scope -> string -> string.

(** [formatRole] and [formatConnectionUri] (neon/utils.ts is not
    among the sources). *)
Variable formatRole : Js.Json -> Js.Json.
Variable formatConnectionUri : Js.Json -> Js.Json.

(** The connection record [fetchConnectionUri] builds from a
    database and its URI; parsing the URI with the platform's [URL]
    class may throw. *)
Variable connection_of_uri : Database -> string -> Js.Error + Js.Json.

Definition not_found (name : string) : Js.Error :=
  Js.mkError Js.NeonProjectNotFoundC
    ("Failed to find existing project " ++ String Js.dquote name
       ++ String Js.dquote ".")
    None None None None.

(** [fetchProject].  The endpoints and the roles are asked for before
    they are awaited; the connection URIs of all the databases are
    asked for at once ([databases.map(fetchConnectionUri)]), and
    [Promise.all] then waits for all of these together. *)
Definition fetchProject (props : NeonProjectProps) (name : string)
  : M NeonProjectOutput :=
  projects <- await (ListProjects name) ;;
  match projects with
  | [] => Throw (not_found name)
  | project :: _ :: _ =>
      Throw (Js.new_Error
               ("Multiple projects found with name "
                  ++ String Js.dquote name
                  ++ String Js.dquote ". Name must be unique when referencing existing projects."))
  | [project] =>
      endpointsPromise <- start (ListProjectEndpoints (project_id project)) ;;
      let branchName := Js.nullish (default_branch_name props) "main" in
      branches <- await (ListProjectBranches (project_id project) branchName) ;;
      match branches with
      | [] =>
          Throw (Js.new_Error
                   ("Branch " ++ branchName
                      ++ " does not exist in Neon project "
                      ++ String Js.dquote name
                      ++ String Js.dquote (" (" ++ project_id project ++ ").")))
      | branch :: _ =>
          rolesPromise <-
            start (ListProjectBranchRoles (project_id project)
                     (branch_id branch)) ;;
          databases <-
            await (ListProjectBranchDatabases (project_id project)
                     (branch_id branch)) ;;
          uris <-
            for_each
              (fun database =>
                 start (GetConnectionUri (project_id project)
                          (database_branch_id database)
                          (database_name database)
                          (database_owner_name database) false))
              databases ;;
          let connections :=
            map (fun answered =>
                   match snd answered with
                   | inl e => inl e
                   | inr uri => connection_of_uri (fst answered) uri
                   end)
                (combine databases uris) in
          match all_fulfilled connections, endpointsPromise, rolesPromise with
          | Some connection_uris, inr endpoints, inr roles =>
              Ret (mkOutput
                     (project_id project) (project_name project)
                     (project_created_at project) (project_updated_at project)
                     (project_proxy_host project) (project_region_id project)
                     (project_pg_version project) (project_settings project)
                     (project_default_endpoint_settings project)
                     (Some (Js.nullish
                              (project_history_retention_seconds project) 86400))
                     connection_uris (map formatRole roles) databases
                     branch endpoints)
          | _, _, _ =>
              reject_first
                (List.concat (map rejection connections)
                   ++ rejection endpointsPromise
                   ++ rejection rolesPromise)
          end
      end
  end.

(** [props.name ?? this.output?.name ?? this.scope.createPhysicalName(id)]. *)
Definition project_name_of (this : Context NeonProjectOutput)
           (id : string) (props : NeonProjectProps) : string :=
  Js.nullish
    (Js.nullish_opt (name props) (option_map out_name (output this)))
    (createPhysicalName (scope this) id).

Definition create_body (name : string) (props : NeonProjectProps) : Js.Json :=
  Js.JObj
    [("project",
       Js.JObj
         ([("name", Js.JStr name)]
            ++ Js.field "region_id" Js.JStr (region_id props)
            ++ Js.field "pg_version" Js.JNum (pg_version props)
            ++ Js.field "default_endpoint_settings" (fun j => j)
                 (default_endpoint_settings props)
            ++ [("branch",
                  Js.JObj (Js.field "name" Js.JStr
                             (default_branch_name props)))]
            ++ Js.field "settings" (fun j => j) (settings props)
            ++ Js.field "history_retention_seconds" Js.JNum
                 (history_retention_seconds props)))].

Definition update_body (name : string) (props : NeonProjectProps) : Js.Json :=
  Js.JObj
    [("project",
       Js.JObj
         ([("name", Js.JStr name)]
            ++ Js.field "settings" (fun j => j) (settings props)
            ++ Js.field "default_endpoint_settings" (fun j => j)
                 (default_endpoint_settings props)
            ++ Js.field "history_retention_seconds" Js.JNum
                 (history_retention_seconds props)))].

(** [if (props.adopt)]: the adopt setting the handler acts on. *)
Definition acts_on_adopt (props : NeonProjectProps)
           (this : Context NeonProjectOutput) : bool :=
  match adopt props with Some b => b | None => false end.

(** The NeonProject handler. *)
Definition NeonProject (this : Context NeonProjectOutput) (id : string)
           (props : NeonProjectProps)
  : M (HandlerResult NeonProjectOutput) :=
  let name := project_name_of this id props in
  match phase this with
  | Create =>
      adopted <-
        (if acts_on_adopt props this
         then
           try_catch
             (found <- fetchProject props name ;; Ret (Some found))
             (fun error =>
                if negb (Js.instanceof_NeonProjectNotFound error)
                then Throw error
                else Ret None)
         else Ret None) ;;
      match adopted with
      | Some found => Ret (Output found)
      | None =>
          data <- await (CreateProject (create_body name props)) ;;
          await (WaitForOperations (created_operations data)) ;;;
          branchPromise <-
            start (GetProjectBranch (project_id (created_project data))
                     (branch_id (created_branch data))) ;;
          endpointsPromise <-
            start (ListProjectEndpoints
                     (project_id (created_project data))) ;;
          match branchPromise, endpointsPromise with
          | inr branch, inr endpoints =>
              let project := created_project data in
              Ret (Output
                     (mkOutput
                        (project_id project) (project_name project)
                        (project_created_at project)
                        (project_updated_at project)
                        (project_proxy_host project)
                        (project_region_id project)
                        (project_pg_version project)
                        (project_settings project)
                        (project_default_endpoint_settings project)
                        (project_history_retention_seconds project)
                        (map formatConnectionUri (created_connection_uris data))
                        (map formatRole (created_roles data))
                        (created_databases data)
                        branch endpoints))
          | _, _ =>
              reject_first
                (rejection branchPromise ++ rejection endpointsPromise)
          end
      end
  | Update =>
      match output this with
      | None =>
          Throw (Js.new_Error
                   "Cannot read properties of undefined (reading 'id')")
      | Some previous =>
          project <-
            await (UpdateProject (out_id previous) (update_body name props)) ;;
          Ret (Output
                 (mkOutput
                    (out_id previous) (project_name project)
                    (out_created_at previous)
                    (project_updated_at project)
                    (project_proxy_host project)
                    (project_region_id project)
                    (project_pg_version project)
                    (project_settings project)
                    (project_default_endpoint_settings project)
                    (project_history_retention_seconds project)
                    (out_connection_uris previous) (out_roles previous)
                    (out_databases previous) (out_branch previous)
                    (out_endpoints previous)))
      end
  | Delete =>
      (if negb (Js.is_false (delete props))
          && Js.truthy (option_map out_id (output this))
       then
         response <-
           await (DeleteProject
                    (Js.nullish (option_map out_id (output this)) "")) ;;
         match delete_error response with
         | Some message =>
             if negb (delete_status response =? 404)
             then Throw (Js.new_Error
                           ("Failed to delete project: " ++ message))
             else Ret tt
         | None => Ret tt
         end
       else Ret tt) ;;;
      Ret Destroyed
  end.

End Handler.

End Neon.

(* ================================================================== *)
(** ** Strings of the platform *)
(* ================================================================== *)

Module JsString.

(** [s.startsWith(p)]. *)
Definition startsWith (s p : string) : bool := String.prefix p s.

(** [s.endsWith(p)]. *)
Definition endsWith (s p : string) : bool :=
  let n := String.length s in
  let m := String.length p in
  (m <=? n)%nat && String.eqb (substring (n - m) m s) p.

(** [s.substring(i)]. *)
Definition substring_from (i : nat) (s : string) : string :=
  substring i (String.length s - i) s.

(** [s.substring(0, s.length - 1)]. *)
Definition drop_last (s : string) : string :=
  substring 0 (String.length s - 1) s.

(** [s.split(c)] for a separator of one character: the pieces between
    the separators, the empty ones included. *)
Fixpoint split (c : ascii) (s : string) : list string :=
  match s with
  | EmptyString => [""]
  | String a s' =>
      if Ascii.eqb a c then "" :: split c s'
      else match split c s' with
           | piece :: pieces => String a piece :: pieces
           | [] => [String a ""]
           end
  end.

(** [s.replace(/^p/, "")] for a literal [p]. *)
Definition remove_prefix (p s : string) : string :=
  if startsWith s p then substring_from (String.length p) s else s.

(** [s.replace(/p$/, "")] for a literal [p]. *)
Definition remove_suffix (p s : string) : string :=
  if endsWith s p
  then substring 0 (String.length s - String.length p) s
  else s.

(** A string between double quotes. *)
Definition quoted (s : string) : string :=
  String Js.dquote (s ++ String Js.dquote "").

End JsString.

(* ================================================================== *)
(** ** Cloudflare: the expression of a wildcard URL *)
(* ================================================================== *)

Module WildcardUrl.

Import JsString.

(** The properties of a parsed [URL] that
    [convertWildcardUrlToExpression] reads. *)
Record URL : Type := mkURL {
  hostname : string;
  pathname : string;
  protocol : string
}.

(** What [convertWildcardUrlToExpression] appends for the host name
    (the block "Handle hostname wildcards"). *)
Definition host_clause (hostname : string) : string :=
  if Js.includes hostname "*" then
    if startsWith hostname "*" then
      let suffix := substring_from 1 hostname in
      "http.host ends_with " ++ quoted suffix
    else if endsWith hostname "*" then
      let prefix := drop_last hostname in
      "http.host starts_with " ++ quoted prefix
    else
      let parts := split "*" hostname in
      if (List.length parts =? 2)%nat then
        "http.host starts_with " ++ quoted (nth 0 parts "")
          ++ " and http.host ends_with " ++ quoted (nth 1 parts "")
      else
        let baseDomain :=
          remove_suffix ".*" (remove_prefix "*." hostname) in
        "http.host contains " ++ quoted baseDomain
  else "http.host == " ++ quoted hostname.

(** What it appends for the path (the block "Handle pathname
    wildcards"). *)
Definition path_clause (pathname : string) : string :=
  if Js.includes pathname "*" then
    if endsWith pathname "*" then
      let prefix := drop_last pathname in
      " and http.request.uri.path starts_with " ++ quoted prefix
    else if startsWith pathname "*" then
      let suffix := substring_from 1 pathname in
      " and http.request.uri.path ends_with " ++ quoted suffix
    else
      let parts := split "*" pathname in
      if (List.length parts =? 2)%nat
         && Js.truthy_string (nth 0 parts "")
         && Js.truthy_string (nth 1 parts "")
      then
        " and http.request.uri.path starts_with " ++ quoted (nth 0 parts "")
          ++ " and http.request.uri.path ends_with "
          ++ quoted (nth 1 parts "")
      else
        let nonWildcardPart :=
          Js.nullish
            (Js.find (fun part => (0 <? String.length part)%nat) parts) "" in
        if Js.truthy_string nonWildcardPart
        then " and http.request.uri.path contains " ++ quoted nonWildcardPart
        else ""
  else if negb (String.eqb pathname "/")
  then " and http.request.uri.path == " ++ quoted pathname
  else "".

(** What it appends for the protocol (the block "Handle protocol"). *)
Definition protocol_clause (protocol : string) : string :=
  if String.eqb protocol "https:" then " and ssl"
  else if String.eqb protocol "http:" then " and not ssl"
  else "".

(** The body of [convertWildcardUrlToExpression] after the URL is
    parsed; [expression] is the variable the source appends to. *)
Definition expression_of (url : URL) : string :=
  let expression := "" in
  let expression := expression ++ host_clause (hostname url) in
  let expression := expression ++ path_clause (pathname url) in
  let expression := expression ++ protocol_clause (protocol url) in
  expression.

(** [convertWildcardUrlToExpression]; [new_URL] is the platform's URL
    parser, which yields the parsed URL or the error it throws. *)
Definition convertWildcardUrlToExpression
           (new_URL : string -> Js.Error + URL) (wildcardUrl : string)
  : Js.Error + string :=
  match new_URL wildcardUrl with
  | inl e => inl e
  | inr url => inr (expression_of url)
  end.

End WildcardUrl.

(* ================================================================== *)
(** ** Cloudflare: lookups by id *)
(* ================================================================== *)

Module Lookups.

Import Cloudflare.

Section Lookups.

Variable handleApiError : ResponseHead -> string -> string -> string -> Js.Error.

(** [getTunnelRoute]. *)
Definition getTunnelRoute (api : CloudflareApi) (routeId : string)
  : M CloudflareRoute :=
  response <- api_get KRoute (routes_path api ++ "/" ++ routeId) ;;
  if negb (ok (head response))
  then Throw (handleApiError (head response) "get" "route" routeId)
  else Ret (json response).

(** [findRuleInRuleset]. *)
Definition findRuleInRuleset (api : CloudflareApi)
           (zoneId rulesetId ruleId : string) : M (option CloudflareRule) :=
  response <- api_get KRuleset (rulesets_path zoneId ++ "/" ++ rulesetId) ;;
  if negb (ok (head response))
  then Throw (Js.new_Error
                ("Failed to get ruleset: "
                   ++ JsNumber.String (status (head response)) ++ " "
                   ++ statusText (head response)))
  else
    let rule :=
      Js.find (fun r => String.eqb (rule_id r) ruleId)
              (ruleset_rules (json response)) in
    Ret rule.

End Lookups.

End Lookups.

(* ================================================================== *)
(** ** Cloudflare: the default WARP profile *)
(* ================================================================== *)

Module WarpDefault.

Import Cloudflare.

(** [interface WarpDefaultProfileProps]. *)
Record WarpDefaultProfileProps : Type := mkDefaultProps {
  serviceModeV2 : option ServiceModeV2;
  disableAutoFallback : option bool;
  allowModeSwitch : option bool;
  switchLocked : option bool;
  tunnelProtocol : option string;
  autoConnect : option Z;
  allowedToLeave : option bool;
  captivePortal : option Z;
  supportUrl : option string;
  excludeOfficeIps : option bool;
  lanAllowMinutes : option Z;
  lanAllowSubnetSize : option Z;
  splitTunnel : option SplitTunnelConfig;
  delete : option bool
}.

(** [type WarpDefaultProfile], the handler's output: the props and the
    time of the modification. *)
Record WarpDefaultProfileOutput : Type := mkDefaultOutput {
  out_props : WarpDefaultProfileProps;
  modifiedAt : Z
}.

Section Handler.

Variable handleApiError : ResponseHead -> string -> string -> string -> Js.Error.

(** The element function of [props.splitTunnel.entries.map(...)]. *)
Definition split_entry (entry : SplitTunnelEntry) : Js.Json :=
  Js.JObj (Js.field "address" Js.JStr (entry_address entry)
             ++ (if Js.truthy (entry_description entry)
                 then Js.field "description" Js.JStr (entry_description entry)
                 else [])).

(** The device settings [updateDefaultPolicy] builds: the service
    mode when given, the eleven settings of DEVICE_SETTINGS_MAP in
    its order, and the split tunnel entries under [include] or
    [exclude]. *)
Definition deviceSettings (props : WarpDefaultProfileProps)
  : list (string * Js.Json) :=
  Js.field "service_mode_v2"
    (fun sm =>
       Js.JObj ([("mode", Js.JStr (sm_mode sm))]
                  ++ (if Js.truthy_number (sm_port sm)
                      then Js.field "port" Js.JNum (sm_port sm)
                      else [])))
    (serviceModeV2 props)
    ++ Js.field "disable_auto_fallback" Js.JBool (disableAutoFallback props)
    ++ Js.field "allow_mode_switch" Js.JBool (allowModeSwitch props)
    ++ Js.field "switch_locked" Js.JBool (switchLocked props)
    ++ Js.field "tunnel_protocol" Js.JStr (tunnelProtocol props)
    ++ Js.field "auto_connect" Js.JNum (autoConnect props)
    ++ Js.field "allowed_to_leave" Js.JBool (allowedToLeave props)
    ++ Js.field "captive_portal" Js.JNum (captivePortal props)
    ++ Js.field "support_url" Js.JStr (supportUrl props)
    ++ Js.field "exclude_office_ips" Js.JBool (excludeOfficeIps props)
    ++ Js.field "lan_allow_minutes" Js.JNum (lanAllowMinutes props)
    ++ Js.field "lan_allow_subnet_size" Js.JNum (lanAllowSubnetSize props)
    ++ match splitTunnel props with
       | Some config =>
           if String.eqb (split_mode config) "include"
           then [("include", Js.JArr (map split_entry (entries config)))]
           else [("exclude", Js.JArr (map split_entry (entries config)))]
       | None => []
       end.

(** [updateDefaultPolicy].  The settings object always has the eleven
    mapped keys, so it is always spread into the request body. *)
Definition updateDefaultPolicy (api : CloudflareApi)
           (props : WarpDefaultProfileProps) : M unit :=
  let requestBody := Js.JObj (deviceSettings props) in
  response <- api_patch KNoBody (policy_path api) requestBody ;;
  if negb (ok (head response))
  then Throw (handleApiError (head response) "update"
                "warp_default_profile" "default")
  else Ret tt.

(** [updateDefaultSplitTunnel]. *)
Definition updateDefaultSplitTunnel (api : CloudflareApi)
           (config : SplitTunnelConfig) : M unit :=
  let routes := Js.JArr (map split_entry (entries config)) in
  if String.eqb (split_mode config) "include" then
    response <- api_put KNoBody
                  ("/accounts/" ++ accountId api
                     ++ "/devices/policies/default/includes") routes ;;
    if negb (ok (head response))
    then Throw (handleApiError (head response)
                  "update split tunnel includes"
                  "warp_default_profile" "default")
    else Ret tt
  else
    response <- api_put KNoBody
                  ("/accounts/" ++ accountId api
                     ++ "/devices/policies/default/excludes") routes ;;
    if negb (ok (head response))
    then Throw (handleApiError (head response)
                  "update split tunnel excludes"
                  "warp_default_profile" "default")
    else Ret tt.

(** The WarpDefaultProfile handler, run with the client [api]. *)
Definition WarpDefaultProfile (api : CloudflareApi)
           (this : Context WarpDefaultProfileOutput) (id : string)
           (props : WarpDefaultProfileProps)
  : M (HandlerResult WarpDefaultProfileOutput) :=
  if phase_eqb (phase this) Delete then Ret Destroyed
  else
    updateDefaultPolicy api props ;;;
    now <- Vis DateNow (fun now => Ret now) ;;
    Ret (Output (mkDefaultOutput props now)).

End Handler.

End WarpDefault.

(* ================================================================== *)
(** ** Stripe v2: pricing plans and their components *)
(* ================================================================== *)

Module StripePlans.

Import Stripe.

(** [interface V2PricingPlan]. *)
Record V2PricingPlan : Type := mkV2Plan {
  plan_id : string;
  plan_display_name : string;
  plan_currency : string;
  plan_tax_behavior : string;
  plan_lookup_key : option string;
  plan_live_version : option string;
  plan_latest_version : option string;
  plan_metadata : option Metadata;
  plan_created : Z;
  plan_updated : Z;
  plan_livemode : bool
}.

(** [interface PricingPlanProps]. *)
Record PricingPlanProps : Type := mkPlanProps {
  pp_displayName : string;
  pp_currency : string;
  pp_taxBehavior : option string;
  pp_lookupKey : option string;
  pp_liveVersion : option string;
  pp_metadata : option Metadata;
  pp_apiKey : option Secret;
  pp_adopt : option bool
}.

(** [interface PricingPlan], the handler's output. *)
Record PricingPlanOutput : Type := mkPlanOutput {
  ppo_id : string;
  ppo_displayName : string;
  ppo_currency : string;
  ppo_taxBehavior : string;
  ppo_lookupKey : option string;
  ppo_liveVersion : option string;
  ppo_latestVersion : option string;
  ppo_metadata : option Metadata;
  ppo_createdAt : Z;
  ppo_updatedAt : Z;
  ppo_livemode : bool
}.

(** [interface V2PricingPlanComponent]. *)
Record V2PricingPlanComponent : Type := mkV2Component {
  comp_id : string;
  comp_pricing_plan : string;
  comp_type : string;
  comp_rate_card : option string;
  comp_license_fee : option string;
  comp_metadata : option Metadata;
  comp_created : Z;
  comp_updated : Z;
  comp_livemode : bool
}.

(** [LicenseFee] (license-fee.ts): its id. *)
Record LicenseFee : Type := mkLicenseFee { license_fee_id : string }.

(** [interface PricingPlanComponentProps]. *)
Record PricingPlanComponentProps : Type := mkComponentProps {
  pc_pricingPlan : string + PricingPlanOutput;
  pc_type : string;
  pc_rateCard : option (string + RateCardOutput);
  pc_licenseFee : option (string + LicenseFee);
  pc_metadata : option Metadata;
  pc_apiKey : option Secret
}.

(** [interface PricingPlanComponent], the handler's output. *)
Record PricingPlanComponentOutput : Type := mkComponentOutput {
  pco_id : string;
  pco_pricingPlan : string;
  pco_type : string;
  pco_rateCard : option string;
  pco_licenseFee : option string;
  pco_metadata : option Metadata;
  pco_createdAt : Z;
  pco_updatedAt : Z;
  pco_livemode : bool
}.

Inductive Kind : Type := KPlan | KPlanList | KComponent | KDeleted.

Definition payload (k : Kind) : Type :=
  match k with
  | KPlan => V2PricingPlan
  | KPlanList => list V2PricingPlan
  | KComponent => V2PricingPlanComponent
  | KDeleted => Deleted
  end.

(** A call of the client's [request] helper, answered at type
    [payload k]: it resolves or rejects. *)
Inductive PlanE : Type -> Type :=
| Request (k : Kind) (m : Method) (path : string) (params : option Js.Json)
    : PlanE (Js.Error + payload k).

Definition M : Type -> Type := Prog PlanE.

Definition pricingPlans_create (params : Js.Json) : M V2PricingPlan :=
  await (Request KPlan POST "/v2/billing/pricing_plans" (Some params)).
Definition pricingPlans_update (id : string) (params : Js.Json)
  : M V2PricingPlan :=
  await (Request KPlan POST ("/v2/billing/pricing_plans/" ++ id) (Some params)).
Definition pricingPlans_del (id : string) : M Deleted :=
  await (Request KDeleted DELETE ("/v2/billing/pricing_plans/" ++ id) None).
Definition pricingPlans_list : M (list V2PricingPlan) :=
  await (Request KPlanList GET "/v2/billing/pricing_plans" None).

Definition pricingPlanComponents_create (pricingPlanId : string)
           (params : Js.Json) : M V2PricingPlanComponent :=
  await (Request KComponent POST
           ("/v2/billing/pricing_plans/" ++ pricingPlanId ++ "/components")
           (Some params)).
Definition pricingPlanComponents_update (pricingPlanId componentId : string)
           (params : Js.Json) : M V2PricingPlanComponent :=
  await (Request KComponent POST
           ("/v2/billing/pricing_plans/" ++ pricingPlanId ++ "/components/"
              ++ componentId)
           (Some params)).
Definition pricingPlanComponents_del (pricingPlanId componentId : string)
  : M Deleted :=
  await (Request KDeleted DELETE
           ("/v2/billing/pricing_plans/" ++ pricingPlanId ++ "/components/"
              ++ componentId)
           None).

(** [mapV2PricingPlanToOutput]. *)
Definition mapV2PricingPlanToOutput (plan : V2PricingPlan) : PricingPlanOutput :=
  mkPlanOutput
    (plan_id plan) (plan_display_name plan) (plan_currency plan)
    (plan_tax_behavior plan) (plan_lookup_key plan) (plan_live_version plan)
    (plan_latest_version plan) (plan_metadata plan) (plan_created plan)
    (plan_updated plan) (plan_livemode plan).

(** The [try { await del } catch (error) { ... }] of a delete phase:
    a 404 is logged and skipped, every other error goes through
    [handleStripeV2DeleteError]. *)
Definition delete_remote (del : M Deleted) (resourceType id : string)
  : M unit :=
  try_catch (del ;;; Ret tt)
    (fun error =>
       if is_404 error then Ret tt
       else match handleStripeV2DeleteError error resourceType (Some id) with
            | None => Ret tt
            | Some e => Throw e
            end).

(** The PricingPlan handler; [env_STRIPE_API_KEY] is the environment
    variable of that name. *)
Definition PricingPlan (env_STRIPE_API_KEY : option string)
           (this : Context PricingPlanOutput) (_id : string)
           (props : PricingPlanProps) : M (HandlerResult PricingPlanOutput) :=
  let adopt := Js.nullish (pp_adopt props) (scope_adopt (scope this)) in
  match createStripeV2Client (option_map inr (pp_apiKey props))
          env_STRIPE_API_KEY with
  | inl e => Throw e
  | inr client =>
      let taxBehavior := Js.nullish (pp_taxBehavior props) "exclusive" in
      let output_id := option_map ppo_id (output this) in
      if phase_eqb (phase this) Delete then
        (if Js.truthy output_id
         then delete_remote (pricingPlans_del (Js.nullish output_id ""))
                "PricingPlan" (Js.nullish output_id "")
         else Ret tt) ;;;
        Ret Destroyed
      else
        try_catch
          (plan <-
             (if phase_eqb (phase this) Update && Js.truthy output_id
              then
                pricingPlans_update (Js.nullish output_id "")
                  (Js.JObj ([("display_name", Js.JStr (pp_displayName props))]
                              ++ Js.field "lookup_key" Js.JStr
                                   (pp_lookupKey props)
                              ++ Js.field "live_version" Js.JStr
                                   (pp_liveVersion props)
                              ++ Js.field "metadata" metadata_json
                                   (pp_metadata props)))
              else
                try_catch
                  (plan <-
                     pricingPlans_create
                       (Js.JObj
                          ([("display_name", Js.JStr (pp_displayName props));
                            ("currency", Js.JStr (pp_currency props));
                            ("tax_behavior", Js.JStr taxBehavior)]
                             ++ Js.field "lookup_key" Js.JStr
                                  (pp_lookupKey props)
                             ++ Js.field "metadata" metadata_json
                                  (pp_metadata props))) ;;
                   if Js.truthy (pp_liveVersion props)
                   then pricingPlans_update (plan_id plan)
                          (Js.JObj (Js.field "live_version" Js.JStr
                                      (pp_liveVersion props)))
                   else Ret plan)
                  (fun error =>
                     if isStripeV2ConflictError error && adopt
                        && Js.truthy (pp_lookupKey props)
                     then
                       existingPlans <- pricingPlans_list ;;
                       let existingPlan :=
                         Js.find
                           (fun p =>
                              match plan_lookup_key p, pp_lookupKey props with
                              | Some a, Some b => String.eqb a b
                              | None, None => true
                              | _, _ => false
                              end)
                           existingPlans in
                       match existingPlan with
                       | Some existingPlan =>
                           pricingPlans_update (plan_id existingPlan)
                             (Js.JObj
                                ([("display_name",
                                    Js.JStr (pp_displayName props))]
                                   ++ Js.field "live_version" Js.JStr
                                        (pp_liveVersion props)
                                   ++ Js.field "metadata" metadata_json
                                        (pp_metadata props)))
                       | None => Throw error
                       end
                     else Throw error)) ;;
           Ret (Output (mapV2PricingPlanToOutput plan)))
          (fun error => Throw error)
  end.

(** [mapV2ComponentToOutput]. *)
Definition mapV2ComponentToOutput (component : V2PricingPlanComponent)
  : PricingPlanComponentOutput :=
  mkComponentOutput
    (comp_id component) (comp_pricing_plan component) (comp_type component)
    (comp_rate_card component) (comp_license_fee component)
    (comp_metadata component) (comp_created component)
    (comp_updated component) (comp_livemode component).

(** [x && typeof x === "string" ? x : x?.id] for [x] a string, a
    resource with an id, or undefined: the empty string gives
    undefined. *)
Definition resolve_id {R : Type} (id_of : R -> string)
           (x : option (string + R)) : option string :=
  match x with
  | Some (inl s) => if Js.truthy_string s then Some s else None
  | Some (inr r) => Some (id_of r)
  | None => None
  end.

Definition rateCard_required : Js.Error :=
  Js.new_Error "rateCard is required when type is 'rate_card'".

Definition licenseFee_required : Js.Error :=
  Js.new_Error "licenseFee is required when type is 'license_fee'".

(** The PricingPlanComponent handler. *)
Definition PricingPlanComponent (env_STRIPE_API_KEY : option string)
           (this : Context PricingPlanComponentOutput) (_id : string)
           (props : PricingPlanComponentProps)
  : M (HandlerResult PricingPlanComponentOutput) :=
  match createStripeV2Client (option_map inr (pc_apiKey props))
          env_STRIPE_API_KEY with
  | inl e => Throw e
  | inr client =>
      let pricingPlanId :=
        match pc_pricingPlan props with inl s => s | inr p => ppo_id p end in
      let rateCardId := resolve_id rco_id (pc_rateCard props) in
      let licenseFeeId := resolve_id license_fee_id (pc_licenseFee props) in
      if String.eqb (pc_type props) "rate_card" && negb (Js.truthy rateCardId)
      then Throw rateCard_required
      else if String.eqb (pc_type props) "license_fee"
              && negb (Js.truthy licenseFeeId)
      then Throw licenseFee_required
      else
        let output_id := option_map pco_id (output this) in
        let output_pricingPlan := option_map pco_pricingPlan (output this) in
        if phase_eqb (phase this) Delete then
          (if Js.truthy output_id && Js.truthy output_pricingPlan
           then delete_remote
                  (pricingPlanComponents_del
                     (Js.nullish output_pricingPlan "")
                     (Js.nullish output_id ""))
                  "PricingPlanComponent" (Js.nullish output_id "")
           else Ret tt) ;;;
          Ret Destroyed
        else
          try_catch
            (component <-
               (if phase_eqb (phase this) Update && Js.truthy output_id
                then pricingPlanComponents_update
                       (Js.nullish output_pricingPlan "")
                       (Js.nullish output_id "")
                       (Js.JObj (Js.field "metadata" metadata_json
                                   (pc_metadata props)))
                else pricingPlanComponents_create pricingPlanId
                       (Js.JObj
                          ([("type", Js.JStr (pc_type props))]
                             ++ (if Js.truthy rateCardId
                                 then [("rate_card",
                                         Js.JObj
                                           [("id",
                                              Js.JStr
                                                (Js.nullish rateCardId ""))])]
                                 else [])
                             ++ (if Js.truthy licenseFeeId
                                 then [("license_fee",
                                         Js.JObj
                                           [("id",
                                              Js.JStr
                                                (Js.nullish licenseFeeId ""))])]
                                 else [])
                             ++ Js.field "metadata" metadata_json
                                  (pc_metadata props)))) ;;
             Ret (Output (mapV2ComponentToOutput component)))
            (fun error => Throw error)
  end.

End StripePlans.

(* ================================================================== *)
(** ** Neon: references to projects *)
(* ================================================================== *)

Module NeonRef.

(** [NeonProjectRef]: the lookup of the project that has the name of
    the props. *)
Definition NeonProjectRef (formatRole : Js.Json -> Js.Json)
           (connection_of_uri : Neon.Database -> string -> Js.Error + Js.Json)
           (props : Neon.NeonProjectProps) (name : string)
  : Neon.M Neon.NeonProjectOutput :=
  Neon.fetchProject formatRole connection_of_uri props name.

End NeonRef.

(* ================================================================== *)
(** ** Open ports *)
(* ================================================================== *)

Module Ports.

(** What [isPortAvailable] does to the outside: a server is asked to
    listen on the port of the host, and the answer says whether it
    could. *)
Inductive PortE : Type -> Type :=
| IsPortAvailable (host : string) (port : Z) : PortE bool.

Definition no_open_port (min max : Z) : Js.Error :=
  Js.new_Error ("No open port found between " ++ JsNumber.String min
                  ++ " and " ++ JsNumber.String max).

(** The [for (let port = min; port <= max; port++)] loop of
    [findOpenPort], with [port] the loop variable; [fuel] bounds the
    number of iterations.  Ports are integers, below 2^53 in
    magnitude, where [port++] is exact. *)
Fixpoint findOpenPort_loop (fuel : nat) (min max port : Z) : Prog PortE Z :=
  match fuel with
  | O => Diverge
  | S fuel' =>
      if port <=? max then
        Vis (IsPortAvailable "0.0.0.0" port)
          (fun available =>
             if (available : bool) then Ret port
             else findOpenPort_loop fuel' min max (port + 1))
      else Throw (no_open_port min max)
  end.

(** [findOpenPort(min = 1337, max = 65535)].  The loop body runs at
    most [max - min + 1] times and the loop test once more, which is
    the budget given to the loop. *)
Definition findOpenPort (min max : option Z) : Prog PortE Z :=
  let min := Js.nullish min 1337 in
  let max := Js.nullish max 65535 in
  findOpenPort_loop (S (Z.to_nat (max - min + 1))) min max min.

End Ports.

(* ================================================================== *)
(** ** D1: the order of SQL files *)
(* ================================================================== *)

Module SqlFiles.



End SqlFiles.
(* ================================================================== *)
(** ** D1: local migrations *)
(* ================================================================== *)

Module D1Migrations.

(** [interface D1SqlFile]. *)
Record D1SqlFile : Type := mkSqlFile {
  file_id : string;
  file_sql : string;
  file_hash : string
}.

(** [interface D1LocalMigrationOptions]. *)
Record D1LocalMigrationOptions : Type := mkOptions {
  rootDir : string;
  databaseId : string;
  migrationsTable : string;
  migrations : list D1SqlFile;
  imports : list D1SqlFile
}.

(** A row of [PRAGMA table_info], the field the function reads. *)
Record Column : Type := mkColumn { column_name : string }.

(** A row of the migrations table. *)
Record AppliedMigration : Type := mkApplied {
  applied_name : string;
  applied_type : string
}.

(** A prepared statement with the values bound to it. *)
Record Statement : Type := mkStatement {
  statement_sql : string;
  bound : list string
}.

(** [session.prepare(sql)] and [statement.bind(...values)]. *)
Definition prepare (sql : string) : Statement := mkStatement sql [].

Definition bind_values (statement : Statement) (values : list string)
  : Statement :=
  mkStatement (statement_sql statement) values.

Inductive Kind : Type := KColumns | KApplied.

Definition rows (k : Kind) : Type :=
  match k with
  | KColumns => list Column
  | KApplied => list AppliedMigration
  end.

(** What the function asks of the Miniflare instance it constructs
    for the database: readiness, the database of a binding, the rows
    of a query, the run of a statement, the run of a batch, and the
    disposal of the instance.  Each resolves or rejects. *)
Inductive D1E : Type -> Type :=
| Ready : D1E (Js.Error + unit)
| GetD1Database (binding : string) : D1E (Js.Error + unit)
| All (k : Kind) (sql : string) : D1E (Js.Error + rows k)
| Run (sql : string) : D1E (Js.Error + unit)
| Batch (statements : list Statement) : D1E (Js.Error + unit)
| Dispose : D1E (Js.Error + unit).

Definition M : Type -> Type := Prog D1E.

(** [try { p } finally { f }]: [f] runs after [p] returned or threw,
    and the outcome of [p] stands unless [f] throws. *)
Definition try_finally {A : Type} (p : M A) (f : M unit) : M A :=
  r <- try_catch (a <- p ;; Ret (inr a)) (fun e => Ret (inl e)) ;;
  f ;;;
  match (r : Js.Error + A) with
  | inl e => Throw e
  | inr a => Ret a
  end.

(** [for (const x of l) { body }], where [continue] is the return of
    the body. *)
Fixpoint for_of {A : Type} (l : list A) (body : A -> M unit) : M unit :=
  match l with
  | [] => Ret tt
  | x :: l' => body x ;;; for_of l' body
  end.

Definition newline : string := String (ascii_of_nat 10) "".

Section Apply.

(** [s.split(separator)] for a separator string, [s.split(/;\r?\n/)]
    and [s.trim()] of the platform. *)
Variable split : string -> string -> list string.
Variable split_statements : string -> list string.
Variable trim : string -> string.

(** [applyLocalD1Migrations]. *)
Definition applyLocalD1Migrations (options : D1LocalMigrationOptions)
  : M unit :=
  try_finally
    (await Ready ;;;
     await (GetD1Database "DB") ;;;
     tableInfo <-
       await (All KColumns
                ("PRAGMA table_info(" ++ migrationsTable options ++ ");")) ;;
     (if (List.length tableInfo =? 0)%nat then
        await (Run ("CREATE TABLE " ++ migrationsTable options ++ " ("
                      ++ newline
                      ++ "        id INTEGER PRIMARY KEY AUTOINCREMENT,"
                      ++ newline
                      ++ "        name TEXT NOT NULL,"
                      ++ newline
                      ++ "        applied_at TIMESTAMP DEFAULT CURRENT_TIMESTAMP NOT NULL,"
                      ++ newline
                      ++ "        type TEXT NOT NULL"
                      ++ newline
                      ++ "    )"))
      else if negb (existsb (fun col => String.eqb (column_name col) "type")
                      tableInfo)
      then
        await (Run ("ALTER TABLE " ++ migrationsTable options
                      ++ " ADD COLUMN type TEXT NOT NULL DEFAULT 'migration';"))
      else Ret tt) ;;;
     applied <-
       await (All KApplied
                ("SELECT name, type FROM " ++ migrationsTable options
                   ++ " ORDER BY applied_at ASC")) ;;
     let insertRecord :=
       prepare ("INSERT INTO " ++ migrationsTable options
                  ++ " (name, type) VALUES (?, ?)") in
     for_of (migrations options)
       (fun file =>
          if existsb (fun m => String.eqb (applied_name m) (file_id file))
               applied
          then Ret tt
          else
            let statements :=
              map prepare
                (filter (fun s => Js.truthy_string (trim s))
                   (split (file_sql file) "--> statement-breakpoint")) in
            let statements :=
              (statements
                 ++ [bind_values insertRecord [file_id file; "migration"]])%list in
            await (Batch statements)) ;;;
     for_of (imports options)
       (fun file =>
          let name := file_id file ++ "-" ++ file_hash file in
          if existsb (fun m => String.eqb (applied_name m) name) applied
          then Ret tt
          else
            let statements :=
              map prepare
                (filter (fun s => Js.truthy_string (trim s))
                   (split_statements (file_sql file))) in
            let statements :=
              (statements ++ [bind_values insertRecord [name; "import"]])%list in
            await (Batch statements)))
    (await Dispose).

End Apply.

End D1Migrations.


(* ================================================================== *)
(** ** Sample providers *)
(* ================================================================== *)

Module Samples.

Import Cloudflare.

Definition api : CloudflareApi := mkApi "acct".

(** An error raised for a failed response: a CloudflareApiError with the
    response's status and body text. *)
Definition handleApiError (r : ResponseHead) (action resourceType name : string)
  : Js.Error :=
  Js.mkError Js.CloudflareApiErrorC (text r) (Some (status r)) None None None.

Definition createPhysicalName (s : Scope) (id : string) : string :=
  namePrefix s ++ "-" ++ id.

Definition root : Scope := mkScope "root" ["app"; "dev"] false "app-dev".
Definition adopting : Scope := mkScope "root" ["app"; "dev"] true "app-dev".

Definition route (id network tunnel : string) : CloudflareRoute :=
  mkRoute id network tunnel None None "2025-01-01T00:00:00Z" None.

Definition success : ResponseHead := mkHead 200 "OK" "".
Definition missing : ResponseHead := mkHead 404 "Not Found" "not found".
Definition conflict : ResponseHead := mkHead 409 "Conflict" "already exists".

Definition page (routes : list CloudflareRoute) (number total : Z)
  : (FetchResponse RouteList) :=
  mkResponse success (mkRouteList routes (mkInfo number 100 total)).

Definition no_body (h : ResponseHead) : FetchResponse (body KNoBody) :=
  mkResponse h tt.

(** The answer of a provider that fails every request. *)
Definition refuse (X : Type) (ev : CloudflareE X) : X :=
  match ev in CloudflareE X return X with
  | Fetch _ _ _ _ => inl (Js.new_Error "network unreachable")
  | GetZoneByDomain _ => inl (Js.new_Error "network unreachable")
  | DateNow => 0
  end.

(** A provider that lists the given pages, one per request, and fails
    every other request. *)
Definition listing (pages : list (FetchResponse RouteList)) : Oracle CloudflareE :=
  fun X hist ev =>
    match ev in CloudflareE X return X with
    | Fetch KRouteList GET _ None =>
        match nth_error pages (List.length hist) with
        | Some p => inr p
        | None => inl (Js.new_Error "no such page")
        end
    | ev' => refuse _ ev'
    end.

Definition r1 : CloudflareRoute := route "r1" "10.0.0.0/8" "t1".
Definition r2 : CloudflareRoute := route "r2" "10.1.0.0/16" "t1".
Definition r3 : CloudflareRoute := route "r3" "172.16.0.0/12" "t2".

Definition two_pages : list (FetchResponse RouteList) :=
  [page [r1; r2] 1 201; page [r3] 3 201].

Definition one_page : list (FetchResponse RouteList) := [page [r1] 1 1].

(** A body of each kind. *)
Definition default_body (k : BodyKind) : body k :=
  match k with
  | KNoBody => tt
  | KRoute => r1
  | KRouteList => mkRouteList [] (mkInfo 1 100 0)
  | KPolicy => inr (mkPolicyResponse "p1" None)
  | KPolicyList => Some []
  | KRulesetList => []
  | KRuleset => mkRuleset "rs1" "http_request_dynamic_redirect" []
  end.

(** A provider that answers every HTTP request with the given status
    line, finds no zone, and whose clock stands at 0. *)
Definition answering (h : ResponseHead) : Oracle CloudflareE :=
  fun X hist ev =>
    match ev in CloudflareE X return X with
    | Fetch k _ _ _ => inr (mkResponse h (default_body k))
    | GetZoneByDomain _ => inr None
    | DateNow => 0
    end.

(** A provider in which the route [r2] exists: creating a route is
    refused with a conflict, and the listing has [r1] and [r2]. *)
Definition with_existing_route : Oracle CloudflareE :=
  fun X hist ev =>
    match ev in CloudflareE X return X with
    | Fetch KRoute POST _ _ => inr (mkResponse conflict r1)
    | Fetch KRouteList GET _ _ => inr (page [r1; r2] 1 2)
    | ev' => refuse _ ev'
    end.

(** A provider that knows the zone z1 under every domain and answers
    every HTTP request with success. *)
Definition with_zone : Oracle CloudflareE :=
  fun X hist ev =>
    match ev in CloudflareE X return X with
    | GetZoneByDomain _ => inr (Some (mkZone "z1"))
    | ev' => answering success _ hist ev'
    end.

(** The conversion of a wildcard URL, taken to succeed with a fixed
    expression. *)
Definition convertWildcardUrlToExpression (url : string) : Js.Error + string :=
  inr "true".

(** A Stripe provider that rejects every call with the given error. *)
Definition rejecting (e : Js.Error) : Oracle Stripe.StripeE :=
  fun X hist ev =>
    match ev in Stripe.StripeE X return X with
    | Stripe.Request _ _ _ _ => inl e
    end.

(** A provider in which the profile p9 named corp exists: creating a
    profile is refused with a conflict, the list has the profile, and
    the clock shows the number of observations so far. *)
Definition with_existing_profile : Oracle CloudflareE :=
  fun X hist ev =>
    match ev in CloudflareE X return X with
    | Fetch KPolicy POST _ _ => inr (mkResponse conflict (default_body KPolicy))
    | Fetch KPolicyList GET _ _ =>
        inr (mkResponse success
               (Some [mkPolicyItem "i1" None "other";
                      mkPolicyItem "i9" (Some "p9") "corp"]))
    | DateNow => Z.of_nat (List.length hist)
    | ev' => refuse _ ev'
    end.

Definition card (id : string) (lookup_key : option string) : Stripe.V2RateCard :=
  Stripe.mkV2RateCard id "Storage" "usd" "month" 1 "exclusive" lookup_key None
    1700000000 1700000000 false.

(** A Stripe provider in which a card with the lookup key storage
    exists: creating is rejected with a conflict, updating and listing
    succeed. *)
Definition with_existing_card : Oracle Stripe.StripeE :=
  fun X hist ev =>
    match ev in Stripe.StripeE X return X with
    | Stripe.Request Stripe.KRateCard POST "/v2/billing/rate_cards" _ =>
        inl (Js.mkError Js.ErrorC "already exists" (Some 409) None None None)
    | Stripe.Request Stripe.KRateCard _ _ _ => inr (card "rc_2" (Some "storage"))
    | Stripe.Request Stripe.KRateCardList _ _ _ =>
        inr [card "rc_1" None; card "rc_2" (Some "storage")]
    | Stripe.Request Stripe.KRate _ _ _ => inl (Js.new_Error "unexpected")
    | Stripe.Request Stripe.KDeleted _ _ _ =>
        inl (Js.mkError Js.ErrorC "gone" None None (Some "resource_missing") None)
    end.

Definition stripe_conflict : Js.Error :=
  Js.mkError Js.ErrorC "resource already exists" (Some 409) None None None.

End Samples.

(* ================================================================== *)
(** ** Running composed programs *)
(* ================================================================== *)

Section RunFacts.

Variable E : Type -> Type.
Variable o : Oracle E.

(** What follows a program whose outcome is known: the continuation
    runs after a return, every other outcome ends the run. *)
Definition and_then (returns : bool) {A B : Type} (res : Outcome A * list (Entry E))
           (f : A -> Prog E B) (hist : list (Entry E))
  : Outcome B * list (Entry E) :=
  match res with
  | (Returned a, t) =>
      let (out, t') := run returns o (f a) (hist ++ t)%list in
      (out, (t ++ t')%list)
  | (Threw e, t) => (Threw e, t)
  | (ReplaceSignalled force, t) => (ReplaceSignalled force, t)
  | (OutOfFuel, t) => (OutOfFuel, t)
  end.

(** What follows a guarded program whose outcome is known: the handler
    runs after a throw. *)
Definition or_catch (returns : bool) {A : Type} (res : Outcome A * list (Entry E))
           (h : Js.Error -> Prog E A) (hist : list (Entry E))
  : Outcome A * list (Entry E) :=
  match res with
  | (Threw e, t) =>
      let (out, t') := run returns o (h e) (hist ++ t)%list in
      (out, (t ++ t')%list)
  | other => other
  end.

Lemma run_bind (returns : bool) {A B : Type} (p : Prog E A) (f : A -> Prog E B) :
  forall hist,
    run returns o (bind p f) hist
    = and_then returns (run returns o p hist) f hist.
Proof.
  induction p as [a | e | X ev k IH | force k IH | ]; intros hist; simpl.
  - rewrite app_nil_r. destruct (run returns o (f a) hist); reflexivity.
  - reflexivity.
  - rewrite IH.
    destruct (run returns o (k (o X hist ev)) (hist ++ [Requested ev])%list)
      as [[a | e | force | ] t]; simpl; try reflexivity.
    rewrite <- app_assoc. simpl.
    destruct (run returns o (f a) (hist ++ Requested ev :: t)%list); reflexivity.
  - destruct returns; [ | reflexivity ].
    rewrite IH.
    destruct (run true o k (hist ++ [ReplaceCalled force])%list)
      as [[a | e | force' | ] t]; simpl; try reflexivity.
    rewrite <- app_assoc. simpl.
    destruct (run true o (f a) (hist ++ ReplaceCalled force :: t)%list);
      reflexivity.
  - reflexivity.
Qed.

Lemma run_try_catch (returns : bool) {A : Type} (p : Prog E A)
      (h : Js.Error -> Prog E A) :
  forall hist,
    run returns o (try_catch p h) hist
    = or_catch returns (run returns o p hist) h hist.
Proof.
  induction p as [a | e | X ev k IH | force k IH | ]; intros hist; simpl.
  - reflexivity.
  - rewrite app_nil_r. destruct (run returns o (h e) hist); reflexivity.
  - rewrite IH.
    destruct (run returns o (k (o X hist ev)) (hist ++ [Requested ev])%list)
      as [[a | e | force | ] t]; simpl; try reflexivity.
    rewrite <- app_assoc. simpl.
    destruct (run returns o (h e) (hist ++ Requested ev :: t)%list); reflexivity.
  - destruct returns; [ | reflexivity ].
    rewrite IH.
    destruct (run true o k (hist ++ [ReplaceCalled force])%list)
      as [[a | e | force' | ] t]; simpl; try reflexivity.
    rewrite <- app_assoc. simpl.
    destruct (run true o (h e) (hist ++ ReplaceCalled force :: t)%list);
      reflexivity.
  - reflexivity.
Qed.

(** A request that resolves. *)
Lemma run_await_resolved (returns : bool) {X : Type} (ev : E (Js.Error + X)) (x : X) hist :
  o _ hist ev = inr x ->
  run returns o (await ev) hist = (Returned x, [Requested ev]).
Proof. intros H. simpl. rewrite H. reflexivity. Qed.

(** A request that rejects. *)
Lemma run_await_rejected (returns : bool) {X : Type} (ev : E (Js.Error + X)) (e : Js.Error) hist :
  o _ hist ev = inl e ->
  run returns o (await ev) hist = (Threw e, [Requested ev]).
Proof. intros H. simpl. rewrite H. reflexivity. Qed.

End RunFacts.

Arguments and_then {E} o returns {A B} res f hist.
Arguments or_catch {E} o returns {A} res h hist.

(** Steps of a run: the provider's answer [H] to the request at hand is
    taken, and the run goes on to the next request. *)
Ltac answered H :=
  cbn [Cloudflare.body Stripe.payload] in *; rewrite H;
  cbn [bind try_catch run].

Ltac status_404 H :=
  rewrite H, Z.eqb_refl; cbn [negb]; rewrite andb_false_r;
  cbn [bind try_catch run].

(** A string that is not empty is truthy. *)
Lemma truthy_nonempty (s : string) : s <> "" -> Js.truthy (Some s) = true.
Proof.
  intros H. simpl. unfold Js.truthy_string.
  destruct (String.eqb_spec s ""); [ contradiction | reflexivity ].
Qed.

(** [x !== false] for an [x] other than [false]. *)
Lemma is_false_other (b : option bool) : b <> Some false -> Js.is_false b = false.
Proof.
  destruct b as [[ | ] | ]; intros H; try reflexivity.
  exfalso. apply H. reflexivity.
Qed.

(* ================================================================== *)
(** ** Reading the properties of a payload *)
(* ================================================================== *)

Section Payloads.

Variable key : string.

Lemma get_cons_hit (v : Js.Json) (fs : list (string * Js.Json)) :
  Js.get key (Js.JObj ((key, v) :: fs)) = Some v.
Proof. unfold Js.get. cbn [find fst]. rewrite String.eqb_refl. reflexivity. Qed.

Lemma get_cons_skip (k : string) (v : Js.Json) (fs : list (string * Js.Json)) :
  String.eqb k key = false ->
  Js.get key (Js.JObj ((k, v) :: fs)) = Js.get key (Js.JObj fs).
Proof. intros H. unfold Js.get. cbn [find fst]. rewrite H. reflexivity. Qed.

Lemma get_field_hit {A : Type} (inj : A -> Js.Json) (v : option A)
      (fs : list (string * Js.Json)) :
  Js.get key (Js.JObj (Js.field key inj v ++ fs))
  = match v with
    | Some x => Some (inj x)
    | None => Js.get key (Js.JObj fs)
    end.
Proof.
  destruct v as [x | ]; [ | reflexivity ].
  cbn [Js.field app]. apply get_cons_hit.
Qed.

Lemma get_field_skip {A : Type} (k : string) (inj : A -> Js.Json)
      (v : option A) (fs : list (string * Js.Json)) :
  String.eqb k key = false ->
  Js.get key (Js.JObj (Js.field k inj v ++ fs)) = Js.get key (Js.JObj fs).
Proof.
  intros H. destruct v as [x | ]; [ | reflexivity ].
  cbn [Js.field app]. apply get_cons_skip. exact H.
Qed.



End Payloads.


(* ================================================================== *)
(** ** Paginated listing of tunnel routes *)
(* ================================================================== *)

Module ListRoutes.

Import Cloudflare.

(** A page of the listing as the provider answers it. *)
Definition Page : Type := FetchResponse RouteList.

(** The request for one page: 100 routes per page. *)
Definition page_request (api : CloudflareApi) (page : Z)
  : CloudflareE (Js.Error + FetchResponse (body KRouteList)) :=
  Fetch KRouteList GET
    (routes_path api ++ "?"
       ++ ("page=" ++ JsNumber.String page
             ++ "&per_page=" ++ JsNumber.String 100))
    None.

(** The requests for [n] consecutive pages from [page] on. *)
Fixpoint requests (api : CloudflareApi) (page : Z) (n : nat)
  : list (Entry CloudflareE) :=
  match n with
  | O => []
  | S n' => Requested (page_request api page) :: requests api (page + 1) n'
  end.

(** [result_info] announces further pages. *)
Definition more (p : Page) : bool :=
  info_page (list_result_info (json p))
    * info_per_page (list_result_info (json p))
  <? info_total_count (list_result_info (json p)).

(** The routes of a sequence of pages, in order. *)
Definition gathered (pages : list Page) : list CloudflareRoute :=
  List.concat (map (fun p => list_result (json p)) pages).

(** The provider answers the requests for the pages from [page] on with
    the pages of the sequence, one after the other. *)
Fixpoint serves (o : Oracle CloudflareE) (api : CloudflareApi)
         (hist : list (Entry CloudflareE)) (page : Z) (pages : list Page)
  : Prop :=
  match pages with
  | [] => True
  | p :: rest =>
      o _ hist (page_request api page) = inr p
      /\ serves o api (hist ++ [Requested (page_request api page)])%list
           (page + 1) rest
  end.

(** A sequence of successful pages of which the last one, and no
    earlier one, has [page * per_page >= total_count]. *)
Fixpoint complete (pages : list Page) : Prop :=
  match pages with
  | [] => False
  | p :: rest =>
      ok (head p) = true
      /\ match rest with
         | [] => more p = false
         | _ :: _ => more p = true /\ complete rest
         end
  end.

(** The number of pages read until at least [L] routes are gathered,
    [have] routes being gathered already; all the pages when that never
    happens. *)
Fixpoint consumed (L : Z) (have : nat) (pages : list Page) : nat :=
  match pages with
  | [] => O
  | p :: rest =>
      let have' := (have + List.length (list_result (json p)))%nat in
      if L <=? Z.of_nat have' then 1%nat else S (consumed L have' rest)
  end.

(** The statement that a supplied limit [L], whatever its value, yields
    the first [min(L, total)] routes. *)
Definition any_limit_yields_prefix : Prop :=
  forall handleApiError returns (o : Oracle CloudflareE) api hist pages fuel L,
    serves o api hist 1 pages ->
    complete pages ->
    (List.length pages <= fuel)%nat ->
    fst (run returns o (listTunnelRoutes handleApiError fuel api (Some L)) hist)
    = Returned
        (firstn (Z.to_nat (Z.min L (Z.of_nat (List.length (gathered pages)))))
           (gathered pages)).

Section Listing.

Variable handleApiError : ResponseHead -> string -> string -> string -> Js.Error.
Variable returns : bool.
Variable o : Oracle CloudflareE.
Variable api : CloudflareApi.

Lemma loop_unfold fuel limit routes page :
  listTunnelRoutes_loop handleApiError (S fuel) api limit routes page
  = (response <- await (page_request api page) ;;
     if negb (ok (head response))
     then Throw (handleApiError (head response) "list" "route" "all")
     else
       let routes' := (routes ++ list_result (json response))%list in
       if Js.truthy_number limit
          && (Js.nullish limit 0 <=? Z.of_nat (List.length routes'))
       then Ret (Js.slice0 routes' (Js.nullish limit 0))
       else
         if more response
         then listTunnelRoutes_loop handleApiError fuel api limit routes'
                (page + 1)
         else Ret routes').
Proof. reflexivity. Qed.

Lemma run_page p fuel limit routes page hist :
  o _ hist (page_request api page) = inr p ->
  ok (head p) = true ->
  run returns o
      (listTunnelRoutes_loop handleApiError (S fuel) api limit routes page) hist
  = and_then o returns (Returned p, [Requested (page_request api page)])
      (fun response =>
         let routes' := (routes ++ list_result (json response))%list in
         if Js.truthy_number limit
            && (Js.nullish limit 0 <=? Z.of_nat (List.length routes'))
         then Ret (Js.slice0 routes' (Js.nullish limit 0))
         else
           if more response
           then listTunnelRoutes_loop handleApiError fuel api limit routes'
                  (page + 1)
           else Ret routes')
      hist.
Proof.
  intros Hp Hok. rewrite loop_unfold, run_bind.
  unfold await. cbn [run].
  match goal with
  | |- context [o ?T hist ?ev] =>
      replace (o T hist ev) with (@inr Js.Error Page p)
        by (symmetry; exact Hp)
  end.
  cbn [run]. unfold and_then. cbn [body] in *. rewrite Hok. reflexivity.
Qed.

Lemma loop_unlimited :
  forall pages fuel routes page hist,
    serves o api hist page pages ->
    complete pages ->
    (List.length pages <= fuel)%nat ->
    run returns o
        (listTunnelRoutes_loop handleApiError fuel api None routes page) hist
    = (Returned (routes ++ gathered pages)%list,
       requests api page (List.length pages)).
Proof.
  induction pages as [ | p rest IH]; intros fuel routes page hist Hs Hc Hf.
  - destruct Hc.
  - destruct fuel as [ | fuel]; [ simpl in Hf; lia | ].
    destruct Hs as [Hp Hs]. destruct Hc as [Hok Hc].
    rewrite (run_page p fuel None routes page hist Hp Hok).
    unfold and_then. simpl Js.truthy_number. cbv beta iota zeta. simpl andb.
    cbv iota.
    destruct rest as [ | p' rest'].
    + rewrite Hc. simpl. unfold gathered. simpl. rewrite app_nil_r. reflexivity.
    + destruct Hc as [Hm Hc]. rewrite Hm.
      rewrite (IH fuel _ _ _ Hs Hc) by (simpl in Hf |- *; lia).
      unfold gathered. simpl. rewrite <- app_assoc. reflexivity.
Qed.

Lemma firstn_all_app {A : Type} (n : nat) (l l' : list A) :
  (n <= List.length l)%nat -> firstn n (l ++ l') = firstn n l.
Proof.
  intros H. rewrite firstn_app.
  replace (n - List.length l)%nat with O by lia.
  simpl. apply app_nil_r.
Qed.

Lemma loop_limited (L : Z) :
  0 < L ->
  forall pages fuel routes page hist,
    serves o api hist page pages ->
    complete pages ->
    (List.length pages <= fuel)%nat ->
    run returns o
        (listTunnelRoutes_loop handleApiError fuel api (Some L) routes page) hist
    = (Returned (firstn (Z.to_nat L) (routes ++ gathered pages)%list),
       requests api page (consumed L (List.length routes) pages)).
Proof.
  intros HL.
  induction pages as [ | p rest IH]; intros fuel routes page hist Hs Hc Hf.
  - destruct Hc.
  - destruct fuel as [ | fuel]; [ simpl in Hf; lia | ].
    destruct Hs as [Hp Hs]. destruct Hc as [Hok Hc].
    rewrite (run_page p fuel (Some L) routes page hist Hp Hok).
    unfold and_then. cbv beta iota zeta.
    assert (HT : Js.truthy_number (Some L) = true).
    { simpl. destruct (Z.eqb_spec L 0); [ lia | reflexivity ]. }
    rewrite HT. simpl Js.nullish. simpl andb.
    simpl consumed. rewrite length_app.
    destruct (Z.leb_spec L
                (Z.of_nat (List.length routes
                           + List.length (list_result (json p))))) as [Hle | Hgt].
    + simpl. unfold Js.slice0.
      destruct (Z.leb_spec 0 L) as [_ | ?]; [ | lia ].
      unfold gathered. simpl. rewrite app_assoc.
      rewrite (firstn_all_app (Z.to_nat L) (routes ++ list_result (json p))%list);
        [ reflexivity | rewrite length_app; lia ].
    + destruct rest as [ | p' rest'].
      * rewrite Hc. simpl. unfold gathered. simpl. rewrite app_nil_r.
        rewrite firstn_all2; [ reflexivity | ].
        rewrite length_app. lia.
      * destruct Hc as [Hm Hc]. rewrite Hm.
        rewrite (IH fuel _ _ _ Hs Hc) by (simpl in Hf |- *; lia).
        rewrite length_app.
        unfold gathered. simpl. rewrite <- app_assoc. reflexivity.
Qed.

End Listing.

(** The pages read under a limit are never more than the listing has. *)
Lemma consumed_le (L : Z) :
  forall pages have, (consumed L have pages <= List.length pages)%nat.
Proof.
  induction pages as [ | p rest IH]; intros have; simpl.
  - lia.
  - destruct (L <=? _); [ lia | ]. specialize (IH (have + List.length (list_result (json p)))%nat). lia.
Qed.

(** Before the last page read under a limit, fewer than [L] routes were
    gathered: the listing stops as soon as [L] routes are there. *)
Lemma consumed_minimal (L : Z) :
  forall pages have m,
    Z.of_nat have < L ->
    (m < consumed L have pages)%nat ->
    Z.of_nat (have + List.length (gathered (firstn m pages))) < L.
Proof.
  induction pages as [ | p rest IH]; intros have m Hhave Hm; simpl in Hm.
  - lia.
  - destruct m as [ | m]; [ unfold gathered; simpl; lia | ].
    destruct (Z.leb_spec L
                (Z.of_nat (have + List.length (list_result (json p)))))
      as [Hle | Hgt]; [ lia | ].
    assert (Hm' : (m < consumed L (have + List.length (list_result (json p)))
                         rest)%nat) by lia.
    pose proof (IH _ _ Hgt Hm') as H.
    unfold gathered in *. simpl. rewrite length_app. lia.
Qed.

End ListRoutes.


(* ================================================================== *)
(** ** C9: pagination of listTunnelRoutes *)
(* ================================================================== *)

Module Pagination.

Import Cloudflare ListRoutes.

Lemma firstn_min {A : Type} (L : Z) (l : list A) :
  firstn (Z.to_nat (Z.min L (Z.of_nat (List.length l)))) l
  = firstn (Z.to_nat L) l.
Proof.
  destruct (Z.le_ge_cases L (Z.of_nat (List.length l))) as [H | H].
  - rewrite Z.min_l by exact H. reflexivity.
  - rewrite Z.min_r by exact H. rewrite Nat2Z.id.
    rewrite firstn_all. symmetry. apply firstn_all2. lia.
Qed.

(** Against a provider that answers the page requests with a sequence
    of successful pages of which only the last has
    [page * per_page >= total_count], [listTunnelRoutes] asks for pages
    1, 2, ... of 100 routes; without a limit it reads every page of the
    sequence and returns their routes concatenated in order; with a
    positive limit [L] it returns the first [min(L, total)] of those
    routes and reads pages only until [L] routes are gathered: before
    the last page it read, fewer than [L] were there. *)
Theorem listTunnelRoutes_pagination :
  forall handleApiError returns (o : Oracle CloudflareE) api hist pages fuel,
    serves o api hist 1 pages ->
    complete pages ->
    (List.length pages <= fuel)%nat ->
    run returns o (listTunnelRoutes handleApiError fuel api None) hist
    = (Returned (gathered pages), requests api 1 (List.length pages))
    /\ (forall L, 0 < L ->
          run returns o (listTunnelRoutes handleApiError fuel api (Some L)) hist
          = (Returned
               (firstn (Z.to_nat (Z.min L (Z.of_nat (List.length (gathered pages)))))
                  (gathered pages)),
             requests api 1 (consumed L 0 pages))
          /\ (consumed L 0 pages <= List.length pages)%nat
          /\ (forall m,
                 (m < consumed L 0 pages)%nat ->
                 Z.of_nat (List.length (gathered (firstn m pages))) < L)).
Proof.
  intros h returns o api hist pages fuel Hs Hc Hf. split.
  - unfold listTunnelRoutes.
    rewrite (loop_unlimited h returns o api pages fuel [] 1 hist Hs Hc Hf).
    reflexivity.
  - intros L HL. split; [ | split ].
    + unfold listTunnelRoutes.
      rewrite (loop_limited h returns o api L HL pages fuel [] 1 hist Hs Hc Hf).
      simpl app. rewrite firstn_min. reflexivity.
    + apply consumed_le.
    + intros m Hm.
      apply (consumed_minimal L pages 0%nat m); [ simpl; lia | exact Hm ].
Qed.

Lemma listTunnelRoutes_pagination_witness :
  run true (Samples.listing Samples.two_pages)
      (listTunnelRoutes Samples.handleApiError 2 Samples.api None) []
  = (Returned [Samples.r1; Samples.r2; Samples.r3], requests Samples.api 1 2)
  /\ run true (Samples.listing Samples.two_pages)
         (listTunnelRoutes Samples.handleApiError 2 Samples.api (Some 1)) []
     = (Returned [Samples.r1], requests Samples.api 1 1).
Proof.
  destruct (listTunnelRoutes_pagination Samples.handleApiError true
              (Samples.listing Samples.two_pages) Samples.api []
              Samples.two_pages 2) as [Hall Hlimit].
  - simpl. split; [ reflexivity | split; [ reflexivity | exact I ] ].
  - simpl. repeat split; reflexivity.
  - simpl. lia.
  - split; [ exact Hall | ].
    destruct (Hlimit 1) as [H _]; [ lia | exact H ].
Defined.

(** C9, at an input where the code departs from it and from its own
    documentation of [limit] as the maximum number of routes to
    return: with a limit of 0 the test [limit && ...] reads the limit
    as absent, and [listTunnelRoutes] returns every route instead of
    the first [min(0, total)], that is none. *)
Lemma limit_zero_returns_everything :
  run true (Samples.listing Samples.one_page)
      (listTunnelRoutes Samples.handleApiError 1 Samples.api (Some 0)) []
  = (Returned [Samples.r1], requests Samples.api 1 1)
  /\ ~ any_limit_yields_prefix.
Proof.
  split; [ reflexivity | ].
  intros H.
  specialize (H Samples.handleApiError true (Samples.listing Samples.one_page)
                Samples.api [] Samples.one_page 1%nat 0).
  assert (Hs : serves (Samples.listing Samples.one_page) Samples.api [] 1
                 Samples.one_page)
    by (simpl; split; [ reflexivity | exact I ]).
  assert (Hc : complete Samples.one_page) by (simpl; split; reflexivity).
  specialize (H Hs Hc (le_n 1)).
  vm_compute in H. discriminate H.
Qed.

End Pagination.

(* ================================================================== *)
(** ** C10: rate tiers through the API form and back *)
(* ================================================================== *)

Module Tiers.

Import Stripe.

Lemma leading_digits_uint (d : Decimal.uint) :
  JsNumber.leading_digits (NilEmpty.string_of_uint d)
  = NilEmpty.string_of_uint d.
Proof. induction d; simpl; try rewrite IHd; reflexivity. Qed.

Lemma parse_digits_uint (d : Decimal.uint) :
  d <> Decimal.Nil ->
  JsNumber.parse_digits (NilEmpty.string_of_uint d) = Some (Z.of_uint d).
Proof.
  intros Hd. unfold JsNumber.parse_digits. rewrite leading_digits_uint.
  destruct (NilEmpty.string_of_uint d) eqn:Hs.
  - destruct d; simpl in Hs; congruence.
  - rewrite <- Hs, NilEmpty.usu. reflexivity.
Qed.

Lemma parseInt_uint (d : Decimal.uint) :
  d <> Decimal.Nil ->
  JsNumber.parseInt (NilEmpty.string_of_uint d) = Some (Z.of_uint d).
Proof.
  intros Hd. rewrite <- (parse_digits_uint d Hd).
  destruct d; [ congruence | reflexivity .. ].
Qed.

Lemma to_uint_not_nil (p : positive) : Pos.to_uint p <> Decimal.Nil.
Proof.
  intros H. pose proof (DecimalPos.Unsigned.of_to p) as Hp.
  rewrite H in Hp. discriminate Hp.
Qed.

(** Digits printed for a non-negative integer parse back to it. *)
Lemma parseInt_decimal (n : Z) :
  0 <= n -> JsNumber.parseInt (JsNumber.decimal n) = Some n.
Proof.
  intros Hn. unfold JsNumber.decimal.
  pose proof (DecimalZ.of_to n) as Hof.
  destruct n as [ | p | p]; [ reflexivity | | lia ].
  simpl in *. unfold NilZero.string_of_uint.
  destruct (Pos.to_uint p) eqn:Hp;
    [ exfalso; exact (to_uint_not_nil p Hp) | .. ];
    rewrite parseInt_uint by discriminate;
    simpl in Hof; rewrite <- Hof; reflexivity.
Qed.

(** Printed non-negative integers are never the empty string. *)
Lemma decimal_truthy (n : Z) :
  0 <= n -> Js.truthy_string (JsNumber.decimal n) = true.
Proof.
  intros Hn. unfold JsNumber.decimal.
  destruct n as [ | p | p]; [ reflexivity | | lia ].
  simpl. unfold NilZero.string_of_uint.
  destruct (Pos.to_uint p) eqn:Hp;
    [ exfalso; exact (to_uint_not_nil p Hp) | reflexivity .. ].
Qed.

(** An amount the handler accepts below 10^21: absent, or an integer in
    [0, 10^21). *)
Definition small_amount (a : option JsNumber.number) : Prop :=
  match a with
  | None => True
  | Some (JsNumber.Int n) => 0 <= n < 10 ^ 21
  | Some JsNumber.NaN => False
  end.

(** An amount that is absent or any non-negative integer. *)
Definition natural_amount (a : option JsNumber.number) : Prop :=
  match a with
  | None => True
  | Some (JsNumber.Int n) => 0 <= n
  | Some JsNumber.NaN => False
  end.

(** The statement that every tier with absent or non-negative integer
    amounts survives the round trip. *)
Definition every_natural_tier_round_trips : Prop :=
  forall tier : RateTier,
    natural_amount (unitAmount tier) ->
    natural_amount (flatAmount tier) ->
    mapV2TierToOutput (apiTier tier) = tier.

Lemma amount_round_trip (a : option JsNumber.number) :
  small_amount a ->
  (if Js.truthy (option_map JsNumber.String_number a)
   then Some (JsNumber.parseInt_number
                (Js.nullish (option_map JsNumber.String_number a) ""))
   else None) = a.
Proof.
  destruct a as [[n | ] | ]; simpl; intros H; [ | destruct H | reflexivity ].
  unfold JsNumber.String.
  replace (Z.abs n <? 10 ^ 21) with true
    by (symmetry; apply Z.ltb_lt; lia).
  rewrite decimal_truthy by lia.
  unfold JsNumber.parseInt_number. rewrite parseInt_decimal by lia.
  reflexivity.
Qed.

(** C10 (as amended).  A tier whose amounts are absent or integers in
    [0, 10^21) is mapped to its API form and back to itself; and an
    [up_to] of [null] is mapped to ["inf"]. *)
Theorem tier_round_trip :
  forall tier : RateTier,
    small_amount (unitAmount tier) ->
    small_amount (flatAmount tier) ->
    mapV2TierToOutput (apiTier tier) = tier
    /\ (forall unit_amount flat_amount,
          upTo (mapV2TierToOutput (mkV2Tier None unit_amount flat_amount))
          = UpToInf).
Proof.
  intros [u a b] Ha Hb. simpl in Ha, Hb. split; [ | reflexivity ].
  unfold mapV2TierToOutput, apiTier.
  cbn [up_to unit_amount flat_amount upTo unitAmount flatAmount].
  rewrite (amount_round_trip a Ha), (amount_round_trip b Hb). reflexivity.
Qed.

Definition sample_tier : RateTier :=
  mkTier (UpToNumber 100) (Some (JsNumber.Int 5)) None.

Lemma tier_round_trip_witness :
  mapV2TierToOutput (apiTier sample_tier) = sample_tier
  /\ (forall unit_amount flat_amount,
        upTo (mapV2TierToOutput (mkV2Tier None unit_amount flat_amount))
        = UpToInf).
Proof.
  apply (tier_round_trip sample_tier).
  - simpl. lia.
  - simpl. exact I.
Defined.

Definition huge_tier : RateTier :=
  mkTier UpToInf (Some (JsNumber.Int (10 ^ 21))) None.

(** C10 (as stated) fails from 10^21 on: the amount is printed in
    exponential notation, of which [parseInt] reads the first digit. *)
Lemma huge_amount_is_not_restored : ~ every_natural_tier_round_trips.
Proof.
  intros H. specialize (H huge_tier).
  assert (Hu : natural_amount (unitAmount huge_tier)) by (simpl; lia).
  specialize (H Hu I). vm_compute in H. discriminate H.
Qed.

End Tiers.

(* ================================================================== *)
(** ** C2, C3: the delete phase *)
(* ================================================================== *)

Module DeletePhase.

Import Cloudflare.

(** C2.  In the delete phase with [delete: false] the TunnelRoute, the
    WarpDeviceProfile and the NeonProject handler issue no request at
    all, hence no delete request, and return the destroyed state. *)
Theorem delete_false_keeps_remote :
  forall handleApiError createPhysicalName returns,
    (forall fuel api (o : Oracle CloudflareE) hist this id props,
        phase this = Delete ->
        delete props = Some false ->
        run returns o (TunnelRoute handleApiError fuel api this id props) hist
        = (Returned Destroyed, []))
    /\ (forall api (o : Oracle CloudflareE) hist this id props,
          phase this = Delete ->
          wp_delete props = Some false ->
          run returns o
              (WarpDeviceProfile handleApiError createPhysicalName api this id props)
              hist
          = (Returned Destroyed, []))
    /\ (forall formatRole formatConnectionUri connection_of_uri
               (o : Oracle Neon.NeonE) hist this id props,
          phase this = Delete ->
          Neon.delete props = Some false ->
          run returns o
              (Neon.NeonProject createPhysicalName formatRole
                 formatConnectionUri connection_of_uri this id props)
              hist
          = (Returned Destroyed, [])).
Proof.
  intros h cpn returns. repeat split.
  - intros fuel api o hist this id props Hphase Hdelete.
    unfold TunnelRoute. rewrite Hphase, Hdelete. simpl.
    rewrite andb_false_r. reflexivity.
  - intros api o hist this id props Hphase Hdelete.
    unfold WarpDeviceProfile. rewrite Hphase, Hdelete. simpl.
    rewrite andb_false_r. reflexivity.
  - intros fr fc cu o hist this id props Hphase Hdelete.
    unfold Neon.NeonProject. rewrite Hphase, Hdelete. reflexivity.
Qed.

Definition kept_route_props : TunnelRouteProps :=
  mkRouteProps "10.1.0.0/16" (inl "t1") None None None (Some false) None.

Definition deleting (out : TunnelRouteOutput) : Context TunnelRouteOutput :=
  mkContext Delete (Some out) Samples.root.

Definition plain_route_props : TunnelRouteProps :=
  mkRouteProps "10.1.0.0/16" (inl "t1") None None None None None.

Lemma delete_false_keeps_remote_witness :
  run true (Samples.listing [])
      (TunnelRoute Samples.handleApiError 1 Samples.api
         (deleting (route_output Samples.r2)) "persistent-route"
         kept_route_props) []
  = (Returned Destroyed, []).
Proof.
  apply (proj1 (delete_false_keeps_remote Samples.handleApiError
                  Samples.createPhysicalName true)).
  - reflexivity.
  - reflexivity.
Defined.

(** The delete request of a route, of a device profile and of a
    redirect rule. *)
Definition route_delete (api : CloudflareApi) (routeId : string)
  : CloudflareE (Js.Error + FetchResponse (body KNoBody)) :=
  Fetch KNoBody DELETE (routes_path api ++ "/" ++ routeId) None.

Definition policy_delete (api : CloudflareApi) (policyId : string)
  : CloudflareE (Js.Error + FetchResponse (body KNoBody)) :=
  Fetch KNoBody DELETE (policy_path api ++ "/" ++ policyId) None.

(** A Stripe error that reports a missing resource. *)
Definition stripe_not_found (e : Js.Error) : bool :=
  Stripe.is_404 e || Js.is_string (Js.err_code e) "resource_missing".

Definition rule_delete (zoneId rulesetId ruleId : string)
  : CloudflareE (Js.Error + FetchResponse (body KNoBody)) :=
  Fetch KNoBody DELETE
    (rulesets_path zoneId ++ "/" ++ rulesetId ++ "/rules/" ++ ruleId) None.

(** A zone given by id or by resource: it is resolved without a
    request. *)
Definition zone_known (zone : string + Zone) : Prop :=
  match zone with
  | inl s => Js.includes s "." = false /\ s <> ""
  | inr z => zone_id z <> ""
  end.

Definition known_zone_id (zone : string + Zone) : string :=
  match zone with inl s => s | inr z => zone_id z end.

(** C3.  In the delete phase, when the handler (TunnelRoute,
    WarpDeviceProfile, RedirectRule, RateCard, Rate, NeonProject) issues
    its delete request and the provider answers 404 (Cloudflare: the
    response status; Neon: the status next to the error; Stripe: an
    error with status or statusCode 404, or code resource_missing), no
    error is raised and the handler returns the destroyed state. *)
Theorem delete_404_is_success :
  forall handleApiError createPhysicalName returns,
    (forall fuel api (o : Oracle CloudflareE) hist this id props routeId resp,
        phase this = Delete ->
        delete props <> Some false ->
        Js.or_else (Cloudflare.routeId props)
          (option_map out_id (output this)) = Some routeId ->
        routeId <> "" ->
        o _ hist (route_delete api routeId) = inr resp ->
        status (head resp) = 404 ->
        run returns o (TunnelRoute handleApiError fuel api this id props) hist
        = (Returned Destroyed, [Requested (route_delete api routeId)]))
    /\ (forall api (o : Oracle CloudflareE) hist this id props previous resp,
          phase this = Delete ->
          wp_delete props <> Some false ->
          output this = Some previous ->
          wo_policyId previous <> "" ->
          o _ hist (policy_delete api (wo_policyId previous)) = inr resp ->
          status (head resp) = 404 ->
          run returns o
              (WarpDeviceProfile handleApiError createPhysicalName api this id props)
              hist
          = (Returned Destroyed,
             [Requested (policy_delete api (wo_policyId previous))]))
    /\ (forall env (o : Oracle Stripe.StripeE) hist this id props previous
               client error,
          phase this = Delete ->
          Stripe.createStripeV2Client
            (option_map inr (Stripe.rcp_apiKey props)) env = inr client ->
          output this = Some previous ->
          Stripe.rco_id previous <> "" ->
          o _ hist (Stripe.Request Stripe.KDeleted DELETE
                      ("/v2/billing/rate_cards/" ++ Stripe.rco_id previous) None)
          = inl error ->
          stripe_not_found error = true ->
          fst (run returns o (Stripe.RateCard env this id props) hist)
          = Returned Destroyed)
    /\ (forall convertWildcardUrlToExpression api (o : Oracle CloudflareE)
               hist this id props previous resp,
          phase this = Delete ->
          zone_known (rr_zone props) ->
          output this = Some previous ->
          ro_ruleId previous <> "" ->
          ro_rulesetId previous <> "" ->
          o _ hist (rule_delete (known_zone_id (rr_zone props))
                      (ro_rulesetId previous) (ro_ruleId previous))
          = inr resp ->
          status (head resp) = 404 ->
          run returns o
              (RedirectRule createPhysicalName convertWildcardUrlToExpression
                 api this id props) hist
          = (Returned Destroyed,
             [Requested (rule_delete (known_zone_id (rr_zone props))
                           (ro_rulesetId previous) (ro_ruleId previous))]))
    /\ (forall env (o : Oracle Stripe.StripeE) hist this id props previous
               client error,
          phase this = Delete ->
          Stripe.createStripeV2Client
            (option_map inr (Stripe.rp_apiKey props)) env = inr client ->
          output this = Some previous ->
          Stripe.ro_id previous <> "" ->
          Stripe.ro_rateCard previous <> "" ->
          o _ hist (Stripe.Request Stripe.KDeleted DELETE
                      ("/v2/billing/rate_cards/" ++ Stripe.ro_rateCard previous
                         ++ "/rates/" ++ Stripe.ro_id previous) None)
          = inl error ->
          stripe_not_found error = true ->
          fst (run returns o (Stripe.Rate env this id props) hist)
          = Returned Destroyed)
    /\ (forall formatRole formatConnectionUri connection_of_uri
               (o : Oracle Neon.NeonE) hist this id props previous message,
          phase this = Delete ->
          Neon.delete props <> Some false ->
          output this = Some previous ->
          Neon.out_id previous <> "" ->
          o _ hist (Neon.DeleteProject (Neon.out_id previous))
          = inr (Neon.mkDeleteResponse (Some message) 404) ->
          run returns o
              (Neon.NeonProject createPhysicalName formatRole
                 formatConnectionUri connection_of_uri this id props)
              hist
          = (Returned Destroyed,
             [Requested (Neon.DeleteProject (Neon.out_id previous))])).
Proof.
  intros h cpn returns. repeat split.
  - intros fuel api o hist this id props routeId resp
           Hphase Hdelete Hid Hne Ho H404.
    unfold TunnelRoute. rewrite Hphase, Hid. cbn [phase_eqb].
    rewrite (truthy_nonempty _ Hne).
    rewrite (is_false_other _ Hdelete). cbn [negb andb Js.nullish].
    unfold deleteRoute, api_delete, await, route_delete in *.
    cbn [bind run]. answered Ho. status_404 H404. reflexivity.
  - intros api o hist this id props previous resp
           Hphase Hdelete Hout Hne Ho H404.
    unfold WarpDeviceProfile. rewrite Hphase, Hout. cbn [phase_eqb option_map].
    rewrite (truthy_nonempty _ Hne).
    rewrite (is_false_other _ Hdelete). cbn [negb andb Js.nullish].
    unfold deletePolicy, api_delete, await, policy_delete in *.
    cbn [bind run]. answered Ho. status_404 H404. reflexivity.
  - intros env o hist this id props previous client error
           Hphase Hclient Hout Hne Ho Hnf.
    unfold Stripe.RateCard. rewrite Hclient, Hphase, Hout.
    cbn [phase_eqb option_map].
    rewrite (truthy_nonempty _ Hne). cbn [Js.nullish].
    unfold Stripe.delete_remote, Stripe.rateCards_del, await.
    cbn [bind try_catch run]. cbn [Stripe.payload] in *. rewrite Ho.
    cbn [bind try_catch run].
    unfold stripe_not_found in Hnf.
    destruct (Stripe.is_404 error) eqn:H404.
    + reflexivity.
    + unfold Stripe.handleStripeV2DeleteError.
      unfold Stripe.is_404 in H404. simpl in Hnf.
      rewrite Hnf. reflexivity.
  - intros conv api o hist this id props previous resp
           Hphase Hzone Hout Hne Hne' Ho H404.
    unfold RedirectRule.
    destruct (rr_zone props) as [d | z]; cbn [zone_known known_zone_id] in *;
      [ destruct Hzone as [Hdot Hk]; rewrite Hdot | pose proof Hzone as Hk ];
      cbn [bind];
      rewrite (truthy_nonempty _ Hk); cbn [negb Js.nullish];
      rewrite Hphase, Hout; cbn [phase_eqb option_map];
      rewrite (truthy_nonempty _ Hne), (truthy_nonempty _ Hne');
      cbn [andb Js.nullish];
      unfold deleteRule, api_delete, await, rule_delete in *;
      cbn [bind run]; answered Ho; status_404 H404; reflexivity.
  - intros env o hist this id props previous client error
           Hphase Hclient Hout Hne Hne' Ho Hnf.
    unfold Stripe.Rate. rewrite Hclient, Hphase, Hout.
    cbn [phase_eqb option_map].
    rewrite (truthy_nonempty _ Hne), (truthy_nonempty _ Hne').
    cbn [andb Js.nullish].
    unfold Stripe.delete_remote, Stripe.rates_del, await.
    cbn [bind try_catch run]. cbn [Stripe.payload] in *. rewrite Ho.
    cbn [bind try_catch run].
    unfold stripe_not_found in Hnf.
    destruct (Stripe.is_404 error) eqn:H404.
    + reflexivity.
    + unfold Stripe.handleStripeV2DeleteError.
      unfold Stripe.is_404 in H404. simpl in Hnf.
      rewrite Hnf. reflexivity.
  - intros fr fc cu o hist this id props previous message
           Hphase Hdelete Hout Hne Ho.
    unfold Neon.NeonProject. rewrite Hphase, Hout. cbn [option_map].
    rewrite (truthy_nonempty _ Hne).
    rewrite (is_false_other _ Hdelete). cbn [negb andb Js.nullish].
    unfold await. cbn [bind run]. rewrite Ho. reflexivity.
Qed.

Lemma delete_404_is_success_witness :
  run true (Samples.answering Samples.missing)
      (TunnelRoute Samples.handleApiError 1 Samples.api
         (deleting (route_output Samples.r2)) "gone-route"
         plain_route_props) []
  = (Returned Destroyed, [Requested (route_delete Samples.api "r2")]).
Proof.
  apply (proj1 (delete_404_is_success Samples.handleApiError
                  Samples.createPhysicalName true)
           1%nat Samples.api (Samples.answering Samples.missing) []
           (deleting (route_output Samples.r2)) "gone-route"
           plain_route_props "r2"
           (Samples.no_body Samples.missing)).
  - reflexivity.
  - discriminate.
  - reflexivity.
  - discriminate.
  - reflexivity.
  - reflexivity.
Defined.

End DeletePhase.

(* ================================================================== *)
(** ** C1: adoption after a conflict on create *)
(* ================================================================== *)

Module Adoption.

Import Cloudflare.

(** [typeof props.tunnel === "string" ? props.tunnel : props.tunnel.tunnelId]. *)
Definition tunnel_id_of (props : TunnelRouteProps) : string :=
  match tunnel props with inl s => s | inr t => tunnel_tunnelId t end.

(** The route a lookup by network and tunnel picks from a listing. *)
Definition matching_route (props : TunnelRouteProps)
           (routes : list CloudflareRoute) : option CloudflareRoute :=
  Js.find (fun route =>
             String.eqb (route_network route) (network props)
             && String.eqb (route_tunnel_id route) (tunnel_id_of props))
          routes.

Definition route_not_found (props : TunnelRouteProps) : Js.Error :=
  Js.new_Error ("Failed to find existing route for network '"
                  ++ network props ++ "' and tunnel '"
                  ++ tunnel_id_of props ++ "' for adoption").

Definition has_route_settings (props : TunnelRouteProps) : bool :=
  match comment props with Some _ => true | None => false end
  || match virtualNetworkId props with Some _ => true | None => false end.

Section TunnelRouteAdoption.

Variable handleApiError : ResponseHead -> string -> string -> string -> Js.Error.
Variable returns : bool.
Variable o : Oracle CloudflareE.
Variable fuel : nat.
Variable api : CloudflareApi.
Variable this : Context TunnelRouteOutput.
Variable id : string.
Variable props : TunnelRouteProps.
Variable hist : list (Entry CloudflareE).

Hypothesis create_phase : phase this = Create.

(** The create call fails with [error] after the observations [t1]. *)
Variable error : Js.Error.
Variable t1 : list (Entry CloudflareE).
Hypothesis create_fails :
  run returns o
      (createRoute handleApiError api (network props) (tunnel_id_of props)
         (comment props) (virtualNetworkId props)) hist
  = (Threw error, t1).

Lemma TunnelRoute_create_failed :
  run returns o (TunnelRoute handleApiError fuel api this id props) hist
  = and_then o returns
      (or_catch o returns (Threw error, t1)
         (fun error =>
            if effective_adopt (adopt props) (scope this)
               && route_already_exists error
            then
              existingRoute <-
                findRouteByNetworkAndTunnel handleApiError fuel api
                  (network props) (tunnel_id_of props) ;;
              match existingRoute with
              | None => Throw (route_not_found props)
              | Some existingRoute =>
                  if has_route_settings props
                  then updateRoute handleApiError api (route_id existingRoute)
                         (comment props) (virtualNetworkId props)
                  else Ret existingRoute
              end
            else Throw error)
         hist)
      (fun routeData => Ret (Output (route_output routeData)))
      hist.
Proof.
  unfold TunnelRoute. rewrite create_phase. cbn [phase_eqb andb bind this_replace].
  rewrite run_bind, run_try_catch.
  fold (tunnel_id_of props). rewrite create_fails. reflexivity.
Qed.

(** Without adoption, or for an error that is not a conflict, the
    error of the create call is rethrown as it is. *)
Lemma TunnelRoute_rethrows :
  effective_adopt (adopt props) (scope this) && route_already_exists error
  = false ->
  run returns o (TunnelRoute handleApiError fuel api this id props) hist
  = (Threw error, t1).
Proof.
  intros H. rewrite TunnelRoute_create_failed.
  unfold or_catch. rewrite H. cbn [run]. rewrite app_nil_r. reflexivity.
Qed.

Hypothesis adopting :
  effective_adopt (adopt props) (scope this) = true.
Hypothesis conflict : route_already_exists error = true.

(** The listing behind the lookup returns [routes] after [t2]. *)
Variable routes : list CloudflareRoute.
Variable t2 : list (Entry CloudflareE).
Hypothesis listed :
  run returns o (listTunnelRoutes handleApiError fuel api None)
      (hist ++ t1)%list
  = (Returned routes, t2).

Lemma TunnelRoute_looks_up :
  run returns o (TunnelRoute handleApiError fuel api this id props) hist
  = and_then o returns
      (and_then o returns (Returned (matching_route props routes), (t1 ++ t2)%list)
         (fun existingRoute =>
            match existingRoute with
            | None => Throw (route_not_found props)
            | Some existingRoute =>
                if has_route_settings props
                then updateRoute handleApiError api (route_id existingRoute)
                       (comment props) (virtualNetworkId props)
                else Ret existingRoute
            end)
         hist)
      (fun routeData => Ret (Output (route_output routeData)))
      hist.
Proof.
  rewrite TunnelRoute_create_failed.
  unfold or_catch. rewrite adopting, conflict. cbn [andb].
  unfold findRouteByNetworkAndTunnel.
  rewrite !run_bind. rewrite listed.
  cbn [and_then run]. rewrite !app_nil_r.
  fold (matching_route props routes).
  destruct (matching_route props routes) as [existing | ].
  - destruct (run returns o
                (if has_route_settings props
                 then updateRoute handleApiError api (route_id existing)
                        (comment props) (virtualNetworkId props)
                 else Ret existing) ((hist ++ t1) ++ t2)%list)
      as [[a | e | f | ] t3] eqn:Hrun;
      rewrite <- app_assoc in Hrun; rewrite Hrun; cbn [and_then run];
      rewrite ?app_nil_r, ?app_assoc; reflexivity.
  - cbn [run and_then]. rewrite !app_nil_r. reflexivity.
Qed.

(** No route matches: the handler raises its own error. *)
Lemma TunnelRoute_not_found :
  matching_route props routes = None ->
  run returns o (TunnelRoute handleApiError fuel api this id props) hist
  = (Threw (route_not_found props), (t1 ++ t2)%list).
Proof.
  intros H. rewrite TunnelRoute_looks_up, H.
  cbn [and_then run]. rewrite !app_nil_r. reflexivity.
Qed.

(** A route matches and no comment or virtual network is given: the
    existing route is returned in the shape of a created one. *)
Lemma TunnelRoute_adopts_as_is existing :
  matching_route props routes = Some existing ->
  has_route_settings props = false ->
  run returns o (TunnelRoute handleApiError fuel api this id props) hist
  = (Returned (Output (route_output existing)), (t1 ++ t2)%list).
Proof.
  intros H Hs. rewrite TunnelRoute_looks_up, H, Hs.
  cbn [and_then run]. rewrite !app_nil_r. reflexivity.
Qed.

(** A route matches and a comment or virtual network is given: the
    existing route is patched and the patched route returned. *)
Lemma TunnelRoute_adopts_and_updates existing routeData t3 :
  matching_route props routes = Some existing ->
  has_route_settings props = true ->
  run returns o
      (updateRoute handleApiError api (route_id existing)
         (comment props) (virtualNetworkId props))
      (hist ++ t1 ++ t2)%list
  = (Returned routeData, t3) ->
  run returns o (TunnelRoute handleApiError fuel api this id props) hist
  = (Returned (Output (route_output routeData)), (t1 ++ t2 ++ t3)%list).
Proof.
  intros H Hs Hu. rewrite TunnelRoute_looks_up, H, Hs.
  cbn [and_then]. rewrite Hu. cbn [and_then run].
  rewrite ?app_nil_r, <- ?app_assoc. reflexivity.
Qed.

End TunnelRouteAdoption.

Definition profile_not_found (name : string) : Js.Error :=
  Js.new_Error ("Failed to find existing WARP device profile '"
                  ++ name ++ "' for adoption").

(** The request that lists the device profiles. *)
Definition policies_list (api : CloudflareApi)
  : CloudflareE (Js.Error + FetchResponse (body KPolicyList)) :=
  Fetch KPolicyList GET ("/accounts/" ++ accountId api ++ "/devices/policies")
    None.

(** The id of the first listed profile with the given name. *)
Definition matching_policy (name : string)
           (result : option (list CloudflarePolicyListItem)) : option string :=
  match result with
  | Some items =>
      option_map (fun p => Js.nullish (pitem_policy_id p) (pitem_id p))
        (Js.find (fun p => String.eqb (pitem_name p) name) items)
  | None => None
  end.

(** The reading of the clock. *)
Definition clock : Entry CloudflareE := Requested DateNow.

(** What the WarpDeviceProfile handler does once it holds a policy id
    and a creation time: the split tunnel, when configured, then the
    output. *)
Definition after_policy
           (handleApiError : ResponseHead -> string -> string -> string -> Js.Error)
           (api : CloudflareApi) (name : string) (settings : WarpSettings)
           (found : string * Z) : M (HandlerResult WarpDeviceProfileOutput) :=
  match splitTunnel settings with
  | Some config => updateSplitTunnel handleApiError api (fst found) config
  | None => Ret tt
  end ;;;
  modifiedAt <- Vis DateNow (fun now => Ret now) ;;
  Ret (Output (profile_output (fst found) name settings (snd found) modifiedAt)).

(** The split tunnel the WarpDeviceProfile handler writes, when one is
    configured, to the policy it holds. *)
Definition split_tunnel_step
           (handleApiError : ResponseHead -> string -> string -> string -> Js.Error)
           (api : CloudflareApi) (policyId : string) (settings : WarpSettings)
  : M unit :=
  match splitTunnel settings with
  | Some config => updateSplitTunnel handleApiError api policyId config
  | None => Ret tt
  end.

Section WarpAdoption.

Variable handleApiError : ResponseHead -> string -> string -> string -> Js.Error.
Variable createPhysicalName : Scope -> string -> string.
Variable returns : bool.
Variable o : Oracle CloudflareE.
Variable api : CloudflareApi.
Variable this : Context WarpDeviceProfileOutput.
Variable id : string.
Variable props : WarpDeviceProfileProps.
Variable hist : list (Entry CloudflareE).

Hypothesis create_phase : phase this = Create.
Hypothesis no_previous : output this = None.

Local Abbreviation name := (profile_name createPhysicalName this id props).

(** The lookup by name, by the provider's answer to the list request. *)
Lemma findPolicyByName_found hist' resp :
  o _ hist' (policies_list api) = inr resp ->
  ok (head resp) = true ->
  run returns o (findPolicyByName handleApiError api name) hist'
  = (Returned (matching_policy name (json resp)),
     [Requested (policies_list api)]).
Proof.
  intros Ho Hok. unfold findPolicyByName, api_get, await, policies_list in *.
  cbn [bind run]. answered Ho. rewrite Hok. cbn [negb].
  unfold matching_policy.
  destruct (json resp) as [items | ]; [ | reflexivity ].
  destruct (Js.find _ items); reflexivity.
Qed.

(** The create call fails with [error] after the observations [t1]. *)
Variable error : Js.Error.
Variable t1 : list (Entry CloudflareE).
Hypothesis create_fails :
  run returns o (createPolicy handleApiError api name (wp_settings props))
      (hist ++ [clock])%list
  = (Threw error, t1).

Local Abbreviation after_lookup :=
  (after_policy handleApiError api name (wp_settings props)).

Lemma WarpDeviceProfile_create_failed :
  run returns o
      (WarpDeviceProfile handleApiError createPhysicalName api this id props) hist
  = (let (out, t) :=
       and_then o returns
         (or_catch o returns (Threw error, t1)
            (fun error =>
               if effective_adopt (wp_adopt props) (scope this)
                  && profile_already_exists error
               then
                 existing <- findPolicyByName handleApiError api name ;;
                 match existing with
                 | None => Throw (profile_not_found name)
                 | Some policy_id => Ret (policy_id, o _ hist DateNow)
                 end
               else Throw error)
            (hist ++ [clock])%list)
         after_lookup (hist ++ [clock])%list in
     (out, clock :: t)).
Proof.
  unfold WarpDeviceProfile. rewrite create_phase, no_previous.
  cbn [phase_eqb andb bind this_replace option_map run].
  rewrite run_bind, run_try_catch, run_bind.
  unfold clock in *. rewrite create_fails. cbn [and_then or_catch].
  unfold after_policy, profile_not_found.
  destruct (effective_adopt (wp_adopt props) (scope this)
            && profile_already_exists error);
    [ | reflexivity ].
  match goal with
  | |- (let (_, _) := and_then _ _ (let (_, _) := ?r in _) ?f _ in _)
       = (let (_, _) := and_then _ _ (let (_, _) := ?r' in _) ?f' _ in _) =>
      change r' with r; destruct r as [[[pid at0] | e | force | ] t];
      cbn [and_then fst snd]; try reflexivity
  end.
Qed.

(** Without adoption, or for an error the handler does not take for a
    conflict, the error of the create call is rethrown as it is. *)
Lemma WarpDeviceProfile_rethrows :
  effective_adopt (wp_adopt props) (scope this) && profile_already_exists error
  = false ->
  run returns o
      (WarpDeviceProfile handleApiError createPhysicalName api this id props) hist
  = (Threw error, clock :: t1).
Proof.
  intros H. rewrite WarpDeviceProfile_create_failed.
  unfold or_catch. rewrite H. cbn [run and_then]. rewrite app_nil_r.
  reflexivity.
Qed.

Hypothesis adopting : effective_adopt (wp_adopt props) (scope this) = true.
Hypothesis conflict : profile_already_exists error = true.

(** The list request is answered with [resp], successfully. *)
Variable resp : FetchResponse (body KPolicyList).
Hypothesis listed :
  o _ (hist ++ [clock] ++ t1)%list (policies_list api) = inr resp.
Hypothesis listed_ok : ok (head resp) = true.

(** No profile has the name: the handler raises its own error. *)
Lemma WarpDeviceProfile_not_found :
  matching_policy name (json resp) = None ->
  run returns o
      (WarpDeviceProfile handleApiError createPhysicalName api this id props) hist
  = (Threw (profile_not_found name),
     clock :: (t1 ++ [Requested (policies_list api)])%list).
Proof.
  intros H. rewrite WarpDeviceProfile_create_failed.
  unfold or_catch. rewrite adopting, conflict. cbn [andb].
  rewrite run_bind.
  rewrite (findPolicyByName_found _ resp)
    by (try rewrite <- app_assoc; assumption).
  rewrite H. cbn [and_then run]. rewrite ?app_nil_r. reflexivity.
Qed.

(** A profile has the name: the split tunnel, when one is configured,
    is written to the existing profile, and the output carries the
    existing profile's id. *)
Lemma WarpDeviceProfile_adopts policy_id t3 :
  matching_policy name (json resp) = Some policy_id ->
  run returns o
      (split_tunnel_step handleApiError api policy_id (wp_settings props))
      (hist ++ [clock] ++ t1 ++ [Requested (policies_list api)])%list
  = (Returned tt, t3) ->
  run returns o
      (WarpDeviceProfile handleApiError createPhysicalName api this id props) hist
  = (Returned
       (Output
          (profile_output policy_id name (wp_settings props)
             (o _ hist DateNow)
             (o _ (hist ++ [clock] ++ t1 ++ [Requested (policies_list api)]
                     ++ t3)%list
                DateNow))),
     clock :: (t1 ++ [Requested (policies_list api)] ++ t3 ++ [clock])%list).
Proof.
  intros H Hs. rewrite WarpDeviceProfile_create_failed.
  unfold or_catch. rewrite adopting, conflict. cbn [andb].
  rewrite run_bind.
  rewrite (findPolicyByName_found _ resp)
    by (try rewrite <- app_assoc; assumption).
  rewrite H. cbn [and_then run]. unfold after_policy.
  rewrite run_bind. cbn [fst snd].
  fold (split_tunnel_step handleApiError api policy_id (wp_settings props)).
  rewrite ?app_nil_r, <- ?app_assoc in *. cbn [app] in *.
  match goal with
  | |- context [and_then o returns ?r _ _] =>
      replace r with (@Returned unit tt, t3) by (symmetry; exact Hs)
  end.
  cbn [and_then bind run].
  rewrite ?app_nil_r, <- ?app_assoc. cbn [app].
  rewrite <- ?app_assoc. cbn [app]. reflexivity.
Qed.

End WarpAdoption.

(** The requests of the RateCard handler on its create path. *)
Definition card_create (props : Stripe.RateCardProps)
  : Stripe.StripeE (Js.Error + Stripe.payload Stripe.KRateCard) :=
  Stripe.Request Stripe.KRateCard POST "/v2/billing/rate_cards"
    (Some
       (Js.JObj
          ([("display_name", Js.JStr (Stripe.displayName props));
            ("currency", Js.JStr (Stripe.currency props));
            ("service_interval",
              Js.JStr (Js.nullish (Stripe.serviceInterval props) "month"));
            ("service_interval_count",
              Js.JNum (Js.nullish (Stripe.serviceIntervalCount props) 1));
            ("tax_behavior",
              Js.JStr (Js.nullish (Stripe.taxBehavior props) "exclusive"))]
             ++ Js.field "lookup_key" Js.JStr (Stripe.lookupKey props)
             ++ Js.field "metadata" Stripe.metadata_json
                  (Stripe.metadata props)))).

Definition card_list
  : Stripe.StripeE (Js.Error + Stripe.payload Stripe.KRateCardList) :=
  Stripe.Request Stripe.KRateCardList GET "/v2/billing/rate_cards" None.

(** The update that takes an existing card over: display name and
    metadata. *)
Definition card_adopt (existing_id : string) (props : Stripe.RateCardProps)
  : Stripe.StripeE (Js.Error + Stripe.payload Stripe.KRateCard) :=
  Stripe.Request Stripe.KRateCard POST
    ("/v2/billing/rate_cards/" ++ existing_id)
    (Some
       (Js.JObj
          ([("display_name", Js.JStr (Stripe.displayName props))]
             ++ Js.field "metadata" Stripe.metadata_json
                  (Stripe.metadata props)))).

(** The first listed card with the given lookup key. *)
Definition matching_card (props : Stripe.RateCardProps)
           (cards : list Stripe.V2RateCard) : option Stripe.V2RateCard :=
  Js.find
    (fun rc =>
       match Stripe.rc_lookup_key rc, Stripe.lookupKey props with
       | Some a, Some b => String.eqb a b
       | None, None => true
       | _, _ => false
       end)
    cards.

(** The condition under which the RateCard handler adopts. *)
Definition card_adoptable (props : Stripe.RateCardProps)
           (this : Context Stripe.RateCardOutput) (error : Js.Error) : bool :=
  Stripe.isStripeV2ConflictError error
  && effective_adopt (Stripe.adopt props) (scope this)
  && Js.truthy (Stripe.lookupKey props).

Section RateCardAdoption.

Variable returns : bool.
Variable o : Oracle Stripe.StripeE.
Variable env : option string.
Variable this : Context Stripe.RateCardOutput.
Variable id : string.
Variable props : Stripe.RateCardProps.
Variable hist : list (Entry Stripe.StripeE).

Hypothesis create_phase : phase this = Create.

Variable client : Stripe.StripeV2Client.
Hypothesis client_made :
  Stripe.createStripeV2Client (option_map inr (Stripe.rcp_apiKey props)) env
  = inr client.

(** The create call rejects with [error]. *)
Variable error : Js.Error.
Hypothesis create_fails : o _ hist (card_create props) = inl error.

(** Without adoption, without a lookup key, or for an error that is not
    a conflict, the error of the create call is rethrown as it is and
    nothing is looked up. *)
Lemma RateCard_rethrows :
  card_adoptable props this error = false ->
  run returns o (Stripe.RateCard env this id props) hist
  = (Threw error, [Requested (card_create props)]).
Proof.
  intros H. unfold card_adoptable, effective_adopt in H.
  unfold Stripe.RateCard. rewrite client_made, create_phase.
  unfold Stripe.rateCards_create, await, card_create in *.
  cbn [phase_eqb andb bind try_catch run]. answered create_fails.
  rewrite H. reflexivity.
Qed.

Hypothesis adoptable : card_adoptable props this error = true.

(** The cards are listed. *)
Variable cards : list Stripe.V2RateCard.
Hypothesis listed :
  o _ (hist ++ [Requested (card_create props)])%list card_list = inr cards.

(** No card has the lookup key: the conflict error is rethrown. *)
Lemma RateCard_not_found :
  matching_card props cards = None ->
  run returns o (Stripe.RateCard env this id props) hist
  = (Threw error, [Requested (card_create props); Requested card_list]).
Proof.
  intros H. unfold card_adoptable, effective_adopt in adoptable.
  unfold matching_card in H.
  unfold Stripe.RateCard. rewrite client_made, create_phase.
  unfold Stripe.rateCards_create, Stripe.rateCards_list, await,
    card_create, card_list in *.
  cbn [phase_eqb andb bind try_catch run]. answered create_fails.
  rewrite adoptable. cbn [bind try_catch run]. answered listed.
  rewrite H. reflexivity.
Qed.

(** A card has the lookup key and the update of it resolves: the
    output is the updated card in the shape of a created one. *)
Lemma RateCard_adopts existing rateCard :
  matching_card props cards = Some existing ->
  o _ (hist ++ [Requested (card_create props); Requested card_list])%list
    (card_adopt (Stripe.rc_id existing) props)
  = inr rateCard ->
  run returns o (Stripe.RateCard env this id props) hist
  = (Returned (Output (Stripe.mapV2RateCardToOutput rateCard)),
     [Requested (card_create props); Requested card_list;
      Requested (card_adopt (Stripe.rc_id existing) props)]).
Proof.
  intros H Hu. unfold card_adoptable, effective_adopt in adoptable.
  unfold matching_card in H.
  unfold Stripe.RateCard. rewrite client_made, create_phase.
  unfold Stripe.rateCards_create, Stripe.rateCards_list,
    Stripe.rateCards_update, await, card_create, card_list, card_adopt in *.
  cbn [phase_eqb andb bind try_catch run]. answered create_fails.
  rewrite adoptable. cbn [bind try_catch run]. answered listed.
  rewrite H. cbn [bind try_catch run].
  rewrite <- !app_assoc. cbn [app] in *. answered Hu. reflexivity.
Qed.

End RateCardAdoption.

(** The output carries the route: its id, network, tunnel, comment,
    virtual network and times, in the shape of a created route. *)
Definition carries_route (route : CloudflareRoute) (out : TunnelRouteOutput)
  : Prop :=
  out_id out = route_id route
  /\ out_network out = route_network route
  /\ out_tunnelId out = route_tunnel_id route
  /\ out_comment out = route_comment route
  /\ out_virtualNetworkId out = route_virtual_network_id route
  /\ out_createdAt out = route_created_at route
  /\ out_deletedAt out = route_deleted_at route
  /\ out_type out = "cloudflare::TunnelRoute".

(** What TunnelRoute does in the create phase when its create call
    fails. *)
Definition TunnelRoute_adoption : Prop :=
  forall handleApiError returns (o : Oracle CloudflareE) fuel api this id props
         hist error t1,
    phase this = Create ->
    run returns o
        (createRoute handleApiError api (network props) (tunnel_id_of props)
           (comment props) (virtualNetworkId props)) hist
    = (Threw error, t1) ->
    let handler := TunnelRoute handleApiError fuel api this id props in
    (effective_adopt (adopt props) (scope this) && route_already_exists error
     = false ->
     run returns o handler hist = (Threw error, t1))
    /\ (effective_adopt (adopt props) (scope this) = true ->
        route_already_exists error = true ->
        forall routes t2,
          run returns o (listTunnelRoutes handleApiError fuel api None)
              (hist ++ t1)%list
          = (Returned routes, t2) ->
          (matching_route props routes = None ->
           run returns o handler hist
           = (Threw (route_not_found props), (t1 ++ t2)%list))
          /\ (forall existing,
                 matching_route props routes = Some existing ->
                 has_route_settings props = false ->
                 exists out,
                   run returns o handler hist
                   = (Returned (Output out), (t1 ++ t2)%list)
                   /\ carries_route existing out)
          /\ (forall existing routeData t3,
                 matching_route props routes = Some existing ->
                 has_route_settings props = true ->
                 run returns o
                     (updateRoute handleApiError api (route_id existing)
                        (comment props) (virtualNetworkId props))
                     (hist ++ t1 ++ t2)%list
                 = (Returned routeData, t3) ->
                 exists out,
                   run returns o handler hist
                   = (Returned (Output out), (t1 ++ t2 ++ t3)%list)
                   /\ carries_route routeData out)).

(** What WarpDeviceProfile does in the create phase when its create
    call fails. *)
Definition WarpDeviceProfile_adoption : Prop :=
  forall handleApiError createPhysicalName returns (o : Oracle CloudflareE)
         api this id props hist error t1,
    phase this = Create ->
    output this = None ->
    let name := profile_name createPhysicalName this id props in
    run returns o (createPolicy handleApiError api name (wp_settings props))
        (hist ++ [clock])%list
    = (Threw error, t1) ->
    let handler :=
      WarpDeviceProfile handleApiError createPhysicalName api this id props in
    (effective_adopt (wp_adopt props) (scope this)
     && profile_already_exists error = false ->
     run returns o handler hist = (Threw error, clock :: t1))
    /\ (effective_adopt (wp_adopt props) (scope this) = true ->
        profile_already_exists error = true ->
        forall resp,
          o _ (hist ++ [clock] ++ t1)%list (policies_list api) = inr resp ->
          ok (head resp) = true ->
          (matching_policy name (json resp) = None ->
           run returns o handler hist
           = (Threw (profile_not_found name),
              clock :: (t1 ++ [Requested (policies_list api)])%list))
          /\ (forall policy_id t3,
                 matching_policy name (json resp) = Some policy_id ->
                 run returns o
                     (split_tunnel_step handleApiError api policy_id
                        (wp_settings props))
                     (hist ++ [clock] ++ t1
                        ++ [Requested (policies_list api)])%list
                 = (Returned tt, t3) ->
                 exists out,
                   run returns o handler hist
                   = (Returned (Output out),
                      clock :: (t1 ++ [Requested (policies_list api)]
                                  ++ t3 ++ [clock])%list)
                   /\ wo_policyId out = policy_id
                   /\ wo_name out = name
                   /\ wo_createdAt out = o _ hist DateNow
                   /\ splitTunnel (wo_settings out)
                      = splitTunnel (wp_settings props))).

(** What RateCard does in the create phase when its create call is
    rejected. *)
Definition RateCard_adoption : Prop :=
  forall returns (o : Oracle Stripe.StripeE) env this id props hist client error,
    phase this = Create ->
    Stripe.createStripeV2Client (option_map inr (Stripe.rcp_apiKey props)) env
    = inr client ->
    o _ hist (card_create props) = inl error ->
    let handler := Stripe.RateCard env this id props in
    (card_adoptable props this error = false ->
     run returns o handler hist
     = (Threw error, [Requested (card_create props)]))
    /\ (card_adoptable props this error = true ->
        forall cards,
          o _ (hist ++ [Requested (card_create props)])%list card_list
          = inr cards ->
          (matching_card props cards = None ->
           run returns o handler hist
           = (Threw error,
              [Requested (card_create props); Requested card_list]))
          /\ (forall existing rateCard,
                 matching_card props cards = Some existing ->
                 o _ (hist ++ [Requested (card_create props);
                               Requested card_list])%list
                   (card_adopt (Stripe.rc_id existing) props)
                 = inr rateCard ->
                 exists out,
                   run returns o handler hist
                   = (Returned (Output out),
                      [Requested (card_create props); Requested card_list;
                       Requested (card_adopt (Stripe.rc_id existing) props)])
                   /\ Stripe.rco_id out = Stripe.rc_id rateCard
                   /\ Stripe.rco_displayName out = Stripe.rc_display_name rateCard
                   /\ Stripe.rco_lookupKey out = Stripe.rc_lookup_key rateCard)).

(** C1 (as amended).  In the create phase, when the create call fails
    with an error the handler takes for "already exists" while adopt
    is in effect, the handler looks the existing object up by its
    natural key: the first listed route with the network and tunnel
    for TunnelRoute, the first listed profile with the name for
    WarpDeviceProfile, the first listed card with the lookup key for
    RateCard, which looks up only when a lookup key is given.  The
    object found is returned in the shape of a created one, carrying
    its id: TunnelRoute first patches it when a comment or a virtual
    network is given and returns the patched route, WarpDeviceProfile
    first writes the split tunnel when one is configured, RateCard
    updates the card and returns the updated card.  When nothing
    matches, TunnelRoute and WarpDeviceProfile raise "Failed to find
    existing ..." and RateCard rethrows the conflict error.  Without
    adoption, for an error that is no conflict, and for a RateCard
    without lookup key, the error of the create call is rethrown as
    it is. *)
Theorem adoption_after_conflict :
  TunnelRoute_adoption /\ WarpDeviceProfile_adoption /\ RateCard_adoption.
Proof.
  split; [ | split ].
  - intros h returns o fuel api this id props hist error t1 Hphase Hfail handler.
    subst handler. split.
    + apply TunnelRoute_rethrows; assumption.
    + intros Ha Hc routes t2 Hl. split; [ | split ].
      * eapply TunnelRoute_not_found; eassumption.
      * intros existing Hm Hs. eexists. split.
        -- eapply TunnelRoute_adopts_as_is; eassumption.
        -- repeat split.
      * intros existing routeData t3 Hm Hs Hu. eexists. split.
        -- eapply TunnelRoute_adopts_and_updates; eassumption.
        -- repeat split.
  - intros h cpn returns o api this id props hist error t1 Hphase Hout name
           Hfail handler.
    subst handler name. split.
    + apply WarpDeviceProfile_rethrows; assumption.
    + intros Ha Hc resp Hl Hok. split.
      * eapply WarpDeviceProfile_not_found; eassumption.
      * intros policy_id t3 Hm Hs. eexists. split.
        -- eapply WarpDeviceProfile_adopts; eassumption.
        -- repeat split.
  - intros returns o env this id props hist client error Hphase Hclient Hfail
           handler.
    subst handler. split.
    + eapply RateCard_rethrows; eassumption.
    + intros Ha cards Hl. split.
      * eapply RateCard_not_found; eassumption.
      * intros existing rateCard Hm Hu. eexists. split.
        -- eapply RateCard_adopts; eassumption.
        -- repeat split.
Qed.

Definition adopting_route_props : TunnelRouteProps :=
  mkRouteProps "10.1.0.0/16" (inl "t1") None None (Some true) None None.

Definition creating {Out : Type} (s : Scope) : Context Out :=
  mkContext Create None s.

Definition route_create (api : CloudflareApi) (props : TunnelRouteProps)
  : Entry CloudflareE :=
  Requested
    (Fetch KRoute POST (routes_path api)
       (Some
          (Js.JObj
             ([("network", Js.JStr (network props));
               ("tunnel_id", Js.JStr (tunnel_id_of props))]
                ++ Js.field "comment" Js.JStr (comment props)
                ++ Js.field "virtual_network_id" Js.JStr
                     (virtualNetworkId props))))).

Lemma adoption_after_conflict_witness :
  exists out,
    run true Samples.with_existing_route
        (TunnelRoute Samples.handleApiError 1 Samples.api
           (creating Samples.root) "existing-route" adopting_route_props) []
    = (Returned (Output out),
       ([route_create Samples.api adopting_route_props]
          ++ ListRoutes.requests Samples.api 1 1)%list)
    /\ carries_route Samples.r2 out.
Proof.
  pose proof (proj1 adoption_after_conflict Samples.handleApiError true
                Samples.with_existing_route 1%nat Samples.api
                (creating Samples.root) "existing-route" adopting_route_props
                [] (Samples.handleApiError Samples.conflict "create" "route"
                      "10.1.0.0/16 -> t1")
                [route_create Samples.api adopting_route_props]
                eq_refl eq_refl) as [_ H].
  destruct (H eq_refl eq_refl [Samples.r1; Samples.r2]
              (ListRoutes.requests Samples.api 1 1) eq_refl) as [_ [H2 _]].
  exact (H2 Samples.r2 eq_refl eq_refl).
Defined.

(** The statement that a conflict on create under adoption always leads
    the RateCard handler to look the cards up. *)
Definition conflict_is_always_looked_up : Prop :=
  forall returns (o : Oracle Stripe.StripeE) env this id props hist client error,
    phase this = Create ->
    Stripe.createStripeV2Client (option_map inr (Stripe.rcp_apiKey props)) env
    = inr client ->
    o _ hist (card_create props) = inl error ->
    Stripe.isStripeV2ConflictError error = true ->
    effective_adopt (Stripe.adopt props) (scope this) = true ->
    existsb (fun e =>
               match e with
               | @Requested _ _ (Stripe.Request _ GET _ _) => true
               | _ => false
               end)
            (snd (run returns o (Stripe.RateCard env this id props) hist))
    = true.

Definition card_without_key : Stripe.RateCardProps :=
  Stripe.mkRateCardProps "API Usage Rate Card" "usd" None None None None None
    None (Some true).

(** C1 (as stated) fails for a RateCard without a lookup key: after the
    conflict nothing is looked up and the conflict error is rethrown,
    although adopt is true. *)
Lemma no_lookup_without_key :
  run true (Samples.rejecting Samples.stripe_conflict)
      (Stripe.RateCard (Some "sk_test") (creating Samples.root) "api-usage"
         card_without_key) []
  = (Threw Samples.stripe_conflict, [Requested (card_create card_without_key)])
  /\ ~ conflict_is_always_looked_up.
Proof.
  split; [ reflexivity | ].
  intros H.
  specialize (H true (Samples.rejecting Samples.stripe_conflict)
                (Some "sk_test") (creating Samples.root) "api-usage"
                card_without_key [] (Stripe.mkClient "sk_test")
                Samples.stripe_conflict
                eq_refl eq_refl eq_refl eq_refl eq_refl).
  vm_compute in H. discriminate H.
Qed.

End Adoption.

(* ================================================================== *)
(** ** Programs that never invoke the replace-mutator *)
(* ================================================================== *)

Section ReplaceFree.

Variable E : Type -> Type.

Definition is_replace (e : Entry E) : bool :=
  match e with ReplaceCalled _ => true | Requested _ => false end.

(** No path of the program invokes [this.replace]. *)
Inductive replace_free {A : Type} : Prog E A -> Prop :=
| rf_ret a : replace_free (Ret a)
| rf_throw e : replace_free (Throw e)
| rf_vis X (ev : E X) k :
    (forall x, replace_free (k x)) -> replace_free (Vis ev k)
| rf_diverge : replace_free Diverge.

Lemma replace_free_bind {A B : Type} (p : Prog E A) (f : A -> Prog E B) :
  replace_free p -> (forall a, replace_free (f a)) -> replace_free (bind p f).
Proof.
  intros Hp Hf. induction Hp; simpl; try constructor; auto.
Qed.

Lemma replace_free_try_catch {A : Type} (p : Prog E A) h :
  replace_free p -> (forall e, replace_free (h e)) ->
  replace_free (try_catch p h).
Proof.
  intros Hp Hh. induction Hp; simpl; try constructor; auto.
Qed.

Lemma replace_free_await {X : Type} (ev : E (Js.Error + X)) :
  replace_free (await ev).
Proof. constructor. intros [e | x]; constructor. Qed.

Lemma replace_free_run {A : Type} (p : Prog E A) :
  replace_free p ->
  forall returns (o : Oracle E) hist,
    existsb is_replace (snd (run returns o p hist)) = false.
Proof.
  intros Hp returns o. induction Hp as [a | e | X ev k _ IH | ]; intros hist;
    simpl; try reflexivity.
  specialize (IH (o X hist ev) (hist ++ [Requested ev])%list).
  destruct (run returns o (k (o X hist ev)) (hist ++ [Requested ev])%list).
  exact IH.
Qed.

End ReplaceFree.

Arguments is_replace {E} e.
Arguments replace_free {E A} p.

(** Discharges [replace_free] goals by following the program text. *)
Ltac no_replace :=
  repeat first
    [ apply rf_ret | apply rf_throw | apply rf_diverge
    | apply replace_free_await
    | apply replace_free_bind
    | apply replace_free_try_catch
    | apply rf_vis
    | progress intros
    | progress cbv zeta
    | match goal with
      | |- replace_free (if ?b then _ else _) => destruct b
      | |- replace_free (match ?x with _ => _ end) => destruct x
      | |- replace_free (let (_, _) := ?x in _) => destruct x
      end ].

(* ================================================================== *)
(** ** C4: the update phase of TunnelRoute and WarpDeviceProfile *)
(* ================================================================== *)

Module UpdatePhase.

Import Cloudflare Adoption.

Section Parts.

Variable handleApiError : ResponseHead -> string -> string -> string -> Js.Error.





Lemma updateSplitTunnel_replace_free api policyId config :
  replace_free (updateSplitTunnel handleApiError api policyId config).
Proof. unfold updateSplitTunnel, api_put. no_replace. Qed.

Lemma updatePolicy_replace_free api policyId name settings :
  replace_free (updatePolicy handleApiError api policyId name settings).
Proof. unfold updatePolicy, api_patch. no_replace. Qed.

Lemma createPolicy_replace_free api name settings :
  replace_free (createPolicy handleApiError api name settings).
Proof. unfold createPolicy, api_post. no_replace. Qed.

Lemma findPolicyByName_replace_free api name :
  replace_free (findPolicyByName handleApiError api name).
Proof. unfold findPolicyByName, api_get. no_replace. Qed.

End Parts.



Definition route_patch (api : CloudflareApi) (routeId : string)
           (props : TunnelRouteProps)
  : CloudflareE (Js.Error + FetchResponse (body KRoute)) :=
  Fetch KRoute PATCH (routes_path api ++ "/" ++ routeId)
    (Some (Js.JObj (Js.field "comment" Js.JStr (comment props)
                      ++ Js.field "virtual_network_id" Js.JStr
                           (virtualNetworkId props)))).

(** The test of the WarpDeviceProfile handler for a changed name. *)
Definition profile_changed (createPhysicalName : Scope -> string -> string)
           (this : Context WarpDeviceProfileOutput) (id : string)
           (props : WarpDeviceProfileProps) : bool :=
  negb (Js.is_string (option_map wo_name (output this))
          (profile_name createPhysicalName this id props)).




Section TunnelRouteUpdate.

Variable handleApiError : ResponseHead -> string -> string -> string -> Js.Error.
Variable returns : bool.
Variable o : Oracle CloudflareE.
Variable fuel : nat.
Variable api : CloudflareApi.
Variable this : Context TunnelRouteOutput.
Variable id : string.
Variable props : TunnelRouteProps.
Variable hist : list (Entry CloudflareE).
Variable previous : TunnelRouteOutput.

Hypothesis update_phase : phase this = Update.
Hypothesis has_previous : output this = Some previous.



End TunnelRouteUpdate.

Section WarpUpdate.

Variable handleApiError : ResponseHead -> string -> string -> string -> Js.Error.
Variable createPhysicalName : Scope -> string -> string.
Variable returns : bool.
Variable o : Oracle CloudflareE.
Variable api : CloudflareApi.
Variable this : Context WarpDeviceProfileOutput.
Variable id : string.
Variable props : WarpDeviceProfileProps.
Variable hist : list (Entry CloudflareE).
Variable previous : WarpDeviceProfileOutput.

Hypothesis update_phase : phase this = Update.
Hypothesis has_previous : output this = Some previous.

Lemma WarpDeviceProfile_replace_iff_changed :
  existsb is_replace
    (snd (run returns o
            (WarpDeviceProfile handleApiError createPhysicalName api this id props)
            hist))
  = profile_changed createPhysicalName this id props.
Proof.
  unfold WarpDeviceProfile, profile_changed.
  rewrite update_phase. cbn [phase_eqb andb].
  set (rest := bind (match option_map wo_createdAt (output this) with
                     | Some c => Ret c
                     | None => _
                     end) _).
  assert (Hrest : replace_free rest).
  { subst rest. rewrite has_previous. cbn [option_map bind].
    apply replace_free_bind.
    - destruct (Js.truthy _).
      + apply replace_free_bind; [ apply updatePolicy_replace_free | no_replace ].
      + apply replace_free_try_catch.
        * apply replace_free_bind; [ apply createPolicy_replace_free | no_replace ].
        * intros e. destruct (_ && _); [ | constructor ].
          apply replace_free_bind; [ apply findPolicyByName_replace_free | ].
          no_replace.
    - intros [policyId createdAt].
      apply replace_free_bind; [ | no_replace ].
      destruct (splitTunnel _);
        [ apply updateSplitTunnel_replace_free | constructor ]. }
  destruct (negb _);
    cbn [this_replace bind run]; [ destruct returns | ];
    repeat (cbn [bind run snd existsb is_replace orb];
            match goal with
            | |- context [run ?r ?o ?p ?h] =>
                lazymatch p with
                | rest =>
                    let H := fresh in
                    pose proof (replace_free_run _ rest Hrest r o h) as H;
                    destruct (run r o rest h); cbn [snd] in H
                end
            end);
    cbn [snd existsb is_replace orb]; try reflexivity; try assumption.
Qed.


End WarpUpdate.





(** The [service_mode_v2] of a request body: the mode, and the port
    when it is not 0. *)
Definition service_mode (sm : ServiceModeV2) : Js.Json :=
  Js.JObj (("mode", Js.JStr (sm_mode sm))
             :: match sm_port sm with
                | Some port => if port =? 0 then [] else [("port", Js.JNum port)]
                | None => []
                end).




(** The request that creates a profile. *)
Definition policy_create (api : CloudflareApi) (name : string)
           (settings : WarpSettings)
  : CloudflareE (Js.Error + FetchResponse (body KPolicy)) :=
  Fetch KPolicy POST (policy_path api) (Some (buildRequestBody name settings)).




Definition updating {Out : Type} (previous : Out) : Context Out :=
  mkContext Update (Some previous) Samples.root.

Definition no_settings : WarpSettings :=
  mkWarpSettings None None None None None None None None None None None None
    None None None None None.


Definition unnamed_profile : WarpDeviceProfileProps :=
  mkWarpProps None no_settings None None.




End UpdatePhase.

(* ================================================================== *)
(** ** C5: validation of conflicting or missing props *)
(* ================================================================== *)

Module Validation.

Import Cloudflare.

(** [props.tiers && props.tiers.length > 0]. *)
Definition hasTiers (props : Stripe.RateProps) : bool :=
  match Stripe.tiers props with
  | Some ts => (0 <? List.length ts)%nat
  | None => false
  end.

(** [props.unitAmount !== undefined]. *)
Definition hasUnitAmount (props : Stripe.RateProps) : bool :=
  match Stripe.rp_unitAmount props with Some _ => true | None => false end.

(** What the Rate handler does with conflicting or missing amounts. *)
Definition Rate_validation : Prop :=
  forall returns (o : Oracle Stripe.StripeE) env this id props hist client,
    phase this <> Delete ->
    Stripe.createStripeV2Client (option_map inr (Stripe.rp_apiKey props)) env
    = inr client ->
    let handler := Stripe.Rate env this id props in
    (hasTiers props = true -> hasUnitAmount props = true ->
     run returns o handler hist = (Threw Stripe.both_error, []))
    /\ (hasTiers props = false -> hasUnitAmount props = false ->
        run returns o handler hist = (Threw Stripe.neither_error, []))
    /\ Js.includes (Js.message Stripe.both_error)
         "Cannot specify both unitAmount and tiers" = true
    /\ Js.message Stripe.neither_error
       = "Either unitAmount or tiers is required".

(** What the RedirectRule handler does with both a request URL and an
    expression. *)
Definition RedirectRule_validation : Prop :=
  forall createPhysicalName convertWildcardUrlToExpression
         returns (o : Oracle CloudflareE) api this id props hist,
    phase this <> Delete ->
    Js.truthy (rr_requestUrl props) = true ->
    Js.truthy (rr_expression props) = true ->
    let handler :=
      RedirectRule createPhysicalName
        convertWildcardUrlToExpression api this id props in
    (DeletePhase.zone_known (rr_zone props) ->
     run returns o handler hist = (Threw validation_error, []))
    /\ (forall domain,
           rr_zone props = inl domain ->
           Js.includes domain "." = true ->
           let lookup := GetZoneByDomain domain in
           (forall z,
               o _ hist lookup = inr (Some z) ->
               zone_id z <> "" ->
               run returns o handler hist
               = (Threw validation_error, [Requested lookup]))
           /\ (forall e,
                  o _ hist lookup = inl e ->
                  run returns o handler hist = (Threw e, [Requested lookup]))
           /\ (o _ hist lookup = inr None
               \/ (exists z, o _ hist lookup = inr (Some z) /\ zone_id z = "") ->
               run returns o handler hist
               = (Threw (Js.new_Error ("Zone " ++ domain ++ " not found")),
                  [Requested lookup])))
    /\ Js.includes (Js.message validation_error)
         "Cannot specify both requestUrl and expression" = true.

Lemma not_delete (p : Phase) : p <> Delete -> phase_eqb p Delete = false.
Proof. destruct p; intros H; try reflexivity. exfalso. apply H. reflexivity. Qed.

Lemma Rate_validates : Rate_validation.
Proof.
  intros returns o env this id props hist client Hphase Hclient handler.
  subst handler. unfold hasTiers, hasUnitAmount.
  repeat split.
  - intros Ht Hu. unfold Stripe.Rate.
    rewrite Hclient, (not_delete _ Hphase), Ht, Hu. reflexivity.
  - intros Ht Hu. unfold Stripe.Rate.
    rewrite Hclient, (not_delete _ Hphase), Ht, Hu. reflexivity.
Qed.

Lemma RedirectRule_validates : RedirectRule_validation.
Proof.
  intros cpn conv returns o api this id props hist Hphase Hu He handler.
  subst handler. split; [ | split; [ | reflexivity ] ].
  - intros Hz. unfold RedirectRule.
    destruct (rr_zone props) as [s | z]; cbn [DeletePhase.zone_known] in Hz.
    + destruct Hz as [Hdot Hne]. rewrite Hdot. cbn [bind].
      rewrite (truthy_nonempty _ Hne). cbn [negb].
      rewrite (not_delete _ Hphase), Hu, He. reflexivity.
    + cbn [bind]. rewrite (truthy_nonempty _ Hz). cbn [negb].
      rewrite (not_delete _ Hphase), Hu, He. reflexivity.
  - intros domain Hzone Hdot lookup. subst lookup. unfold RedirectRule.
    rewrite Hzone, Hdot. unfold await. cbn [bind run zone_text].
    split; [ | split ].
    + intros z Ho Hne. rewrite Ho. cbn [bind run option_map].
      rewrite (truthy_nonempty _ Hne). cbn [negb].
      rewrite (not_delete _ Hphase), Hu, He. reflexivity.
    + intros e Ho. rewrite Ho. reflexivity.
    + intros [Ho | [z [Ho Hempty]]]; rewrite Ho; cbn [bind run option_map].
      * reflexivity.
      * rewrite Hempty. reflexivity.
Qed.

(** C5 (as amended).  In the create and update phases, once the Stripe
    client is constructed, Rate throws "Cannot specify both unitAmount
    and tiers. Use one or the other." for props with both and "Either
    unitAmount or tiers is required" for props with neither, without any
    request.  In the create and update phases RedirectRule, given both
    a request URL and an expression, throws its validation error once
    the zone is resolved to an id that is not empty: with no request
    when the zone is given by id or resource, and with the zone lookup
    as the only request when the zone is given by domain name and the
    lookup finds it.  When the lookup rejects, its error is thrown, and
    when it finds no zone, "Zone ... not found" is thrown, each time
    with the lookup as the only request. *)
Theorem validation_fails_early : Rate_validation /\ RedirectRule_validation.
Proof. split; [ exact Rate_validates | exact RedirectRule_validates ]. Qed.

Definition both_rate_props : Stripe.RateProps :=
  Stripe.mkRateProps (inl "rc_1") (inl "mi_1") (Some (JsNumber.Int 10))
    (Some [Stripe.mkTier (Stripe.UpToNumber 100) (Some (JsNumber.Int 5)) None])
    None None None.

Lemma validation_fails_early_witness :
  run true (Samples.rejecting Samples.stripe_conflict)
      (Stripe.Rate (Some "sk_test") (Adoption.creating Samples.root) "rate"
         both_rate_props) []
  = (Threw Stripe.both_error, []).
Proof.
  pose proof (proj1 validation_fails_early true
                (Samples.rejecting Samples.stripe_conflict) (Some "sk_test")
                (Adoption.creating Samples.root) "rate" both_rate_props []
                (Stripe.mkClient "sk_test")) as H.
  assert (Hphase : phase (Adoption.creating (Out := Stripe.RateOutput)
                            Samples.root) <> Delete) by discriminate.
  destruct (H Hphase eq_refl) as [Hboth _].
  exact (Hboth eq_refl eq_refl).
Defined.

(** The statement that RedirectRule, given both a request URL and an
    expression, fails before any request. *)
Definition redirect_validation_precedes_requests : Prop :=
  forall createPhysicalName convertWildcardUrlToExpression
         returns (o : Oracle CloudflareE) api this id props hist,
    Js.truthy (rr_requestUrl props) = true ->
    Js.truthy (rr_expression props) = true ->
    exists e,
      run returns o
          (RedirectRule createPhysicalName
             convertWildcardUrlToExpression api this id props) hist
      = (Threw e, []).

Definition both_redirect_props : RedirectRuleProps :=
  mkRedirectProps None (inl "example.com")
    (Some "https://*.example.com/files/*")
    (Some "http.request.uri.path matches x")
    "https://example.com/" None None.

(** C5 (as stated) fails for RedirectRule with a zone given by domain
    name: the zone is looked up before the props are validated. *)
Lemma zone_lookup_precedes_validation :
  run true Samples.with_zone
      (RedirectRule Samples.createPhysicalName
         Samples.convertWildcardUrlToExpression Samples.api
         (Adoption.creating Samples.root) "redirect" both_redirect_props) []
  = (Threw validation_error, [Requested (GetZoneByDomain "example.com")])
  /\ ~ redirect_validation_precedes_requests.
Proof.
  split; [ reflexivity | ].
  intros H.
  destruct (H Samples.createPhysicalName
              Samples.convertWildcardUrlToExpression true Samples.with_zone
              Samples.api (Adoption.creating Samples.root) "redirect"
              both_redirect_props [] eq_refl eq_refl) as [e He].
  vm_compute in He. discriminate He.
Qed.

End Validation.

(* ================================================================== *)
(** ** C6: the effective adopt setting *)
(* ================================================================== *)

Module AdoptSetting.

Import Cloudflare.

(** TunnelRoute, WarpDeviceProfile and RateCard act on
    [props.adopt ?? this.scope.adopt]: the prop when it is defined, the
    scope's flag otherwise. *)
Lemma effective_adopt_inherits (s : Scope) :
  (forall b, effective_adopt (Some b) s = b)
  /\ effective_adopt None s = scope_adopt s.
Proof. split; reflexivity. Qed.

Definition unnamed_project : Neon.NeonProjectProps :=
  Neon.mkProps None None (Some "db") None None None None None None.

Definition formatRole (j : Js.Json) : Js.Json := j.
Definition formatConnectionUri (j : Js.Json) : Js.Json := j.
Definition connection_of_uri (d : Neon.Database) (uri : string)
  : Js.Error + Js.Json := inr (Js.JStr uri).

(** The adopt setting in effect is [b]: the prop when it is defined,
    the flag of the scope otherwise. *)
Definition in_effect (props_adopt : option bool) (s : Scope) (b : bool)
  : Prop :=
  props_adopt = Some b \/ (props_adopt = None /\ scope_adopt s = b).

(** What a handler does after a conflict on create, by the adopt
    setting: with [true] it goes on to the request [lookup], with
    [false] it stops at the failed create. *)
Definition acts_on {E : Type -> Type} {A X : Type} (b : bool)
           (res : Outcome A * list (Entry E)) (error : Js.Error)
           (t1 : list (Entry E)) (lookup : E X) : Prop :=
  if b
  then exists out rest, res = (out, (t1 ++ Requested lookup :: rest)%list)
  else res = (Threw error, t1).

(** C6 (as amended).  TunnelRoute and RateCard act on the per-call
    [props.adopt] when it is defined and on the adopt flag of the
    enclosing scope otherwise: after a conflict on create they look
    the existing object up when that setting is true (RateCard: a
    lookup key being given) and rethrow the error when it is false.
    NeonProject looks an existing project up exactly when the per-call
    [props.adopt] is true, and creates the project otherwise, whatever
    the adopt flag of the scope is. *)
Theorem adopt_setting_in_effect :
  (forall handleApiError returns (o : Oracle CloudflareE) fuel api this id props
          hist error t1 b,
      phase this = Create ->
      run returns o
          (createRoute handleApiError api (network props)
             (Adoption.tunnel_id_of props) (comment props)
             (virtualNetworkId props)) hist
      = (Threw error, t1) ->
      route_already_exists error = true ->
      in_effect (adopt props) (scope this) b ->
      acts_on b
        (run returns o (TunnelRoute handleApiError (S fuel) api this id props)
           hist)
        error t1 (ListRoutes.page_request api 1))
  /\ (forall returns (o : Oracle Stripe.StripeE) env this id props hist client
             error b,
         phase this = Create ->
         Stripe.createStripeV2Client
           (option_map inr (Stripe.rcp_apiKey props)) env
         = inr client ->
         o _ hist (Adoption.card_create props) = inl error ->
         Stripe.isStripeV2ConflictError error = true ->
         Js.truthy (Stripe.lookupKey props) = true ->
         in_effect (Stripe.adopt props) (scope this) b ->
         acts_on b (run returns o (Stripe.RateCard env this id props) hist)
           error [Requested (Adoption.card_create props)] Adoption.card_list)
  /\ (forall createPhysicalName formatRole formatConnectionUri connection_of_uri
             returns (o : Oracle Neon.NeonE) this id props hist,
         phase this = Create ->
         let res :=
           run returns o
               (Neon.NeonProject createPhysicalName formatRole
                  formatConnectionUri connection_of_uri this id props) hist in
         let name := Neon.project_name_of createPhysicalName this id props in
         (Neon.adopt props = Some true ->
          exists out rest,
            res = (out, Requested (Neon.ListProjects name) :: rest))
         /\ (Neon.adopt props <> Some true ->
             exists out body rest,
               res = (out, Requested (Neon.CreateProject body) :: rest))).
Proof.
  split; [ | split ].
  - intros h returns o fuel api this id props hist error t1 b
           Hphase Hfail Hconflict Heff.
    assert (Hb : effective_adopt (adopt props) (scope this) = b).
    { unfold effective_adopt. destruct Heff as [-> | [-> <-]]; reflexivity. }
    destruct b; cbn [acts_on].
    + rewrite (Adoption.TunnelRoute_create_failed h returns o (S fuel) api this
                 id props hist Hphase error t1 Hfail).
      unfold or_catch. rewrite Hb, Hconflict. cbn [andb].
      unfold findRouteByNetworkAndTunnel, listTunnelRoutes.
      rewrite ListRoutes.loop_unfold. unfold await. cbn [bind run].
      match goal with
      | |- context [run returns o ?p ?h] => destruct (run returns o p h) as [out t]
      end.
      destruct out as [a | e | force | ]; cbn [and_then].
      * match goal with
        | |- context [run returns o ?p ?h] =>
            destruct (run returns o p h) as [out' t']
        end.
        eexists. eexists. rewrite <- app_assoc. cbn [app]. reflexivity.
      * eexists. eexists. reflexivity.
      * eexists. eexists. reflexivity.
      * eexists. eexists. reflexivity.
    + apply (Adoption.TunnelRoute_rethrows h returns o (S fuel) api this id props
               hist Hphase error t1 Hfail).
      rewrite Hb. reflexivity.
  - intros returns o env this id props hist client error b
           Hphase Hclient Hfail Hconflict Hkey Heff.
    assert (Hb : Js.nullish (Stripe.adopt props) (scope_adopt (scope this)) = b).
    { destruct Heff as [-> | [-> <-]]; reflexivity. }
    destruct b; cbn [acts_on].
    + unfold Stripe.RateCard. rewrite Hclient, Hphase.
      unfold Stripe.rateCards_create, Stripe.rateCards_list, await,
        Adoption.card_create, Adoption.card_list in *.
      cbn [phase_eqb andb bind try_catch run]. answered Hfail.
      rewrite Hconflict, Hb, Hkey. cbn [andb bind try_catch run].
      match goal with
      | |- context [run returns o ?p ?h] => destruct (run returns o p h) as [out t]
      end.
      eexists. eexists. reflexivity.
    + apply (Adoption.RateCard_rethrows returns o env this id props hist Hphase
               client Hclient error Hfail).
      unfold Adoption.card_adoptable, effective_adopt.
      rewrite Hb, andb_false_r. reflexivity.
  - intros cpn fr fc cu returns o this id props hist Hphase res name.
    subst res name. unfold Neon.NeonProject. rewrite Hphase.
    unfold Neon.acts_on_adopt. split.
    + intros Hadopt. rewrite Hadopt.
      unfold Neon.fetchProject, await. cbn [bind try_catch run].
      match goal with
      | |- context [run returns o ?p ?h] => destruct (run returns o p h) as [out t]
      end.
      eexists. eexists. reflexivity.
    + intros Hadopt.
      assert (Hno : match Neon.adopt props with Some b => b | None => false end
                    = false).
      { destruct (Neon.adopt props) as [[ | ] | ]; try reflexivity.
        exfalso. apply Hadopt. reflexivity. }
      rewrite Hno. unfold await. cbn [bind run].
      match goal with
      | |- context [run returns o ?p ?h] => destruct (run returns o p h) as [out t]
      end.
      eexists. eexists. eexists. reflexivity.
Qed.

Definition inheriting_route_props : TunnelRouteProps :=
  mkRouteProps "10.1.0.0/16" (inl "t1") None None None None None.

Lemma adopt_setting_in_effect_witness :
  exists out rest,
    run true Samples.with_existing_route
        (TunnelRoute Samples.handleApiError 1 Samples.api
           (Adoption.creating Samples.adopting) "route" inheriting_route_props)
        []
    = (out,
       ([Adoption.route_create Samples.api inheriting_route_props]
          ++ Requested (ListRoutes.page_request Samples.api 1) :: rest)%list).
Proof.
  apply (proj1 adopt_setting_in_effect Samples.handleApiError true
           Samples.with_existing_route 0%nat Samples.api
           (Adoption.creating Samples.adopting) "route" inheriting_route_props
           [] (Samples.handleApiError Samples.conflict "create" "route"
                 "10.1.0.0/16 -> t1")
           [Adoption.route_create Samples.api inheriting_route_props] true).
  - reflexivity.
  - reflexivity.
  - reflexivity.
  - right. split; reflexivity.
Defined.

(** A provider that cannot be reached: every request is rejected. *)
Definition unreachable : Oracle Neon.NeonE :=
  fun X _ ev =>
    match ev in Neon.NeonE X return X with
    | Neon.FirstRejected _ => 0%nat
    | _ => inl (Js.new_Error "fetch failed")
    end.

(** The statement that NeonProject, too, looks an existing project up
    whenever the adopt setting [props.adopt ?? this.scope.adopt] is
    true. *)
Definition scope_adopt_reaches_NeonProject : Prop :=
  forall createPhysicalName formatRole formatConnectionUri connection_of_uri
         returns (o : Oracle Neon.NeonE) this id props hist,
    phase this = Create ->
    effective_adopt (Neon.adopt props) (scope this) = true ->
    existsb (fun e =>
               match e with
               | @Requested _ _ (Neon.ListProjects _) => true
               | _ => false
               end)
            (snd (run returns o
                    (Neon.NeonProject createPhysicalName formatRole
                       formatConnectionUri connection_of_uri this id props)
                    hist))
    = true.

(** C6 (as stated) fails for NeonProject: in the create phase, with no
    [adopt] prop, in a scope whose adopt flag is set, the setting the
    claim describes is true, the one the handler acts on is false, and
    the handler's first request creates the project instead of looking
    an existing one up. *)
Theorem NeonProject_ignores_scope_adopt :
  let this : Context Neon.NeonProjectOutput :=
    Adoption.creating Samples.adopting in
  effective_adopt (Neon.adopt unnamed_project) (scope this) = true
  /\ Neon.acts_on_adopt unnamed_project this = false
  /\ (forall returns (o : Oracle Neon.NeonE) hist,
         exists out rest,
           run returns o
               (Neon.NeonProject Samples.createPhysicalName formatRole
                  formatConnectionUri connection_of_uri this "db"
                  unnamed_project) hist
           = (out,
              Requested
                (Neon.CreateProject (Neon.create_body "db" unnamed_project))
                :: rest))
  /\ ~ scope_adopt_reaches_NeonProject.
Proof.
  cbv zeta. split; [ reflexivity | split; [ reflexivity | split ] ].
  - intros returns o hist.
    unfold Neon.NeonProject. cbn [phase Adoption.creating Neon.acts_on_adopt
                                    Neon.adopt unnamed_project bind].
    unfold await. cbn [bind run].
    match goal with
    | |- context [run returns o ?p ?h] => destruct (run returns o p h) as [out t]
    end.
    exists out, t. reflexivity.
  - intros H.
    specialize (H Samples.createPhysicalName formatRole formatConnectionUri
                  connection_of_uri true unreachable
                  (Adoption.creating Samples.adopting) "db" unnamed_project []
                  eq_refl eq_refl).
    vm_compute in H. discriminate H.
Qed.

End AdoptSetting.

(* ================================================================== *)
(** ** C7: retries of the Stripe v2 request helper *)
(* ================================================================== *)

Module Retry.

Import Stripe.

(** The observations of a request that took [k] retries: each attempt
    is one raw request, and before each retry comes a pause that starts
    at [delay] and doubles. *)
Fixpoint retry_trace (req : Entry RawE) (k : nat) (delay : Z)
  : list (Entry RawE) :=
  match k with
  | O => [req]
  | S k' => req :: Requested (Sleep delay) :: retry_trace req k' (delay * 2)
  end.

Lemma retry_trace_requests req k delay :
  is_raw_request req = true ->
  List.length (filter is_raw_request (retry_trace req k delay)) = S k.
Proof.
  intros Hreq. revert delay.
  induction k as [ | k IH]; intros delay; simpl; rewrite Hreq; simpl.
  - reflexivity.
  - rewrite IH. reflexivity.
Qed.

Lemma retry_trace_sleeps req k :
  is_raw_request req = true ->
  forall delay,
    sleeps (retry_trace req k delay)
    = map (fun i => delay * 2 ^ Z.of_nat i) (seq 0 k).
Proof.
  intros Hreq. induction k as [ | k IH]; intros delay.
  - simpl. destruct req as [X ev | force]; [ | discriminate Hreq ].
    destruct ev; [ reflexivity | discriminate Hreq ].
  - cbn [retry_trace].
    destruct req as [X ev | force]; [ | discriminate Hreq ].
    destruct ev as [m path body | ms]; [ | discriminate Hreq ].
    cbn [sleeps]. rewrite IH. cbn [seq map].
    rewrite <- seq_shift, map_map. f_equal; [ simpl; lia | ].
    apply map_ext. intros i.
    rewrite Nat2Z.inj_succ, Z.pow_succ_r by lia. lia.
Qed.

Section Backoff.

Variable returns : bool.
Variable o : Oracle RawE.
Variable A : Type.
Variable operation : Prog RawE A.
Variable isRetryable : Js.Error -> bool.
Variable req : Entry RawE.

(** Every attempt is observed as the one request [req]. *)
Hypothesis one_request :
  forall hist, snd (run returns o operation hist) = [req].

(** A failure that is not retryable is propagated at once. *)
Lemma backoff_propagates attempts delay hist e t :
  run returns o operation hist = (Threw e, t) ->
  isRetryable e = false ->
  run returns o (withExponentialBackoff operation isRetryable attempts delay)
      hist
  = (Threw e, t).
Proof.
  intros Hrun Hno.
  destruct attempts as [ | [ | attempts]]; try exact Hrun.
  cbn [withExponentialBackoff]. rewrite run_try_catch, Hrun.
  cbn [or_catch]. rewrite Hno. cbn [run]. rewrite app_nil_r. reflexivity.
Qed.

(** A success ends the request. *)
Lemma backoff_returns attempts delay hist a t :
  run returns o operation hist = (Returned a, t) ->
  run returns o (withExponentialBackoff operation isRetryable attempts delay)
      hist
  = (Returned a, t).
Proof.
  intros Hrun.
  destruct attempts as [ | [ | attempts]]; try exact Hrun.
  cbn [withExponentialBackoff]. rewrite run_try_catch, Hrun. reflexivity.
Qed.

(** A retryable failure with attempts left is followed by a pause and
    the remaining attempts. *)
Lemma backoff_retries attempts delay hist e t :
  run returns o operation hist = (Threw e, t) ->
  isRetryable e = true ->
  run returns o
      (withExponentialBackoff operation isRetryable (S (S attempts)) delay) hist
  = (let (out, t') :=
       run returns o
           (withExponentialBackoff operation isRetryable (S attempts)
              (delay * 2))
           (hist ++ t ++ [Requested (Sleep delay)])%list in
     (out, (t ++ Requested (Sleep delay) :: t')%list)).
Proof.
  intros Hrun Hyes.
  change (withExponentialBackoff operation isRetryable (S (S attempts)) delay)
    with (try_catch operation
            (fun error =>
               if isRetryable error
               then Vis (Sleep delay) (fun _ =>
                      withExponentialBackoff operation isRetryable
                        (S attempts) (delay * 2))
               else Throw error)).
  rewrite run_try_catch, Hrun. cbn [or_catch]. rewrite Hyes. cbn [run].
  rewrite <- app_assoc.
  destruct (run returns o (withExponentialBackoff _ _ _ _) _). reflexivity.
Qed.

(** The observations of a request with [attempts] attempts allowed:
    fewer retries than attempts. *)
Lemma backoff_trace :
  forall attempts delay hist,
  exists k,
    (k < Nat.max attempts 1)%nat
    /\ snd (run returns o
              (withExponentialBackoff operation isRetryable attempts delay)
              hist)
       = retry_trace req k delay.
Proof.
  induction attempts as [ | attempts IH]; intros delay hist.
  - exists O. split; [ simpl; lia | apply one_request ].
  - destruct attempts as [ | attempts].
    + exists O. split; [ simpl; lia | apply one_request ].
    + pose proof (one_request hist) as Ht.
      destruct (run returns o operation hist) as [[a | e | force | ] t] eqn:Hrun;
        cbn [snd] in Ht; subst t.
      * exists O. split; [ simpl; lia | ].
        rewrite (backoff_returns _ _ _ _ _ Hrun). reflexivity.
      * destruct (isRetryable e) eqn:He.
        -- rewrite (backoff_retries _ _ _ _ _ Hrun He).
           destruct (IH (delay * 2)
                       (hist ++ [req] ++ [Requested (Sleep delay)])%list)
             as [k [Hk Htrace]].
           exists (S k). split; [ simpl in Hk |- *; lia | ].
           destruct (run returns o (withExponentialBackoff _ _ _ _) _)
             as [out t']. cbn [snd] in *.
           rewrite Htrace. reflexivity.
        -- exists O. split; [ simpl; lia | ].
           rewrite (backoff_propagates _ _ _ _ _ Hrun He). reflexivity.
      * exists O. split; [ simpl; lia | ].
        cbn [withExponentialBackoff]. rewrite run_try_catch, Hrun.
        reflexivity.
      * exists O. split; [ simpl; lia | ].
        cbn [withExponentialBackoff]. rewrite run_try_catch, Hrun.
        reflexivity.
Qed.

End Backoff.

(** An attempt of [request] is observed as one raw request. *)
Lemma attempt_is_one_request JSON_stringify JSON_parse returns (o : Oracle RawE)
      m path body hist :
  snd (run returns o (request_attempt JSON_stringify JSON_parse m path body) hist)
  = [Requested (RawRequest m path (option_map JSON_stringify body))].
Proof.
  unfold request_attempt, await. cbn [bind run].
  destruct (o _ hist _) as [e | response]; cbn [bind run]; [ reflexivity | ].
  destruct (match content_type response with
            | Some _ => _
            | None => _
            end); [ | reflexivity ].
  destruct (JSON_parse (raw_text response)); reflexivity.
Qed.

(** The errors [isStripeV2RetryableError] accepts. *)
Lemma retryable_iff (e : Js.Error) :
  isStripeV2RetryableError e = true
  <-> (Js.err_status e = Some 429
       \/ Js.err_statusCode e = Some 429
       \/ Js.err_code e = Some "rate_limit"
       \/ Js.err_type e = Some "rate_limit_error").
Proof.
  unfold isStripeV2RetryableError, Js.is_number, Js.is_string.
  rewrite !orb_true_iff.
  destruct (Js.err_status e) as [s | ], (Js.err_statusCode e) as [c | ],
    (Js.err_code e) as [k | ], (Js.err_type e) as [t | ];
    rewrite ?Z.eqb_eq, ?String.eqb_eq;
    intuition (try congruence; try discriminate).
Qed.

(** C7.  A request of the Stripe v2 client makes at most 5 attempts,
    each one raw request, with pauses of 1000 ms, 2000 ms, 4000 ms and
    8000 ms before the retries; at whichever attempt, a failure that is
    not a rate-limit error is propagated with no further attempt, and a
    rate-limit error with attempts left is followed by the pause and
    the remaining attempts; the rate-limit errors are those with status
    or statusCode 429, code "rate_limit" or type "rate_limit_error". *)
Theorem request_retries_rate_limits :
  forall JSON_stringify JSON_parse returns (o : Oracle RawE) m path body,
    let call := request JSON_stringify JSON_parse m path body in
    let attempt := request_attempt JSON_stringify JSON_parse m path body in
    let raw := Requested (RawRequest m path (option_map JSON_stringify body)) in
    let remaining attempts delay :=
      withExponentialBackoff attempt isStripeV2RetryableError attempts delay in
    call = remaining 5%nat 1000
    /\ (forall hist,
          exists k,
            (k < 5)%nat
            /\ snd (run returns o call hist) = retry_trace raw k 1000
            /\ List.length
                 (filter is_raw_request (snd (run returns o call hist)))
               = S k
            /\ sleeps (snd (run returns o call hist))
               = firstn k [1000; 2000; 4000; 8000])
    /\ (forall attempts delay hist e t,
           run returns o attempt hist = (Threw e, t) ->
           isStripeV2RetryableError e = false ->
           run returns o (remaining attempts delay) hist = (Threw e, t))
    /\ (forall attempts delay hist e t,
           run returns o attempt hist = (Threw e, t) ->
           isStripeV2RetryableError e = true ->
           run returns o (remaining (S (S attempts)) delay) hist
           = (let (out, t') :=
                run returns o (remaining (S attempts) (delay * 2))
                    (hist ++ t ++ [Requested (Sleep delay)])%list in
              (out, (t ++ Requested (Sleep delay) :: t')%list)))
    /\ (forall e,
           isStripeV2RetryableError e = true
           <-> (Js.err_status e = Some 429
                \/ Js.err_statusCode e = Some 429
                \/ Js.err_code e = Some "rate_limit"
                \/ Js.err_type e = Some "rate_limit_error")).
Proof.
  intros js jp returns o m path body call attempt raw remaining.
  subst call attempt raw remaining. cbv beta.
  split; [ reflexivity | split; [ | split; [ | split ] ] ].
  - intros hist.
    destruct (backoff_trace returns o _
                (request_attempt js jp m path body) isStripeV2RetryableError
                (Requested (RawRequest m path (option_map js body)))
                (fun h => attempt_is_one_request js jp returns o m path body h)
                5%nat 1000 hist) as [k [Hk Ht]].
    exists k. unfold request. rewrite Ht.
    split; [ simpl in Hk; lia | ].
    split; [ reflexivity | ].
    split; [ apply retry_trace_requests; reflexivity | ].
    rewrite retry_trace_sleeps by reflexivity.
    simpl in Hk.
    destruct k as [ | [ | [ | [ | [ | k]]]]]; try lia; reflexivity.
  - intros attempts delay hist e t Hrun Hno.
    apply backoff_propagates; assumption.
  - intros attempts delay hist e t Hrun Hyes.
    apply (backoff_retries returns o _ _ _ attempts delay hist e t Hrun Hyes).
  - apply retryable_iff.
Qed.

Definition JSON_stringify (j : Js.Json) : string := "{}".
Definition JSON_parse (s : string) : Js.Error + Js.Json := inr (Js.JObj []).

Definition server_error : Js.Error :=
  Js.mkError Js.ErrorC "internal error" (Some 500) None None None.

(** An SDK whose every raw request is rejected with a server error. *)
Definition failing : Oracle RawE :=
  fun X hist ev =>
    match ev in RawE X return X with
    | RawRequest _ _ _ => inl server_error
    | Sleep _ => tt
    end.

Lemma request_retries_rate_limits_witness :
  run true failing
      (request JSON_stringify JSON_parse GET "/v2/billing/rate_cards" None) []
  = (Threw server_error,
     [Requested (RawRequest GET "/v2/billing/rate_cards" None)]).
Proof.
  destruct (request_retries_rate_limits JSON_stringify JSON_parse
              true failing GET "/v2/billing/rate_cards" None)
    as [Hcall [_ [Hstop _]]].
  rewrite Hcall. apply Hstop; reflexivity.
Defined.

End Retry.

(* ================================================================== *)
(** ** C8: the physical name of a resource without a name prop *)
(* ================================================================== *)

Module PhysicalName.

Import Cloudflare.

(** The name of the previous output when there is one, the name derived
    from the scope and the logical id otherwise. *)
Definition stable_name {Out : Type} (name_of : Out -> string)
           (createPhysicalName : Scope -> string -> string)
           (this : Context Out) (id : string) : string :=
  match output this with
  | Some previous => name_of previous
  | None => createPhysicalName (scope this) id
  end.

(** C8.  Without a [name] prop, the name WarpDeviceProfile and
    NeonProject work with is the name of the previous output when there
    is one and [createPhysicalName] of the scope and logical id
    otherwise.  It is the name in the body of the request that creates
    the profile (after the clock is read) and of the request that
    updates it, which addresses the previous policy without a
    replacement, and the name of the output; it is the name in the body
    of the request that creates the project, the name an adopting
    create looks up, and the name in the body of the request that
    updates the previous project. *)
Theorem unnamed_resources_keep_their_name :
  forall createPhysicalName,
    (forall handleApiError returns (o : Oracle CloudflareE) api this id
            props hist,
        wp_name props = None ->
        let name := stable_name wo_name createPhysicalName this id in
        let res :=
          run returns o
              (WarpDeviceProfile handleApiError createPhysicalName api this
                 id props) hist in
        (phase this = Create ->
         output this = None ->
         exists out body rest,
           res = (out,
                  Adoption.clock
                    :: Requested (Fetch KPolicy POST (policy_path api)
                                    (Some body))
                    :: rest)
           /\ Js.get "name" body = Some (Js.JStr name))
        /\ (forall previous,
               phase this = Update ->
               output this = Some previous ->
               wo_policyId previous <> "" ->
               existsb is_replace (snd res) = false
               /\ (exists out body rest,
                      res = (out,
                             Requested
                               (Fetch KNoBody PATCH
                                  (policy_path api ++ "/" ++ wo_policyId previous)
                                  (Some body))
                               :: rest)
                      /\ Js.get "name" body = Some (Js.JStr name))
               /\ (forall r,
                      fst res = Returned (Output r) ->
                      wo_name r = name
                      /\ wo_policyId r = wo_policyId previous)))
    /\ (forall formatRole formatConnectionUri connection_of_uri returns
               (o : Oracle Neon.NeonE) this id props hist,
           Neon.name props = None ->
           let name := stable_name Neon.out_name createPhysicalName this id in
           let res :=
             run returns o
                 (Neon.NeonProject createPhysicalName formatRole
                    formatConnectionUri connection_of_uri this id props) hist in
           (phase this = Create ->
            Neon.adopt props <> Some true ->
            exists out body project rest,
              res = (out, Requested (Neon.CreateProject body) :: rest)
              /\ Js.get "project" body = Some project
              /\ Js.get "name" project = Some (Js.JStr name))
           /\ (phase this = Create ->
               Neon.adopt props = Some true ->
               exists out rest,
                 res = (out, Requested (Neon.ListProjects name) :: rest))
           /\ (forall previous,
                  phase this = Update ->
                  output this = Some previous ->
                  exists out body project,
                    res = (out,
                           [Requested
                              (Neon.UpdateProject (Neon.out_id previous) body)])
                    /\ Js.get "project" body = Some project
                    /\ Js.get "name" project = Some (Js.JStr name))).
Proof.
  intros cpn. split.
  - intros h returns o api this id props hist Hname name res.
    assert (Hn : profile_name cpn this id props = name).
    { subst name. unfold profile_name, stable_name. rewrite Hname.
      destruct (output this); reflexivity. }
    split.
    + intros Hphase Hout. subst res.
      unfold WarpDeviceProfile. rewrite Hn, Hphase, Hout.
      cbn [phase_eqb andb option_map bind this_replace].
      unfold createPolicy, api_post, await, Adoption.clock.
      cbn [bind try_catch run].
      match goal with
      | |- context [run returns o ?p ?h] => destruct (run returns o p h) as [out t]
      end.
      eexists. eexists. eexists. split; [ reflexivity | ].
      unfold buildRequestBody. cbn [app]. apply get_cons_hit.
    + intros previous Hphase Hout Hne.
      assert (Hsame : name = wo_name previous).
      { subst name. unfold stable_name. rewrite Hout. reflexivity. }
      assert (Hc : UpdatePhase.profile_changed cpn this id props = false).
      { unfold UpdatePhase.profile_changed. rewrite Hn, Hout, Hsame.
        cbn [option_map Js.is_string]. rewrite String.eqb_refl. reflexivity. }
      split; [ | split ].
      * subst res.
        rewrite (UpdatePhase.WarpDeviceProfile_replace_iff_changed h cpn returns
                   o api this id props hist previous Hphase Hout).
        exact Hc.
      * subst res. unfold WarpDeviceProfile. rewrite Hn, Hphase.
        cbn [phase_eqb andb]. unfold UpdatePhase.profile_changed in Hc.
        rewrite Hn in Hc. rewrite Hc, Hout. cbn [option_map bind].
        rewrite (truthy_nonempty _ Hne). cbn [Js.nullish].
        unfold updatePolicy, api_patch, await. cbn [bind run].
        match goal with
        | |- context [run returns o ?p ?h] =>
            destruct (run returns o p h) as [out t]
        end.
        eexists. eexists. eexists. split; [ reflexivity | ].
        unfold buildRequestBody. cbn [app]. apply get_cons_hit.
      * intros r. subst res. unfold WarpDeviceProfile. rewrite Hn, Hphase.
        cbn [phase_eqb andb]. unfold UpdatePhase.profile_changed in Hc.
        rewrite Hn in Hc. rewrite Hc, Hout. cbn [option_map bind].
        rewrite (truthy_nonempty _ Hne). cbn [Js.nullish].
        unfold updatePolicy, api_patch, await. cbn [bind run].
        destruct (o _ hist _) as [e | resp]; cbn [bind run fst];
          [ discriminate | ].
        destruct (negb (ok (head resp))); cbn [bind run fst];
          [ discriminate | ].
        rewrite run_bind.
        match goal with
        | |- context [and_then o returns ?x _ _] =>
            destruct x as [[[] | e | force | ] t]
        end; cbn [and_then bind run fst]; try discriminate.
        intros H. injection H as <-. split; reflexivity.
  - intros fr fc cu returns o this id props hist Hname name res.
    assert (Hn : Neon.project_name_of cpn this id props = name).
    { subst name. unfold Neon.project_name_of, stable_name. rewrite Hname.
      destruct (output this); reflexivity. }
    subst res. unfold Neon.NeonProject. rewrite Hn.
    split; [ | split ].
    + intros Hphase Hadopt. rewrite Hphase. unfold Neon.acts_on_adopt.
      assert (Hno : match Neon.adopt props with Some b => b | None => false end
                    = false).
      { destruct (Neon.adopt props) as [[ | ] | ]; try reflexivity.
        exfalso. apply Hadopt. reflexivity. }
      rewrite Hno. unfold await. cbn [bind run].
      match goal with
      | |- context [run returns o ?p ?h] => destruct (run returns o p h) as [out t]
      end.
      eexists. eexists. eexists. eexists. split; [ reflexivity | ].
      unfold Neon.create_body. split.
      * apply get_cons_hit.
      * cbn [app]. apply get_cons_hit.
    + intros Hphase Hadopt. rewrite Hphase. unfold Neon.acts_on_adopt.
      rewrite Hadopt.
      unfold Neon.fetchProject, await. cbn [bind try_catch run].
      match goal with
      | |- context [run returns o ?p ?h] => destruct (run returns o p h) as [out t]
      end.
      eexists. eexists. reflexivity.
    + intros previous Hphase Hout. rewrite Hphase, Hout.
      unfold await. cbn [bind run].
      destruct (o _ hist _) as [e | project]; cbn [bind run].
      all: eexists; eexists; eexists; split; [ reflexivity | split ].
      all: unfold Neon.update_body; cbn [app]; apply get_cons_hit.
Qed.

Lemma unnamed_resources_keep_their_name_witness :
  exists out body rest,
    run true (Samples.answering Samples.success)
        (WarpDeviceProfile Samples.handleApiError Samples.createPhysicalName
           Samples.api (Adoption.creating Samples.root) "profile"
           UpdatePhase.unnamed_profile) []
    = (out,
       Adoption.clock
         :: Requested (Fetch KPolicy POST (policy_path Samples.api) (Some body))
         :: rest)
    /\ Js.get "name" body = Some (Js.JStr "app-dev-profile").
Proof.
  apply (proj1 (proj1 (unnamed_resources_keep_their_name
                         Samples.createPhysicalName)
                  Samples.handleApiError true
                  (Samples.answering Samples.success) Samples.api
                  (Adoption.creating Samples.root) "profile"
                  UpdatePhase.unnamed_profile [] ltac:(reflexivity))).
  - reflexivity.
  - reflexivity.
Defined.

End PhysicalName.

(* ================================================================== *)
(** ** Programs whose requests all pass a test *)
(* ================================================================== *)

Section Discipline.

Variable E : Type -> Type.

(** The test on requests. *)
Variable allowed : forall X : Type, E X -> bool.

Definition entry_allowed (e : Entry E) : bool :=
  match e with
  | Requested ev => allowed _ ev
  | ReplaceCalled _ => true
  end.

(** Every request on every path of the program passes the test. *)
Inductive issues_only {A : Type} : Prog E A -> Prop :=
| io_ret a : issues_only (Ret a)
| io_throw e : issues_only (Throw e)
| io_vis X (ev : E X) k :
    allowed X ev = true -> (forall x, issues_only (k x)) ->
    issues_only (Vis ev k)
| io_replace force k : issues_only k -> issues_only (Replace force k)
| io_diverge : issues_only Diverge.

Lemma issues_only_bind {A B : Type} (p : Prog E A) (f : A -> Prog E B) :
  issues_only p -> (forall a, issues_only (f a)) -> issues_only (bind p f).
Proof.
  intros Hp Hf. induction Hp; simpl; try constructor; auto.
Qed.

Lemma issues_only_try_catch {A : Type} (p : Prog E A) h :
  issues_only p -> (forall e, issues_only (h e)) ->
  issues_only (try_catch p h).
Proof.
  intros Hp Hh. induction Hp; simpl; try constructor; auto.
Qed.

Lemma issues_only_await {X : Type} (ev : E (Js.Error + X)) :
  allowed _ ev = true -> issues_only (await ev).
Proof. intros H. constructor; [ exact H | ]. intros [e | x]; constructor. Qed.

Lemma issues_only_run {A : Type} (p : Prog E A) :
  issues_only p ->
  forall returns (o : Oracle E) hist,
    forallb entry_allowed (snd (run returns o p hist)) = true.
Proof.
  intros Hp returns o.
  induction Hp as [a | e | X ev k Hev _ IH | force k _ IH | ]; intros hist;
    simpl; try reflexivity.
  - specialize (IH (o X hist ev) (hist ++ [Requested ev])%list).
    destruct (run returns o (k (o X hist ev)) (hist ++ [Requested ev])%list).
    simpl in *. rewrite Hev. exact IH.
  - destruct returns; [ | reflexivity ].
    specialize (IH (hist ++ [ReplaceCalled force])%list).
    destruct (run true o k (hist ++ [ReplaceCalled force])%list).
    exact IH.
Qed.

End Discipline.

Arguments entry_allowed {E} allowed e.
Arguments issues_only {E} allowed {A} p.

(** Discharges [issues_only] goals by following the program text. *)
Ltac only_allowed :=
  repeat first
    [ apply io_ret | apply io_throw | apply io_diverge
    | apply issues_only_await; reflexivity
    | apply issues_only_bind
    | apply issues_only_try_catch
    | apply io_replace
    | apply io_vis; [ reflexivity | ]
    | progress intros
    | progress cbv zeta
    | match goal with
      | |- issues_only _ (if ?b then _ else _) => destruct b
      | |- issues_only _ (match ?x with _ => _ end) => destruct x
      | |- issues_only _ (let (_, _) := ?x in _) => destruct x
      end ].

(* ================================================================== *)
(** ** RedirectRule: the zone *)
(* ================================================================== *)

Module Zones.

Import Cloudflare.

(** The lookup that a zone given by domain name costs: a string with a
    dot is taken for a domain name and looked up. *)
Definition zone_lookup (zone : string + Zone) : list (Entry CloudflareE) :=
  match zone with
  | inl domain =>
      if Js.includes domain "." then [Requested (GetZoneByDomain domain)]
      else []
  | inr _ => []
  end.

(** The zone id the handler works with: the id of the zone the lookup
    finds for a domain name, the string itself for a string without a
    dot, the id of a zone resource. *)
Definition resolves_to (o : Oracle CloudflareE) (hist : list (Entry CloudflareE))
           (zone : string + Zone) (zoneId : string) : Prop :=
  match zone with
  | inl domain =>
      if Js.includes domain "."
      then exists z,
             o _ hist (GetZoneByDomain domain) = inr (Some z)
             /\ zone_id z = zoneId
      else domain = zoneId
  | inr z => zone_id z = zoneId
  end.

(** The props with the zone given as a resource of that id. *)
Definition at_zone (props : RedirectRuleProps) (zoneId : string)
  : RedirectRuleProps :=
  mkRedirectProps (rr_description props) (inr (mkZone zoneId))
    (rr_requestUrl props) (rr_expression props) (rr_targetUrl props)
    (rr_statusCode props) (rr_preserveQueryString props).

(** A result after the observations [t]. *)
Definition after {A : Type} (t : list (Entry CloudflareE))
           (res : Outcome A * list (Entry CloudflareE))
  : Outcome A * list (Entry CloudflareE) :=
  (fst res, (t ++ snd res)%list).

Section Resolution.

Variable createPhysicalName : Scope -> string -> string.
Variable convertWildcardUrlToExpression : string -> Js.Error + string.
Variable returns : bool.
Variable o : Oracle CloudflareE.
Variable api : CloudflareApi.
Variable this : Context RedirectRuleOutput.
Variable id : string.
Variable props : RedirectRuleProps.
Variable hist : list (Entry CloudflareE).

Local Abbreviation handler p :=
  (RedirectRule createPhysicalName convertWildcardUrlToExpression api this id p).

(** Once the zone is resolved, by a lookup or without one, the handler
    goes on as it does for a zone resource of that id. *)
Lemma RedirectRule_resolved zoneId :
  resolves_to o hist (rr_zone props) zoneId ->
  zoneId <> "" ->
  run returns o (handler props) hist
  = after (zone_lookup (rr_zone props))
      (run returns o (handler (at_zone props zoneId))
         (hist ++ zone_lookup (rr_zone props))%list).
Proof.
  intros Hz Hne. unfold RedirectRule, resolves_to, zone_lookup, after in *.
  cbn [at_zone rr_zone rr_description rr_requestUrl rr_expression rr_targetUrl
       rr_statusCode rr_preserveQueryString zone_id bind].
  rewrite (truthy_nonempty _ Hne). cbn [negb Js.nullish].
  destruct (rr_zone props) as [domain | z].
  - destruct (Js.includes domain ".").
    + destruct Hz as [z [Ho Hid]]. unfold await. cbn [bind run].
      rewrite Ho. cbn [bind run option_map]. rewrite Hid.
      rewrite (truthy_nonempty _ Hne). cbn [negb Js.nullish].
      match goal with
      | |- context [run returns o ?p ?h] => destruct (run returns o p h)
      end.
      reflexivity.
    + subst zoneId. cbn [bind]. rewrite (truthy_nonempty _ Hne).
      cbn [negb Js.nullish app]. rewrite app_nil_r.
      match goal with
      | |- context [run returns o ?p ?h] => destruct (run returns o p h)
      end.
      reflexivity.
  - subst zoneId. cbn [bind]. rewrite (truthy_nonempty _ Hne).
    cbn [negb Js.nullish app]. rewrite app_nil_r.
    match goal with
    | |- context [run returns o ?p ?h] => destruct (run returns o p h)
    end.
    reflexivity.
Qed.

(** The zone is resolved to an id that is not empty, or the handler
    fails with nothing observed but the lookup. *)
Lemma zone_cases :
  (exists e,
      run returns o (handler props) hist = (Threw e, zone_lookup (rr_zone props)))
  \/ (exists zoneId,
         zoneId <> "" /\ resolves_to o hist (rr_zone props) zoneId).
Proof.
  unfold RedirectRule, resolves_to, zone_lookup.
  destruct (rr_zone props) as [domain | z].
  - destruct (Js.includes domain ".").
    + unfold await. cbn [bind run].
      destruct (o _ hist (GetZoneByDomain domain)) as [e | [z | ]];
        cbn [bind run option_map].
      * left. eexists. reflexivity.
      * destruct (String.eqb_spec (zone_id z) "") as [Hempty | Hne].
        -- left. rewrite Hempty. eexists. reflexivity.
        -- right. exists (zone_id z). split; [ exact Hne | ].
           exists z. split; reflexivity.
      * left. eexists. reflexivity.
    + cbn [bind].
      destruct (String.eqb_spec domain "") as [Hempty | Hne].
      * left. rewrite Hempty. eexists. reflexivity.
      * right. exists domain. split; [ exact Hne | reflexivity ].
  - cbn [bind].
    destruct (String.eqb_spec (zone_id z) "") as [Hempty | Hne].
    + left. rewrite Hempty. eexists. reflexivity.
    + right. exists (zone_id z). split; [ exact Hne | reflexivity ].
Qed.

End Resolution.

End Zones.

(* ================================================================== *)
(** ** What the Cloudflare handlers never request *)
(* ================================================================== *)

Module Requests.

Import Cloudflare DeletePhase.

(** Every request but a DELETE. *)
Definition not_a_delete (X : Type) (ev : CloudflareE X) : bool :=
  match ev with
  | Fetch _ DELETE _ _ => false
  | _ => true
  end.

(** A request made through the client, an HTTP request or a zone
    lookup, as opposed to a reading of the clock. *)
Definition is_request (e : Entry CloudflareE) : bool :=
  match e with
  | @Requested _ _ (Fetch _ _ _ _) => true
  | @Requested _ _ (GetZoneByDomain _) => true
  | _ => false
  end.

Section Parts.

Variable handleApiError : ResponseHead -> string -> string -> string -> Js.Error.

Lemma listTunnelRoutes_no_delete fuel api limit :
  forall routes page,
    issues_only not_a_delete
      (listTunnelRoutes_loop handleApiError fuel api limit routes page).
Proof.
  induction fuel as [ | fuel IH]; intros routes page.
  - constructor.
  - rewrite ListRoutes.loop_unfold. only_allowed. apply IH.
Qed.

End Parts.

(** In the create and the update phase the TunnelRoute, the
    WarpDeviceProfile, the RedirectRule and the WarpDefaultProfile
    handler never issue a DELETE request, whatever the provider
    answers: a failure half way leaves what was created in place. *)
Theorem create_and_update_never_delete :
  forall handleApiError createPhysicalName returns (o : Oracle CloudflareE) hist,
    (forall fuel api this id props,
        phase this <> Delete ->
        forallb (entry_allowed not_a_delete)
          (snd (run returns o
                  (TunnelRoute handleApiError fuel api this id props) hist))
        = true)
    /\ (forall api this id props,
          phase this <> Delete ->
          forallb (entry_allowed not_a_delete)
            (snd (run returns o
                    (WarpDeviceProfile handleApiError createPhysicalName
                       api this id props) hist))
          = true)
    /\ (forall convertWildcardUrlToExpression api this id props,
          phase this <> Delete ->
          forallb (entry_allowed not_a_delete)
            (snd (run returns o
                    (RedirectRule createPhysicalName
                       convertWildcardUrlToExpression api this id props) hist))
          = true)
    /\ (forall api this id props,
          phase this <> Delete ->
          forallb (entry_allowed not_a_delete)
            (snd (run returns o
                    (WarpDefault.WarpDefaultProfile handleApiError
                       api this id props) hist))
          = true).
Proof.
  intros h cpn returns o hist. repeat split.
  - intros fuel api this id props Hphase.
    apply issues_only_run.
    unfold TunnelRoute.
    destruct (phase this) eqn:Hp; [ | | congruence ]; cbn [phase_eqb];
      unfold this_replace, updateRoute, createRoute,
        findRouteByNetworkAndTunnel, listTunnelRoutes,
        api_patch, api_post;
      only_allowed; try apply listTunnelRoutes_no_delete; only_allowed.
  - intros api this id props Hphase.
    apply issues_only_run.
    unfold WarpDeviceProfile.
    destruct (phase this) eqn:Hp; [ | | congruence ]; cbn [phase_eqb];
      unfold this_replace, updatePolicy, createPolicy, findPolicyByName,
        updateSplitTunnel, api_patch, api_post, api_get, api_put;
      only_allowed.
  - intros conv api this id props Hphase.
    apply issues_only_run.
    unfold RedirectRule.
    destruct (phase this) eqn:Hp; [ | | congruence ]; cbn [phase_eqb];
      unfold updateRule, createRule, getOrCreateRedirectRuleset,
        getRedirectRuleset, createRedirectRuleset,
        api_patch, api_post, api_get;
      only_allowed.
  - intros api this id props Hphase.
    apply issues_only_run.
    unfold WarpDefault.WarpDefaultProfile.
    destruct (phase this) eqn:Hp; [ | | congruence ]; cbn [phase_eqb];
      unfold WarpDefault.updateDefaultPolicy, api_patch;
      only_allowed.
Qed.

(** The route the TunnelRoute handler addresses:
    [props.routeId || this.output?.id]. *)
Definition addressed_route (this : Context TunnelRouteOutput)
           (props : TunnelRouteProps) : string :=
  Js.nullish (Js.or_else (routeId props) (option_map out_id (output this))) "".

(** The delete phase of RedirectRule for a zone resource: nothing, or
    the DELETE of the recorded rule. *)
Lemma rule_delete_at_zone createPhysicalName convertWildcardUrlToExpression
      returns (o : Oracle CloudflareE) api this id props zoneId hist :
  phase this = Delete ->
  zoneId <> "" ->
  let t := snd (run returns o
                  (RedirectRule createPhysicalName
                     convertWildcardUrlToExpression api this id
                     (Zones.at_zone props zoneId)) hist) in
  t = []
  \/ t = [Requested
            (rule_delete zoneId
               (Js.nullish (option_map ro_rulesetId (output this)) "")
               (Js.nullish (option_map ro_ruleId (output this)) ""))].
Proof.
  intros Hphase Hne t. subst t. unfold RedirectRule.
  cbn [Zones.at_zone rr_zone zone_id bind].
  rewrite (truthy_nonempty _ Hne). cbn [negb Js.nullish].
  rewrite Hphase. cbn [phase_eqb].
  destruct (Js.truthy _ && Js.truthy _); [ | left; reflexivity ].
  right. unfold deleteRule, api_delete, await, rule_delete.
  cbn [bind run].
  destruct (o _ hist _) as [e | resp]; cbn [bind run snd]; [ reflexivity | ].
  destruct (negb (ok (head resp)) && negb (status (head resp) =? 404));
    reflexivity.
Qed.

(** In the delete phase each handler issues at most one DELETE
    request, that of the object its state records: the route
    [props.routeId || this.output.id], the policy
    [this.output.policyId], the rule [this.output.ruleId] of the
    ruleset [this.output.rulesetId] in the zone of the props.  It
    issues no other request, but for the lookup of the zone that
    RedirectRule makes first when its zone is given by domain name.
    The WarpDefaultProfile handler issues no request at all and
    returns the destroyed state, whatever [props.delete] is. *)
Theorem delete_phase_only_deletes :
  forall handleApiError createPhysicalName returns (o : Oracle CloudflareE) hist,
    (forall fuel api this id props,
        phase this = Delete ->
        let t := snd (run returns o
                        (TunnelRoute handleApiError fuel api this id props)
                        hist) in
        t = [] \/ t = [Requested (route_delete api (addressed_route this props))])
    /\ (forall api this id props,
          phase this = Delete ->
          let t := snd (run returns o
                          (WarpDeviceProfile handleApiError createPhysicalName
                             api this id props) hist) in
          t = []
          \/ t = [Requested
                    (policy_delete api
                       (Js.nullish (option_map wo_policyId (output this)) ""))])
    /\ (forall convertWildcardUrlToExpression api this id props,
          phase this = Delete ->
          let t := snd (run returns o
                          (RedirectRule createPhysicalName
                             convertWildcardUrlToExpression api this id props)
                          hist) in
          let lookup := Zones.zone_lookup (rr_zone props) in
          t = lookup
          \/ exists zoneId,
               Zones.resolves_to o hist (rr_zone props) zoneId
               /\ t = (lookup
                         ++ [Requested
                               (rule_delete zoneId
                                  (Js.nullish
                                     (option_map ro_rulesetId (output this)) "")
                                  (Js.nullish
                                     (option_map ro_ruleId (output this)) ""))])%list)
    /\ (forall api this id props,
          phase this = Delete ->
          run returns o
              (WarpDefault.WarpDefaultProfile handleApiError api this id props)
              hist
          = (Returned Destroyed, [])).
Proof.
  intros h cpn returns o hist. repeat split.
  - intros fuel api this id props Hphase t. subst t.
    unfold TunnelRoute, addressed_route. rewrite Hphase. cbn [phase_eqb].
    destruct (Js.truthy _ && negb (Js.is_false (delete props)));
      [ | left; reflexivity ].
    right. unfold deleteRoute, api_delete, await, route_delete.
    cbn [bind run].
    destruct (o _ hist _) as [e | resp]; cbn [bind run snd];
      [ reflexivity | ].
    destruct (negb (ok (head resp)) && negb (status (head resp) =? 404));
      reflexivity.
  - intros api this id props Hphase t. subst t.
    unfold WarpDeviceProfile. rewrite Hphase. cbn [phase_eqb].
    destruct (Js.truthy _ && negb (Js.is_false (wp_delete props)));
      [ | left; reflexivity ].
    right. unfold deletePolicy, api_delete, await, policy_delete.
    cbn [bind run].
    destruct (o _ hist _) as [e | resp]; cbn [bind run snd];
      [ reflexivity | ].
    destruct (negb (ok (head resp)) && negb (status (head resp) =? 404));
      reflexivity.
  - intros conv api this id props Hphase t lookup. subst t lookup.
    destruct (Zones.zone_cases cpn conv returns o api this id props hist)
      as [[e Hrun] | [zoneId [Hne Hz]]].
    + left. rewrite Hrun. reflexivity.
    + rewrite (Zones.RedirectRule_resolved cpn conv returns o api this id props
                 hist zoneId Hz Hne).
      unfold Zones.after. cbn [snd].
      destruct (rule_delete_at_zone cpn conv returns o api this id props zoneId
                  (hist ++ Zones.zone_lookup (rr_zone props))%list Hphase Hne)
        as [Hnone | Hone].
      * left. rewrite Hnone. apply app_nil_r.
      * right. exists zoneId. split; [ exact Hz | ]. rewrite Hone. reflexivity.
  - intros api this id props Hphase.
    unfold WarpDefault.WarpDefaultProfile. rewrite Hphase. reflexivity.
Qed.

Definition fresh (s : Scope) : Context TunnelRouteOutput :=
  mkContext Create None s.

Lemma create_and_update_never_delete_witness :
  forallb (entry_allowed not_a_delete)
    (snd (run true Samples.with_existing_route
            (TunnelRoute Samples.handleApiError 2 Samples.api
               (fresh Samples.adopting) "route" plain_route_props) []))
  = true.
Proof.
  apply (proj1 (create_and_update_never_delete Samples.handleApiError
                  Samples.createPhysicalName true
                  Samples.with_existing_route [])).
  discriminate.
Defined.

Lemma delete_phase_only_deletes_witness :
  let t := snd (run true (Samples.answering Samples.conflict)
                  (TunnelRoute Samples.handleApiError 1 Samples.api
                     (deleting (route_output Samples.r2)) "route"
                     plain_route_props) []) in
  t = [] \/ t = [Requested (route_delete Samples.api "r2")].
Proof.
  apply (proj1 (delete_phase_only_deletes Samples.handleApiError
                  Samples.createPhysicalName true
                  (Samples.answering Samples.conflict) [])
           1%nat Samples.api (deleting (route_output Samples.r2)) "route"
           plain_route_props).
  reflexivity.
Defined.

(** The error RedirectRule raises for a refused delete. *)
Definition delete_refused (r : ResponseHead) : Js.Error :=
  Js.new_Error
    ("Failed to delete redirect rule: " ++ JsNumber.String (status r)
       ++ " " ++ statusText r
       ++ String (ascii_of_nat 10) ("Response: " ++ text r)).

(** A delete request that the provider refuses with a status other
    than 404, or that fails on the way, makes the delete phase fail:
    the handler raises the error ([handleApiError]'s for TunnelRoute
    and WarpDeviceProfile, its own for RedirectRule) and does not
    report the destroyed state.  RedirectRule makes the request once
    its zone is resolved, after the lookup when the zone is given by
    domain name. *)
Theorem refused_delete_is_raised :
  forall handleApiError createPhysicalName returns,
    (forall fuel api (o : Oracle CloudflareE) hist this id props routeId,
        phase this = Delete ->
        delete props <> Some false ->
        Js.or_else (Cloudflare.routeId props)
          (option_map out_id (output this)) = Some routeId ->
        routeId <> "" ->
        (forall resp,
            o _ hist (route_delete api routeId) = inr resp ->
            ok (head resp) = false ->
            status (head resp) <> 404 ->
            run returns o (TunnelRoute handleApiError fuel api this id props) hist
            = (Threw (handleApiError (head resp) "delete" "route" routeId),
               [Requested (route_delete api routeId)]))
        /\ (forall e,
               o _ hist (route_delete api routeId) = inl e ->
               run returns o (TunnelRoute handleApiError fuel api this id props)
                   hist
               = (Threw e, [Requested (route_delete api routeId)])))
    /\ (forall api (o : Oracle CloudflareE) hist this id props previous,
          phase this = Delete ->
          wp_delete props <> Some false ->
          output this = Some previous ->
          wo_policyId previous <> "" ->
          (forall resp,
              o _ hist (policy_delete api (wo_policyId previous)) = inr resp ->
              ok (head resp) = false ->
              status (head resp) <> 404 ->
              run returns o
                  (WarpDeviceProfile handleApiError createPhysicalName
                     api this id props) hist
              = (Threw (handleApiError (head resp) "delete"
                          "warp_device_profile" (wo_policyId previous)),
                 [Requested (policy_delete api (wo_policyId previous))]))
          /\ (forall e,
                 o _ hist (policy_delete api (wo_policyId previous)) = inl e ->
                 run returns o
                     (WarpDeviceProfile handleApiError createPhysicalName
                        api this id props) hist
                 = (Threw e,
                    [Requested (policy_delete api (wo_policyId previous))])))
    /\ (forall convertWildcardUrlToExpression api (o : Oracle CloudflareE)
               hist this id props previous zoneId,
          phase this = Delete ->
          Zones.resolves_to o hist (rr_zone props) zoneId ->
          zoneId <> "" ->
          output this = Some previous ->
          ro_ruleId previous <> "" ->
          ro_rulesetId previous <> "" ->
          let lookup := Zones.zone_lookup (rr_zone props) in
          let request :=
            rule_delete zoneId (ro_rulesetId previous) (ro_ruleId previous) in
          (forall resp,
              o _ (hist ++ lookup)%list request = inr resp ->
              ok (head resp) = false ->
              status (head resp) <> 404 ->
              run returns o
                  (RedirectRule createPhysicalName
                     convertWildcardUrlToExpression api this id props) hist
              = (Threw (delete_refused (head resp)),
                 (lookup ++ [Requested request])%list))
          /\ (forall e,
                 o _ (hist ++ lookup)%list request = inl e ->
                 run returns o
                     (RedirectRule createPhysicalName
                        convertWildcardUrlToExpression api this id props) hist
                 = (Threw e, (lookup ++ [Requested request])%list))).
Proof.
  intros h cpn returns. split; [ | split ].
  - intros fuel api o hist this id props routeId Hphase Hdelete Hid Hne.
    assert (Hrun : run returns o (TunnelRoute h fuel api this id props) hist
                   = and_then o returns
                       (run returns o (deleteRoute h api routeId) hist)
                       (fun _ => Ret Destroyed) hist).
    { unfold TunnelRoute. rewrite Hphase, Hid. cbn [phase_eqb].
      rewrite (truthy_nonempty _ Hne), (is_false_other _ Hdelete).
      cbn [negb andb Js.nullish]. apply run_bind. }
    rewrite Hrun. unfold deleteRoute, api_delete, await, route_delete in *.
    cbn [bind run].
    split; [ intros resp Ho Hok H404 | intros e Ho ]; answered Ho.
    + rewrite Hok.
      destruct (Z.eqb_spec (status (head resp)) 404); [ contradiction | ].
      reflexivity.
    + reflexivity.
  - intros api o hist this id props previous Hphase Hdelete Hout Hne.
    assert (Hrun : run returns o (WarpDeviceProfile h cpn api this id props) hist
                   = and_then o returns
                       (run returns o
                          (deletePolicy h api (wo_policyId previous)) hist)
                       (fun _ => Ret Destroyed) hist).
    { unfold WarpDeviceProfile. rewrite Hphase, Hout.
      cbn [phase_eqb option_map].
      rewrite (truthy_nonempty _ Hne), (is_false_other _ Hdelete).
      cbn [negb andb Js.nullish]. apply run_bind. }
    rewrite Hrun. unfold deletePolicy, api_delete, await, policy_delete in *.
    cbn [bind run].
    split; [ intros resp Ho Hok H404 | intros e Ho ]; answered Ho.
    + rewrite Hok.
      destruct (Z.eqb_spec (status (head resp)) 404); [ contradiction | ].
      reflexivity.
    + reflexivity.
  - intros conv api o hist this id props previous zoneId
           Hphase Hzone Hk Hout Hne Hne' lookup request.
    rewrite (Zones.RedirectRule_resolved cpn conv returns o api this id props
               hist zoneId Hzone Hk).
    fold lookup.
    assert (Hrun : run returns o
                       (RedirectRule cpn conv api this id
                          (Zones.at_zone props zoneId)) (hist ++ lookup)%list
                   = and_then o returns
                       (run returns o
                          (deleteRule api zoneId
                             (ro_rulesetId previous) (ro_ruleId previous))
                          (hist ++ lookup)%list)
                       (fun _ => Ret Destroyed) (hist ++ lookup)%list).
    { unfold RedirectRule. cbn [Zones.at_zone rr_zone zone_id bind].
      rewrite (truthy_nonempty _ Hk). cbn [negb Js.nullish].
      rewrite Hphase, Hout. cbn [phase_eqb option_map].
      rewrite (truthy_nonempty _ Hne), (truthy_nonempty _ Hne').
      cbn [andb Js.nullish]. apply run_bind. }
    rewrite Hrun. subst request.
    unfold deleteRule, api_delete, await, rule_delete in *.
    cbn [bind run].
    split; [ intros resp Ho Hok H404 | intros e Ho ]; answered Ho.
    + rewrite Hok.
      destruct (Z.eqb_spec (status (head resp)) 404); [ contradiction | ].
      reflexivity.
    + reflexivity.
Qed.

Definition server_failure : ResponseHead :=
  mkHead 500 "Internal Server Error" "try again".

Lemma refused_delete_is_raised_witness :
  run true (Samples.answering server_failure)
      (TunnelRoute Samples.handleApiError 1 Samples.api
         (deleting (route_output Samples.r2)) "route" plain_route_props) []
  = (Threw (Samples.handleApiError server_failure "delete" "route" "r2"),
     [Requested (route_delete Samples.api "r2")]).
Proof.
  apply (proj1 (proj1 (refused_delete_is_raised Samples.handleApiError
                         Samples.createPhysicalName true)
                  1%nat Samples.api (Samples.answering server_failure) []
                  (deleting (route_output Samples.r2)) "route"
                  plain_route_props "r2"
                  ltac:(reflexivity) ltac:(discriminate) ltac:(reflexivity)
                  ltac:(discriminate))
           (Samples.no_body server_failure)).
  - reflexivity.
  - reflexivity.
  - discriminate.
Defined.

End Requests.

(* ================================================================== *)
(** ** RedirectRule: rulesets and rules *)
(* ================================================================== *)

Module Redirects.

Import Cloudflare DeletePhase.

(** The requests of the handler. *)
Definition rulesets_list (zoneId : string)
  : CloudflareE (Js.Error + FetchResponse (body KRulesetList)) :=
  Fetch KRulesetList GET (rulesets_path zoneId) None.

Definition ruleset_create (zoneId : string)
  : CloudflareE (Js.Error + FetchResponse (body KRuleset)) :=
  Fetch KRuleset POST (rulesets_path zoneId)
    (Some (Js.JObj [("name", Js.JStr "Zone-level redirect ruleset");
                    ("description", Js.JStr "Redirect rules for the zone");
                    ("kind", Js.JStr "zone");
                    ("phase", Js.JStr "http_request_dynamic_redirect")])).

Definition rule_create (zoneId rulesetId : string) (ruleBody : Js.Json)
  : CloudflareE (Js.Error + FetchResponse (body KRuleset)) :=
  Fetch KRuleset POST (rulesets_path zoneId ++ "/" ++ rulesetId ++ "/rules")
    (Some ruleBody).

Definition rule_patch (zoneId rulesetId ruleId : string) (ruleBody : Js.Json)
  : CloudflareE (Js.Error + FetchResponse (body KRuleset)) :=
  Fetch KRuleset PATCH
    (rulesets_path zoneId ++ "/" ++ rulesetId ++ "/rules/" ++ ruleId)
    (Some ruleBody).

(** The first ruleset of the redirect phase in a listing. *)
Definition redirect_ruleset (l : list CloudflareRuleset)
  : option CloudflareRuleset :=
  Js.find (fun ruleset =>
             String.eqb (ruleset_phase ruleset) "http_request_dynamic_redirect")
          l.

(** What [getOrCreateRedirectRuleset] does after a listing that gave
    no ruleset: it creates one. *)
Definition after_listing {A : Type} (zoneId : string)
           (res : Outcome A * list (Entry CloudflareE))
  : Outcome A * list (Entry CloudflareE) :=
  (fst res, Requested (rulesets_list zoneId) :: snd res).

Section Rulesets.

Variable returns : bool.
Variable o : Oracle CloudflareE.
Variable api : CloudflareApi.
Variable zoneId : string.
Variable hist : list (Entry CloudflareE).

Lemma ruleset_reused resp ruleset :
  o _ hist (rulesets_list zoneId) = inr resp ->
  ok (head resp) = true ->
  redirect_ruleset (json resp) = Some ruleset ->
  ruleset_id ruleset <> "" ->
  run returns o (getOrCreateRedirectRuleset api zoneId) hist
  = (Returned (ruleset_id ruleset), [Requested (rulesets_list zoneId)]).
Proof.
  unfold getOrCreateRedirectRuleset, getRedirectRuleset, api_get, await,
    rulesets_list, redirect_ruleset.
  cbn [bind run].
  intros Ho Hok Hfind Hid. answered Ho.
  rewrite Hok. cbn [negb bind run]. rewrite Hfind. cbn [option_map].
  unfold Js.or_else. rewrite (truthy_nonempty _ Hid).
  cbn [bind run Js.nullish]. rewrite (truthy_nonempty _ Hid). reflexivity.
Qed.

Lemma ruleset_created resp :
  o _ hist (rulesets_list zoneId) = inr resp ->
  ok (head resp) = false \/ redirect_ruleset (json resp) = None ->
  run returns o (getOrCreateRedirectRuleset api zoneId) hist
  = after_listing zoneId
      (run returns o (createRedirectRuleset api zoneId)
         (hist ++ [Requested (rulesets_list zoneId)])).
Proof.
  unfold getOrCreateRedirectRuleset, getRedirectRuleset, api_get, await,
    rulesets_list, after_listing, redirect_ruleset.
  cbn [bind run].
  intros Ho Hno. answered Ho.
  destruct Hno as [Hok | Hfind].
  - rewrite Hok. cbn [negb bind run Js.truthy].
    destruct (run returns o _ _); reflexivity.
  - destruct (ok (head resp)); cbn [negb bind run Js.truthy].
    + rewrite Hfind. cbn [option_map Js.or_else Js.truthy bind run].
      destruct (run returns o _ _); reflexivity.
    + destruct (run returns o _ _); reflexivity.
Qed.

Lemma listing_raised e :
  o _ hist (rulesets_list zoneId) = inl e ->
  run returns o (getOrCreateRedirectRuleset api zoneId) hist
  = (Threw e, [Requested (rulesets_list zoneId)]).
Proof.
  unfold getOrCreateRedirectRuleset, getRedirectRuleset, api_get, await,
    rulesets_list.
  cbn [bind run].
  intros Ho. answered Ho. reflexivity.
Qed.

End Rulesets.

(** [getOrCreateRedirectRuleset] reuses the first ruleset of the
    redirect phase that the listing of the zone shows, with no further
    request; it creates a ruleset when the listing shows none, and
    also when the listing is refused, whatever the status of the
    refusal; only a listing that fails on the way is raised. *)
Theorem ruleset_is_reused_or_created :
  forall returns (o : Oracle CloudflareE) api zoneId hist,
    (forall resp ruleset,
        o _ hist (rulesets_list zoneId) = inr resp ->
        ok (head resp) = true ->
        redirect_ruleset (json resp) = Some ruleset ->
        ruleset_id ruleset <> "" ->
        run returns o (getOrCreateRedirectRuleset api zoneId) hist
        = (Returned (ruleset_id ruleset), [Requested (rulesets_list zoneId)]))
    /\ (forall resp,
           o _ hist (rulesets_list zoneId) = inr resp ->
           ok (head resp) = false
           \/ redirect_ruleset (json resp) = None ->
           run returns o (getOrCreateRedirectRuleset api zoneId) hist
           = after_listing zoneId
               (run returns o (createRedirectRuleset api zoneId)
                  (hist ++ [Requested (rulesets_list zoneId)])))
    /\ (forall e,
           o _ hist (rulesets_list zoneId) = inl e ->
           run returns o (getOrCreateRedirectRuleset api zoneId) hist
           = (Threw e, [Requested (rulesets_list zoneId)])).
Proof.
  intros returns o api zoneId hist. split; [ | split ].
  - apply ruleset_reused.
  - apply ruleset_created.
  - apply listing_raised.
Qed.

Definition forbidden : ResponseHead := mkHead 403 "Forbidden" "".

Lemma ruleset_is_reused_or_created_witness :
  run true (Samples.answering forbidden)
      (getOrCreateRedirectRuleset Samples.api "z1") []
  = (Threw (Js.new_Error "Failed to create redirect ruleset: Forbidden"),
     [Requested (rulesets_list "z1"); Requested (ruleset_create "z1")]).
Proof.
  rewrite (proj1 (proj2 (ruleset_is_reused_or_created true
                           (Samples.answering forbidden) Samples.api "z1" []))
             (mkResponse forbidden [])).
  - reflexivity.
  - reflexivity.
  - left. reflexivity.
Defined.

Definition first_rule : CloudflareRule :=
  mkRule "rule1" None "2025-01-01T00:00:00Z".

Definition second_rule : CloudflareRule :=
  mkRule "rule2" (Some false) "2025-02-01T00:00:00Z".

(** The update phase with a recorded rule, for a zone resource. *)
Lemma update_patches_at_zone createPhysicalName convertWildcardUrlToExpression
      returns (o : Oracle CloudflareE) api hist this id props previous zoneId :
  phase this = Update ->
  zoneId <> "" ->
  output this = Some previous ->
  ro_ruleId previous <> "" ->
  ro_rulesetId previous <> "" ->
  let res :=
    run returns o
        (RedirectRule createPhysicalName convertWildcardUrlToExpression
           api this id (Zones.at_zone props zoneId)) hist in
  (snd res = []
   \/ exists ruleBody,
        snd res
        = [Requested (rule_patch zoneId (ro_rulesetId previous)
                        (ro_ruleId previous) ruleBody)])
  /\ (forall out,
         fst res = Returned out ->
         exists r,
           out = Output r
           /\ ro_ruleId r = ro_ruleId previous
           /\ ro_rulesetId r = ro_rulesetId previous
           /\ ro_zoneId r = zoneId).
Proof.
  intros Hphase Hk Hout Hne Hne' res. subst res.
  assert (Hrule : forall description ruleBody,
    let res := run returns o
      (updatedRule <-
         updateRule api zoneId (ro_rulesetId previous) (ro_ruleId previous)
           ruleBody ;;
       Ret (Output
              (mkRedirectOutput (rule_id updatedRule) (ro_rulesetId previous)
                 zoneId description
                 (rr_requestUrl props) (rr_expression props)
                 (rr_targetUrl props) (Js.nullish (rr_statusCode props) 301)
                 (Js.nullish (rr_preserveQueryString props) true)
                 (Js.nullish (rule_enabled updatedRule) true)
                 (rule_last_updated updatedRule)))) hist in
    (snd res = []
     \/ exists ruleBody,
          snd res
          = [Requested (rule_patch zoneId (ro_rulesetId previous)
                          (ro_ruleId previous) ruleBody)])
    /\ (forall out,
           fst res = Returned out ->
           exists r,
             out = Output r
             /\ ro_ruleId r = ro_ruleId previous
             /\ ro_rulesetId r = ro_rulesetId previous
             /\ ro_zoneId r = zoneId)).
  { intros description ruleBody res. subst res.
    unfold updateRule.
    assert (Ht : Js.truthy_string (ro_ruleId previous) = true)
      by (apply (truthy_nonempty _ Hne)).
    rewrite Ht. cbn [negb]. unfold api_patch, await, rule_patch.
    cbn [bind run].
    destruct (o _ hist _) as [e | resp]; cbn [bind run fst snd].
    - split; [ right; eexists; reflexivity | intros out H; discriminate H ].
    - destruct (negb (ok (head resp))); cbn [bind run fst snd].
      + split; [ right; eexists; reflexivity | intros out H; discriminate H ].
      + destruct (Js.find _ _) as [rule | ] eqn:Hfind; cbn [bind run fst snd].
        * split; [ right; eexists; reflexivity | ].
          intros out H. injection H as <-. eexists. split; [ reflexivity | ].
          cbn [ro_ruleId ro_rulesetId ro_zoneId].
          apply find_some in Hfind. destruct Hfind as [_ Heq].
          apply String.eqb_eq in Heq. auto.
        * split; [ right; eexists; reflexivity | intros out H; discriminate H ]. }
  unfold RedirectRule.
  cbn [Zones.at_zone rr_zone rr_description rr_requestUrl rr_expression
       rr_targetUrl rr_statusCode rr_preserveQueryString zone_id bind].
  rewrite (truthy_nonempty _ Hk). cbn [negb Js.nullish].
  rewrite Hphase, Hout. cbn [phase_eqb option_map].
  rewrite (truthy_nonempty _ Hne), (truthy_nonempty _ Hne').
  cbn [andb Js.nullish].
  destruct (Js.truthy (rr_requestUrl props)
            && Js.truthy (rr_expression props));
    [ split; [ left; reflexivity | intros out H; discriminate H ] | ].
  destruct (Js.truthy (rr_requestUrl props));
    [ destruct (convertWildcardUrlToExpression _) as [e | expression];
      cbn [bind];
      [ split; [ left; reflexivity | intros out H; discriminate H ] | ]
    | destruct (Js.truthy (rr_expression props)); cbn [bind] ].
  all: apply Hrule.
Qed.

(** In the update phase with a recorded rule the RedirectRule handler
    issues, after the lookup of a zone that is given by domain name,
    at most one request, a PATCH of the recorded rule in the recorded
    ruleset of that zone (no ruleset is listed or created), and every
    output it returns keeps the rule id and the ruleset id of the
    previous output and has the id of the zone. *)
Theorem update_patches_the_recorded_rule :
  forall createPhysicalName convertWildcardUrlToExpression returns
         (o : Oracle CloudflareE) api hist this id props previous,
    phase this = Update ->
    output this = Some previous ->
    ro_ruleId previous <> "" ->
    ro_rulesetId previous <> "" ->
    let res :=
      run returns o
          (RedirectRule createPhysicalName convertWildcardUrlToExpression
             api this id props) hist in
    let lookup := Zones.zone_lookup (rr_zone props) in
    (snd res = lookup
     \/ exists zoneId ruleBody,
          Zones.resolves_to o hist (rr_zone props) zoneId
          /\ snd res
             = (lookup
                  ++ [Requested (rule_patch zoneId (ro_rulesetId previous)
                                   (ro_ruleId previous) ruleBody)])%list)
    /\ (forall out,
           fst res = Returned out ->
           exists r zoneId,
             out = Output r
             /\ Zones.resolves_to o hist (rr_zone props) zoneId
             /\ ro_ruleId r = ro_ruleId previous
             /\ ro_rulesetId r = ro_rulesetId previous
             /\ ro_zoneId r = zoneId).
Proof.
  intros cpn conv returns o api hist this id props previous
         Hphase Hout Hne Hne' res lookup. subst res lookup.
  destruct (Zones.zone_cases cpn conv returns o api this id props hist)
    as [[e Hrun] | [zoneId [Hk Hz]]].
  - rewrite Hrun. split; [ left; reflexivity | intros out H; discriminate H ].
  - rewrite (Zones.RedirectRule_resolved cpn conv returns o api this id props
               hist zoneId Hz Hk).
    unfold Zones.after. cbn [fst snd].
    destruct (update_patches_at_zone cpn conv returns o api
                (hist ++ Zones.zone_lookup (rr_zone props))%list
                this id props previous zoneId Hphase Hk Hout Hne Hne')
      as [Htrace Hreturned].
    split.
    + destruct Htrace as [Hnone | [ruleBody Hone]].
      * left. rewrite Hnone. apply app_nil_r.
      * right. exists zoneId, ruleBody. split; [ exact Hz | ].
        rewrite Hone. reflexivity.
    + intros out H. destruct (Hreturned out H) as [r (Hr & H1 & H2 & H3)].
      exists r, zoneId. auto.
Qed.

Definition recorded_rule : RedirectRuleOutput :=
  mkRedirectOutput "rule1" "rs1" "z1" "old" None None "https://example.com/"
    301 true true "2025-01-01T00:00:00Z".

Definition static_redirect : RedirectRuleProps :=
  mkRedirectProps None (inl "example.com") None None "https://example.org/"
    None None.

Definition recorded_update : M (HandlerResult RedirectRuleOutput) :=
  RedirectRule Samples.createPhysicalName
    Samples.convertWildcardUrlToExpression Samples.api
    (mkContext Update (Some recorded_rule) Samples.root)
    "redirect" static_redirect.

Definition redirect_rulesets : FetchResponse (body KRulesetList) :=
  mkResponse Samples.success
    [mkRuleset "rs0" "http_request_firewall_custom" [];
     mkRuleset "rs1" "http_request_dynamic_redirect" []].

(** A provider that knows the zone z1 under every domain, with the
    rulesets rs0 and rs1, in which a posted rule becomes the second
    rule of its ruleset and a patched rule stays where it is. *)
Definition appending : Oracle CloudflareE :=
  fun X hist ev =>
    match ev in CloudflareE X return X with
    | GetZoneByDomain _ => inr (Some (mkZone "z1"))
    | Fetch KRulesetList GET _ _ => inr redirect_rulesets
    | Fetch KRuleset _ _ _ =>
        inr (mkResponse Samples.success
               (mkRuleset "rs1" "http_request_dynamic_redirect"
                  [first_rule; second_rule]))
    | ev' => Samples.refuse _ ev'
    end.

Lemma update_patches_the_recorded_rule_witness :
  ((snd (run true appending recorded_update [])
    = Zones.zone_lookup (inl "example.com")
    \/ exists zoneId ruleBody,
         Zones.resolves_to appending [] (inl "example.com") zoneId
         /\ snd (run true appending recorded_update [])
            = (Zones.zone_lookup (inl "example.com")
                 ++ [Requested (rule_patch zoneId "rs1" "rule1" ruleBody)])%list)
   /\ (forall out,
          fst (run true appending recorded_update []) = Returned out ->
          exists r zoneId,
            out = Output r
            /\ Zones.resolves_to appending [] (inl "example.com") zoneId
            /\ ro_ruleId r = "rule1"
            /\ ro_rulesetId r = "rs1"
            /\ ro_zoneId r = zoneId))
  /\ exists r,
       fst (run true appending recorded_update []) = Returned (Output r)
       /\ ro_zoneId r = "z1".
Proof.
  split.
  - apply (update_patches_the_recorded_rule Samples.createPhysicalName
             Samples.convertWildcardUrlToExpression true
             appending Samples.api []
             (mkContext Update (Some recorded_rule) Samples.root)
             "redirect" static_redirect recorded_rule).
    + reflexivity.
    + reflexivity.
    + discriminate.
    + discriminate.
  - eexists. split; reflexivity.
Defined.

(** The expression of a rule without [requestUrl]: the given
    expression, or [true] when there is none. *)
Definition plain_expression (props : RedirectRuleProps) : string :=
  if Js.truthy (rr_expression props)
  then Js.nullish (rr_expression props) ""
  else "true".

(** The expression of the rule: the conversion of [requestUrl] when
    one is given, which may fail, and the plain expression
    otherwise. *)
Definition rule_expression
           (convertWildcardUrlToExpression : string -> Js.Error + string)
           (props : RedirectRuleProps) : Js.Error + string :=
  if Js.truthy (rr_requestUrl props)
  then convertWildcardUrlToExpression (Js.nullish (rr_requestUrl props) "")
  else inr (plain_expression props).

(** The body of the rule the handler sends: status 301 and kept query
    string unless the props say otherwise. *)
Definition rule_body (createPhysicalName : Scope -> string -> string)
           (this : Context RedirectRuleOutput) (id : string)
           (props : RedirectRuleProps) (expression : string) : Js.Json :=
  Js.JObj
    [("action", Js.JStr "redirect");
     ("description",
       Js.JStr (Js.nullish (rr_description props)
                  (createPhysicalName (scope this) id)));
     ("expression", Js.JStr expression);
     ("enabled", Js.JBool true);
     ("action_parameters",
       Js.JObj
         [("from_value",
            Js.JObj
              [("status_code", Js.JNum (Js.nullish (rr_statusCode props) 301));
               ("target_url",
                 Js.JObj [("value", Js.JStr (rr_targetUrl props))]);
               ("preserve_query_string",
                 Js.JBool (Js.nullish (rr_preserveQueryString props) true))])])].

(** The create phase for a zone resource with a redirect ruleset. *)
Lemma create_at_zone createPhysicalName convertWildcardUrlToExpression returns
      (o : Oracle CloudflareE) api hist this id props zoneId expression
      listing ruleset resp :
  phase this = Create ->
  zoneId <> "" ->
  Js.truthy (rr_requestUrl props) && Js.truthy (rr_expression props) = false ->
  rule_expression convertWildcardUrlToExpression props = inr expression ->
  let post :=
    rule_create zoneId (ruleset_id ruleset)
      (rule_body createPhysicalName this id props expression) in
  o _ hist (rulesets_list zoneId) = inr listing ->
  ok (head listing) = true ->
  redirect_ruleset (json listing) = Some ruleset ->
  ruleset_id ruleset <> "" ->
  o _ (hist ++ [Requested (rulesets_list zoneId)])%list post = inr resp ->
  ok (head resp) = true ->
  let result :=
    run returns o
        (RedirectRule createPhysicalName convertWildcardUrlToExpression
           api this id (Zones.at_zone props zoneId)) hist in
  (forall earlier rule,
      ruleset_rules (json resp) = (earlier ++ [rule])%list ->
      result
      = (Returned
           (Output
              (mkRedirectOutput (rule_id rule) (ruleset_id ruleset) zoneId
                 (Js.nullish (rr_description props)
                    (createPhysicalName (scope this) id))
                 (rr_requestUrl props) (rr_expression props)
                 (rr_targetUrl props)
                 (Js.nullish (rr_statusCode props) 301)
                 (Js.nullish (rr_preserveQueryString props) true)
                 (Js.nullish (rule_enabled rule) true)
                 (rule_last_updated rule))),
         [Requested (rulesets_list zoneId); Requested post]))
  /\ (ruleset_rules (json resp) = [] ->
      result
      = (Threw (Js.new_Error "Created rule not found in response"),
         [Requested (rulesets_list zoneId); Requested post])).
Proof.
  intros Hphase Hk Hvalid Hexpr post Hlist Hok Hfind Hid Hpost Hok' result.
  assert (Hset := ruleset_reused returns o api zoneId hist
                    listing ruleset Hlist Hok Hfind Hid).
  assert (Hrun : result
                 = and_then o returns
                     (run returns o (getOrCreateRedirectRuleset api zoneId) hist)
                     (fun rulesetId =>
                        createdRule <-
                          createRule api zoneId rulesetId
                            (rule_body createPhysicalName this id props
                               expression) ;;
                        Ret (Output
                               (mkRedirectOutput (rule_id createdRule) rulesetId
                                  zoneId
                                  (Js.nullish (rr_description props)
                                     (createPhysicalName (scope this) id))
                                  (rr_requestUrl props) (rr_expression props)
                                  (rr_targetUrl props)
                                  (Js.nullish (rr_statusCode props) 301)
                                  (Js.nullish (rr_preserveQueryString props) true)
                                  (Js.nullish (rule_enabled createdRule) true)
                                  (rule_last_updated createdRule))))
                     hist).
  { subst result. unfold RedirectRule.
    cbn [Zones.at_zone rr_zone rr_description rr_requestUrl rr_expression
         rr_targetUrl rr_statusCode rr_preserveQueryString zone_id bind].
    rewrite (truthy_nonempty _ Hk). cbn [negb Js.nullish].
    rewrite Hphase. cbn [phase_eqb andb].
    rewrite Hvalid. unfold rule_expression, plain_expression in Hexpr.
    destruct (Js.truthy (rr_requestUrl props)).
    - rewrite Hexpr. cbn [bind]. apply run_bind.
    - injection Hexpr as <-.
      destruct (Js.truthy (rr_expression props)); cbn [bind]; apply run_bind. }
  rewrite Hrun, Hset. cbn [and_then].
  unfold createRule, api_post, await. subst post. unfold rule_create in *.
  cbn [bind run]. answered Hpost. rewrite Hok'. cbn [negb bind run].
  split.
  - intros earlier rule Hrules. rewrite Hrules.
    rewrite map_app. cbn [map]. rewrite last_last. reflexivity.
  - intros Hrules. rewrite Hrules. reflexivity.
Qed.

(** Creating a redirect rule, for props that pass the validation and
    whose expression is at hand, in a zone that has a redirect ruleset
    takes two requests after the lookup of a zone given by domain
    name: the listing of the rulesets of the zone and the POST of the
    rule into the ruleset found.  The rule the handler reports is the
    last rule of the ruleset the provider answers with: its id
    becomes [ruleId], its [enabled] flag (true when absent) and its
    [last_updated] are passed on, [statusCode] defaults to 301 and
    [preserveQueryString] to true.  When the ruleset answered has no
    rule, the handler raises an error after the rule was posted. *)
Theorem create_reports_the_last_rule :
  forall createPhysicalName convertWildcardUrlToExpression returns
         (o : Oracle CloudflareE) api hist this id props zoneId expression
         listing ruleset resp,
    phase this = Create ->
    Zones.resolves_to o hist (rr_zone props) zoneId ->
    zoneId <> "" ->
    Js.truthy (rr_requestUrl props) && Js.truthy (rr_expression props) = false ->
    rule_expression convertWildcardUrlToExpression props = inr expression ->
    let lookup := Zones.zone_lookup (rr_zone props) in
    let post :=
      rule_create zoneId (ruleset_id ruleset)
        (rule_body createPhysicalName this id props expression) in
    o _ (hist ++ lookup)%list (rulesets_list zoneId) = inr listing ->
    ok (head listing) = true ->
    redirect_ruleset (json listing) = Some ruleset ->
    ruleset_id ruleset <> "" ->
    o _ ((hist ++ lookup) ++ [Requested (rulesets_list zoneId)])%list post
    = inr resp ->
    ok (head resp) = true ->
    let result :=
      run returns o
          (RedirectRule createPhysicalName convertWildcardUrlToExpression
             api this id props) hist in
    (forall earlier rule,
        ruleset_rules (json resp) = (earlier ++ [rule])%list ->
        result
        = (Returned
             (Output
                (mkRedirectOutput (rule_id rule) (ruleset_id ruleset) zoneId
                   (Js.nullish (rr_description props)
                      (createPhysicalName (scope this) id))
                   (rr_requestUrl props) (rr_expression props)
                   (rr_targetUrl props)
                   (Js.nullish (rr_statusCode props) 301)
                   (Js.nullish (rr_preserveQueryString props) true)
                   (Js.nullish (rule_enabled rule) true)
                   (rule_last_updated rule))),
           (lookup ++ [Requested (rulesets_list zoneId); Requested post])%list))
    /\ (ruleset_rules (json resp) = [] ->
        result
        = (Threw (Js.new_Error "Created rule not found in response"),
           (lookup ++ [Requested (rulesets_list zoneId); Requested post])%list)).
Proof.
  intros cpn conv returns o api hist this id props zoneId expression
         listing ruleset resp Hphase Hz Hk Hvalid Hexpr lookup post
         Hlist Hok Hfind Hid Hpost Hok' result.
  subst result.
  rewrite (Zones.RedirectRule_resolved cpn conv returns o api this id props
             hist zoneId Hz Hk).
  fold lookup.
  destruct (create_at_zone cpn conv returns o api (hist ++ lookup)%list
              this id props zoneId expression listing ruleset resp
              Hphase Hk Hvalid Hexpr Hlist Hok Hfind Hid Hpost Hok')
    as [Hlast Hnone].
  split.
  - intros earlier rule Hrules. rewrite (Hlast earlier rule Hrules).
    reflexivity.
  - intros Hrules. rewrite (Hnone Hrules). reflexivity.
Qed.

Lemma create_reports_the_last_rule_witness :
  run true appending
      (RedirectRule Samples.createPhysicalName
         Samples.convertWildcardUrlToExpression Samples.api
         (mkContext Create None Samples.root) "redirect" static_redirect) []
  = (Returned
       (Output
          (mkRedirectOutput "rule2" "rs1" "z1" "app-dev-redirect" None None
             "https://example.org/" 301 true false "2025-02-01T00:00:00Z")),
     [Requested (GetZoneByDomain "example.com");
      Requested (rulesets_list "z1");
      Requested
        (rule_create "z1" "rs1"
           (rule_body Samples.createPhysicalName
              (mkContext Create None Samples.root) "redirect"
              static_redirect "true"))]).
Proof.
  apply (proj1 (create_reports_the_last_rule Samples.createPhysicalName
                  Samples.convertWildcardUrlToExpression true appending
                  Samples.api [] (mkContext Create None Samples.root)
                  "redirect" static_redirect "z1" "true" redirect_rulesets
                  (mkRuleset "rs1" "http_request_dynamic_redirect" [])
                  (mkResponse Samples.success
                     (mkRuleset "rs1" "http_request_dynamic_redirect"
                        [first_rule; second_rule]))
                  ltac:(reflexivity)
                  ltac:(exists (mkZone "z1"); split; reflexivity)
                  ltac:(discriminate)
                  ltac:(reflexivity) ltac:(reflexivity) ltac:(reflexivity)
                  ltac:(reflexivity) ltac:(reflexivity) ltac:(discriminate)
                  ltac:(reflexivity) ltac:(reflexivity))
           [first_rule] second_rule).
  reflexivity.
Defined.

End Redirects.

(* ================================================================== *)
(** ** Wildcard URLs *)
(* ================================================================== *)

Module Wildcards.

Import JsString WildcardUrl.

(** The string has no [*]. *)
Definition plain (s : string) : Prop := Js.includes s "*" = false.

Lemma includes_cons (a : ascii) (s : string) :
  Js.includes (String a s) "*"
  = Ascii.eqb a "*"%char || Js.includes s "*".
Proof.
  unfold Js.includes. cbn [index prefix].
  destruct (ascii_dec "*"%char a) as [<- | Hne].
  - destruct s; reflexivity.
  - destruct (Ascii.eqb_spec a "*"%char) as [-> | _]; [ congruence | ].
    cbn [orb]. destruct (index 0 "*" s); reflexivity.
Qed.

Lemma includes_empty : Js.includes "" "*" = false.
Proof. reflexivity. Qed.

Lemma plain_cons (a : ascii) (s : string) :
  plain (String a s) -> a <> "*"%char /\ plain s.
Proof.
  unfold plain. rewrite includes_cons. intros H.
  apply orb_false_elim in H. destruct H as [Ha Hs].
  split; [ | exact Hs ].
  intros ->. discriminate Ha.
Qed.

Lemma includes_app_star (a b : string) :
  Js.includes (a ++ String "*" b) "*" = true.
Proof.
  induction a as [ | c a IH]; cbn [append]; rewrite includes_cons.
  - reflexivity.
  - rewrite IH. apply orb_true_r.
Qed.

Lemma split_plain (s : string) : plain s -> split "*" s = [s].
Proof.
  induction s as [ | a s IH]; intros H; [ reflexivity | ].
  apply plain_cons in H. destruct H as [Ha Hs].
  cbn [split]. destruct (Ascii.eqb_spec a "*"%char); [ contradiction | ].
  rewrite (IH Hs). reflexivity.
Qed.

Lemma split_app_star (a b : string) :
  plain a -> split "*" (a ++ String "*" b) = a :: split "*" b.
Proof.
  induction a as [ | c a IH]; intros H; cbn [append split].
  - reflexivity.
  - apply plain_cons in H. destruct H as [Hc Ha].
    destruct (Ascii.eqb_spec c "*"%char); [ contradiction | ].
    rewrite (IH Ha). reflexivity.
Qed.

Lemma startsWith_star (s : string) :
  startsWith s "*"
  = match s with String a _ => Ascii.eqb a "*"%char | EmptyString => false end.
Proof.
  unfold startsWith. destruct s as [ | a s]; [ reflexivity | ].
  cbn [prefix].
  destruct (ascii_dec "*"%char a) as [<- | Hne].
  - destruct s; reflexivity.
  - destruct (Ascii.eqb_spec a "*"%char) as [-> | _]; [ congruence | reflexivity ].
Qed.

Lemma string_app_assoc (a b c : string) : (a ++ b) ++ c = a ++ (b ++ c).
Proof. induction a as [ | d a IH]; simpl; [ | rewrite IH ]; reflexivity. Qed.

Lemma string_length_app (a b : string) :
  String.length (a ++ b) = (String.length a + String.length b)%nat.
Proof. induction a as [ | c a IH]; simpl; [ | rewrite IH ]; reflexivity. Qed.

Lemma substring_skip (a b : string) (m : nat) :
  substring (String.length a) m (a ++ b) = substring 0 m b.
Proof. induction a as [ | c a IH]; simpl; [ reflexivity | exact IH ]. Qed.

Lemma substring_all (s : string) : substring 0 (String.length s) s = s.
Proof. induction s as [ | c s IH]; simpl; [ | rewrite IH ]; reflexivity. Qed.

Lemma substring_take (a b : string) :
  substring 0 (String.length a) (a ++ b) = a.
Proof. induction a as [ | c a IH]; simpl; [ destruct b | rewrite IH ]; reflexivity. Qed.

(** The last character decides [endsWith] for a pattern of one
    character. *)
Lemma endsWith_app_char (a : string) (c d : ascii) :
  endsWith (a ++ String c "") (String d "") = Ascii.eqb c d.
Proof.
  unfold endsWith. rewrite string_length_app. cbn [String.length].
  replace (1 <=? String.length a + 1)%nat with true
    by (symmetry; apply Nat.leb_le; lia).
  replace (String.length a + 1 - 1)%nat with (String.length a) by lia.
  rewrite substring_skip. cbn [substring andb].
  destruct (Ascii.eqb_spec c d) as [-> | Hne].
  - apply String.eqb_refl.
  - apply String.eqb_neq. congruence.
Qed.

(** A string that is not empty is its beginning followed by its last
    character. *)
Lemma last_char (s : string) :
  s <> "" -> exists a c, s = a ++ String c "".
Proof.
  induction s as [ | c s IH]; intros H; [ congruence | ].
  destruct s as [ | d s].
  - exists "", c. reflexivity.
  - destruct IH as [a [e He]]; [ discriminate | ].
    exists (String c a), e. cbn [append]. rewrite <- He. reflexivity.
Qed.

Lemma plain_app (a b : string) : plain (a ++ b) -> plain a /\ plain b.
Proof.
  induction a as [ | c a IH]; cbn [append]; intros H.
  - split; [ reflexivity | exact H ].
  - apply plain_cons in H. destruct H as [Hc Hab].
    destruct (IH Hab) as [Ha Hb]. split; [ | exact Hb ].
    unfold plain. rewrite includes_cons.
    destruct (Ascii.eqb_spec c "*"%char); [ contradiction | exact Ha ].
Qed.

Lemma endsWith_star_app (a b : string) :
  plain b -> b <> "" -> endsWith (a ++ String "*" b) "*" = false.
Proof.
  intros Hb Hne. destruct (last_char b Hne) as [b' [c ->]].
  apply plain_app in Hb. destruct Hb as [_ Hc].
  apply plain_cons in Hc. destruct Hc as [Hc _].
  replace (a ++ String "*" (b' ++ String c ""))
    with ((a ++ String "*" b') ++ String c "").
  - rewrite endsWith_app_char.
    destruct (Ascii.eqb_spec c "*"%char); [ contradiction | reflexivity ].
  - rewrite string_app_assoc. reflexivity.
Qed.

Lemma app_assoc_star (a b : string) :
  a ++ String "*" b = (a ++ "*") ++ b.
Proof. rewrite string_app_assoc. reflexivity. Qed.

Lemma drop_last_app (a : string) (c : ascii) :
  drop_last (a ++ String c "") = a.
Proof.
  unfold drop_last. rewrite string_length_app. cbn [String.length].
  replace (String.length a + 1 - 1)%nat with (String.length a) by lia.
  apply substring_take.
Qed.

(** The clause for a host name with exactly one wildcard: a leading
    wildcard tests the end of the host, a trailing one its beginning,
    an inner one both. *)
Definition one_wildcard_clause (before after : string) : string :=
  if String.eqb before "" then "http.host ends_with " ++ quoted after
  else if String.eqb after "" then "http.host starts_with " ++ quoted before
  else "http.host starts_with " ++ quoted before
         ++ " and http.host ends_with " ++ quoted after.

(** For a host name with exactly one wildcard,
    [convertWildcardUrlToExpression] tests the host against the text
    before and the text after the wildcard: [*.example.com] gives
    [ends_with ".example.com"], [api.*] gives [starts_with "api."],
    and [a*b] gives both tests; a host name without a wildcard is
    tested for equality. *)
Theorem one_wildcard_host :
  forall before after : string,
    plain before ->
    plain after ->
    host_clause (before ++ "*" ++ after) = one_wildcard_clause before after
    /\ host_clause before = "http.host == " ++ quoted before.
Proof.
  intros before after Hb Ha. split.
  - unfold host_clause, one_wildcard_clause.
    cbn [append]. rewrite includes_app_star.
    destruct before as [ | c before].
    + cbn [append String.eqb]. rewrite startsWith_star.
      rewrite Ascii.eqb_refl.
      unfold substring_from. cbn [String.length substring].
      replace (S (String.length after) - 1)%nat with (String.length after)
        by lia.
      rewrite substring_all. reflexivity.
    + pose proof (plain_cons _ _ Hb) as [Hc Hb'].
      rewrite startsWith_star. cbn [append String.eqb].
      destruct (Ascii.eqb_spec c "*"%char); [ contradiction | ].
      destruct after as [ | d after].
      * cbn [String.eqb].
        change (String c (before ++ "*")) with (String c before ++ "*").
        rewrite endsWith_app_char. rewrite Ascii.eqb_refl.
        rewrite drop_last_app. reflexivity.
      * cbn [String.eqb].
        change (String c (before ++ String "*" (String d after)))
          with (String c before ++ String "*" (String d after)).
        rewrite endsWith_star_app by (exact Ha || discriminate).
        rewrite split_app_star by exact Hb.
        rewrite split_plain by exact Ha.
        reflexivity.
  - unfold host_clause. rewrite Hb. reflexivity.
Qed.

Lemma one_wildcard_host_witness :
  host_clause ("" ++ "*" ++ ".example.com")
  = one_wildcard_clause "" ".example.com"
  /\ host_clause "" = "http.host == " ++ quoted "".
Proof.
  apply (one_wildcard_host "" ".example.com"); reflexivity.
Defined.

Lemma substring_split (s : string) (k : nat) :
  (k <= String.length s)%nat ->
  s = substring 0 k s ++ substring k (String.length s - k) s.
Proof.
  revert k. induction s as [ | c s IH]; intros k Hk.
  - destruct k; [ reflexivity | simpl in Hk; lia ].
  - destruct k as [ | k].
    + cbn [substring String.length Nat.sub append].
      rewrite substring_all. reflexivity.
    + cbn [substring String.length Nat.sub append].
      rewrite <- (IH k) by (simpl in Hk; lia). reflexivity.
Qed.

Lemma endsWith_suffix (s p : string) :
  endsWith s p = true -> exists a, s = a ++ p.
Proof.
  unfold endsWith. intros H. apply andb_true_iff in H. destruct H as [Hle Heq].
  apply Nat.leb_le in Hle. apply String.eqb_eq in Heq.
  exists (substring 0 (String.length s - String.length p) s).
  pose proof (substring_split s (String.length s - String.length p)) as Hsplit.
  replace (String.length s - (String.length s - String.length p))%nat
    with (String.length p) in Hsplit by lia.
  rewrite Heq in Hsplit. apply Hsplit. lia.
Qed.

Lemma not_endsWith_longer (s : string) :
  endsWith s "*" = false -> endsWith s ".*" = false.
Proof.
  intros H. destruct (endsWith s ".*") eqn:He; [ | reflexivity ].
  apply endsWith_suffix in He. destruct He as [a ->].
  replace (a ++ ".*") with ((a ++ ".") ++ "*") in H
    by (rewrite string_app_assoc; reflexivity).
  rewrite endsWith_app_char in H. discriminate H.
Qed.

Lemma not_startsWith_longer (s : string) :
  startsWith s "*" = false -> startsWith s "*." = false.
Proof.
  rewrite startsWith_star. unfold startsWith.
  destruct s as [ | a s]; [ reflexivity | ].
  cbn [prefix]. intros H.
  destruct (ascii_dec "*"%char a) as [<- | _]; [ discriminate H | reflexivity ].
Qed.

(** For a host name with several wildcards, none of them at its
    beginning or at its end, [convertWildcardUrlToExpression] tests
    whether the host contains the host name as it was given, the
    wildcards included: the two replacements that are to take a
    leading [*.] and a trailing [.*] off never apply there. *)
Theorem several_wildcards_host :
  forall hostname : string,
    startsWith hostname "*" = false ->
    endsWith hostname "*" = false ->
    (2 < List.length (split "*" hostname))%nat ->
    host_clause hostname = "http.host contains " ++ quoted hostname.
Proof.
  intros hostname Hs He Hparts.
  unfold host_clause.
  destruct (Js.includes hostname "*") eqn:Hinc.
  - rewrite Hs, He.
    destruct (Nat.eqb_spec (List.length (split "*" hostname)) 2) as [H2 | _];
      [ lia | ].
    unfold remove_prefix. rewrite (not_startsWith_longer _ Hs).
    unfold remove_suffix. rewrite (not_endsWith_longer _ He).
    reflexivity.
  - rewrite (split_plain _ Hinc) in Hparts. simpl in Hparts. lia.
Qed.

Lemma several_wildcards_host_witness :
  host_clause "a*b*c.example.com"
  = "http.host contains " ++ quoted "a*b*c.example.com".
Proof.
  apply (several_wildcards_host "a*b*c.example.com").
  - reflexivity.
  - reflexivity.
  - simpl. lia.
Defined.

Lemma split_not_nil (s : string) : split "*" s <> [].
Proof.
  induction s as [ | a s IH]; cbn [split]; [ discriminate | ].
  destruct (Ascii.eqb a "*"%char); [ discriminate | ].
  destruct (split "*" s); [ congruence | discriminate ].
Qed.

Lemma split_wildcard_length (s : string) :
  Js.includes s "*" = true -> (2 <= List.length (split "*" s))%nat.
Proof.
  induction s as [ | a s IH]; [ discriminate | ].
  rewrite includes_cons. cbn [split].
  pose proof (split_not_nil s) as Hnil.
  destruct (Ascii.eqb a "*"%char); cbn [orb]; intros H.
  - destruct (split "*" s); [ congruence | simpl; lia ].
  - specialize (IH H). destruct (split "*" s); simpl in *; lia.
Qed.

(** For a path with several wildcards, the last character not being
    one, [convertWildcardUrlToExpression] keeps of the pattern only
    the text before the first wildcard, which the path has to
    contain: [/a/*/b/*/c] gives [contains "/a/"]. *)
Theorem several_wildcards_path :
  forall before rest : string,
    plain before ->
    before <> "" ->
    Js.includes rest "*" = true ->
    endsWith (before ++ "*" ++ rest) "*" = false ->
    path_clause (before ++ "*" ++ rest)
    = " and http.request.uri.path contains " ++ quoted before.
Proof.
  intros before rest Hb Hne Hrest Hend.
  unfold path_clause. cbn [append] in *.
  rewrite includes_app_star, Hend.
  assert (Hs : startsWith (before ++ String "*" rest) "*" = false).
  { rewrite startsWith_star. destruct before as [ | c before]; [ congruence | ].
    apply plain_cons in Hb. destruct Hb as [Hc _]. cbn [append].
    destruct (Ascii.eqb_spec c "*"%char); [ contradiction | reflexivity ]. }
  rewrite Hs, (split_app_star _ _ Hb).
  pose proof (split_wildcard_length rest Hrest) as Hlen.
  cbn [List.length].
  destruct (Nat.eqb_spec (S (List.length (split "*" rest))) 2) as [H2 | _];
    [ lia | ].
  cbn [andb Js.find find].
  assert (Hpos : (0 <? String.length before)%nat = true).
  { destruct before; [ congruence | reflexivity ]. }
  rewrite Hpos. cbn [Js.nullish].
  assert (Ht : Js.truthy_string before = true).
  { unfold Js.truthy_string. destruct before; [ congruence | reflexivity ]. }
  rewrite Ht. reflexivity.
Qed.

Lemma several_wildcards_path_witness :
  path_clause ("/a/" ++ "*" ++ "/b/*/c")
  = " and http.request.uri.path contains " ++ quoted "/a/".
Proof.
  apply (several_wildcards_path "/a/" "/b/*/c").
  - reflexivity.
  - discriminate.
  - reflexivity.
  - reflexivity.
Defined.

End Wildcards.

(* ================================================================== *)
(** ** The scan for an open port *)
(* ================================================================== *)

Module PortScan.

Import Ports.

(** The probes of [n] consecutive ports from [port] on. *)
Fixpoint probes (port : Z) (n : nat) : list (Entry PortE) :=
  match n with
  | O => []
  | S n' => Requested (IsPortAvailable "0.0.0.0" port) :: probes (port + 1) n'
  end.

(** The ports keep their state during the scan: [available] tells
    which ones can be listened on. *)
Definition steady (o : Oracle PortE) (available : Z -> bool) : Prop :=
  forall hist port, o _ hist (IsPortAvailable "0.0.0.0" port) = available port.

(** An integer that a number holds exactly, with its successor. *)
Definition safe (n : Z) : Prop := - 2 ^ 53 < n < 2 ^ 53.

Section Scan.

Variable returns : bool.
Variable o : Oracle PortE.
Variable available : Z -> bool.
Hypothesis Hsteady : steady o available.

Lemma scan_finds (min max p : Z) :
  p <= max ->
  available p = true ->
  forall n fuel port hist,
    p - port = Z.of_nat n ->
    (n < fuel)%nat ->
    (forall q, port <= q < p -> available q = false) ->
    run returns o (findOpenPort_loop fuel min max port) hist
    = (Returned p, probes port (S n)).
Proof.
  intros Hmax Hp.
  induction n as [ | n IH]; intros fuel port hist Hn Hfuel Hclosed;
    (destruct fuel as [ | fuel]; [ lia | ]); cbn [findOpenPort_loop].
  - assert (port = p) by lia. subst port.
    destruct (Z.leb_spec p max); [ | lia ].
    cbn [run]. rewrite Hsteady, Hp. reflexivity.
  - destruct (Z.leb_spec port max); [ | lia ].
    cbn [run]. rewrite Hsteady, (Hclosed port) by lia.
    rewrite (IH fuel (port + 1)) by (try lia; intros q Hq; apply Hclosed; lia).
    reflexivity.
Qed.

Lemma scan_fails (min max : Z) :
  forall n fuel port hist,
    max - port + 1 = Z.of_nat n ->
    (n < fuel)%nat ->
    (forall q, port <= q <= max -> available q = false) ->
    run returns o (findOpenPort_loop fuel min max port) hist
    = (Threw (no_open_port min max), probes port n).
Proof.
  induction n as [ | n IH]; intros fuel port hist Hn Hfuel Hclosed;
    (destruct fuel as [ | fuel]; [ lia | ]); cbn [findOpenPort_loop].
  - destruct (Z.leb_spec port max); [ lia | ]. reflexivity.
  - destruct (Z.leb_spec port max); [ | lia ].
    cbn [run]. rewrite Hsteady, (Hclosed port) by lia.
    rewrite (IH fuel (port + 1)) by (try lia; intros q Hq; apply Hclosed; lia).
    reflexivity.
Qed.

End Scan.

(** [findOpenPort] returns the least port of the range that can be
    listened on: it probes the ports from [min] upwards, one after the
    other, and stops at the first one that is available, so no port
    above the one returned is probed.  Without arguments the range is
    1337 to 65535. *)
Theorem findOpenPort_returns_the_least_open_port :
  forall returns (o : Oracle PortE) available min max p hist,
    steady o available ->
    let lo := Js.nullish min 1337 in
    let hi := Js.nullish max 65535 in
    safe lo -> safe hi ->
    lo <= p <= hi ->
    available p = true ->
    (forall q, lo <= q < p -> available q = false) ->
    run returns o (findOpenPort min max) hist
    = (Returned p, probes lo (Z.to_nat (p - lo + 1))).
Proof.
  intros returns o available min max p hist Hsteady lo hi _ _ Hp Hopen Hclosed.
  unfold findOpenPort. fold lo. fold hi.
  replace (Z.to_nat (p - lo + 1)) with (S (Z.to_nat (p - lo))) by lia.
  apply (scan_finds returns o available Hsteady lo hi p); try lia; assumption.
Qed.

(** A table of ports in which 1337 and 1338 are taken. *)
Definition two_taken (port : Z) : bool := negb ((port =? 1337) || (port =? 1338)).

Definition table (available : Z -> bool) : Oracle PortE :=
  fun X hist ev =>
    match ev in PortE X return X with
    | IsPortAvailable _ port => available port
    end.

Lemma findOpenPort_returns_the_least_open_port_witness :
  run true (table two_taken) (findOpenPort None None) []
  = (Returned 1339, probes 1337 3).
Proof.
  apply (findOpenPort_returns_the_least_open_port true (table two_taken)
           two_taken None None 1339 []).
  - intros hist port. reflexivity.
  - unfold safe. simpl. lia.
  - unfold safe. simpl. lia.
  - simpl. lia.
  - reflexivity.
  - intros q Hq. simpl in Hq. unfold two_taken.
    assert (q = 1337 \/ q = 1338) as [-> | ->] by lia; reflexivity.
Defined.

(** When no port of the range can be listened on, [findOpenPort]
    probes every port of the range once, in ascending order, and then
    raises the error "No open port found between min and max"; for an
    empty range ([max] below [min]) it raises the error without a
    probe. *)
Theorem findOpenPort_fails_when_all_are_taken :
  forall returns (o : Oracle PortE) available min max hist,
    steady o available ->
    let lo := Js.nullish min 1337 in
    let hi := Js.nullish max 65535 in
    safe lo -> safe hi ->
    (forall q, lo <= q <= hi -> available q = false) ->
    run returns o (findOpenPort min max) hist
    = (Threw (no_open_port lo hi), probes lo (Z.to_nat (hi - lo + 1))).
Proof.
  intros returns o available min max hist Hsteady lo hi _ _ Hclosed.
  unfold findOpenPort. fold lo. fold hi.
  destruct (Z.le_gt_cases lo hi) as [Hle | Hgt].
  - apply (scan_fails returns o available Hsteady lo hi); try lia; assumption.
  - replace (Z.to_nat (hi - lo + 1)) with O by lia.
    cbn [findOpenPort_loop].
    destruct (Z.leb_spec lo hi); [ lia | ]. reflexivity.
Qed.

Lemma findOpenPort_fails_when_all_are_taken_witness :
  run true (table (fun _ => false)) (findOpenPort (Some 8000) (Some 8002)) []
  = (Threw (no_open_port 8000 8002), probes 8000 3).
Proof.
  apply (findOpenPort_fails_when_all_are_taken true (table (fun _ => false))
           (fun _ => false) (Some 8000) (Some 8002) []).
  - intros hist port. reflexivity.
  - unfold safe. simpl. lia.
  - unfold safe. simpl. lia.
  - reflexivity.
Defined.

End PortScan.

(* ================================================================== *)
(** ** The order of numbered SQL files *)
(* ================================================================== *)

Module SqlOrder.

Import SqlFiles.
















End SqlOrder.

(* ================================================================== *)
(** ** NeonProject: adoption by name, update and delete *)
(* ================================================================== *)

Module NeonLifecycle.

Import Neon.

(** The props with [adopt] left out. *)
Definition without_adopt (props : NeonProjectProps) : NeonProjectProps :=
  mkProps None (delete props) (name props) (region_id props)
    (pg_version props) (default_branch_name props) (settings props)
    (default_endpoint_settings props) (history_retention_seconds props).

Definition several_projects (name : string) : Js.Error :=
  Js.new_Error
    ("Multiple projects found with name " ++ String Js.dquote name
       ++ String Js.dquote ". Name must be unique when referencing existing projects.").

(** What follows a lookup that found no project: the run of [p] after
    the observations [t]. *)
Definition then_run {A : Type} (returns : bool) (o : Oracle NeonE)
           (t : list (Entry NeonE)) (p : M A) (hist : list (Entry NeonE))
  : Outcome A * list (Entry NeonE) :=
  let (out, t') := run returns o p (hist ++ t)%list in
  (out, (t ++ t')%list).

Section Adoption.

Variable createPhysicalName : Scope -> string -> string.
Variable formatRole : Js.Json -> Js.Json.
Variable formatConnectionUri : Js.Json -> Js.Json.
Variable connection_of_uri : Database -> string -> Js.Error + Js.Json.
Variable returns : bool.
Variable o : Oracle NeonE.
Variable this : Context NeonProjectOutput.
Variable id : string.
Variable props : NeonProjectProps.
Variable hist : list (Entry NeonE).

Local Abbreviation handler p :=
  (NeonProject createPhysicalName formatRole formatConnectionUri
     connection_of_uri this id p).

Local Abbreviation name :=
  (project_name_of createPhysicalName this id props).

Local Abbreviation lookup :=
  (fetchProject formatRole connection_of_uri props name).

Hypothesis Hphase : phase this = Create.
Hypothesis Hadopt : adopt props = Some true.

Lemma adopting_run :
  run returns o (handler props) hist
  = match run returns o lookup hist with
    | (Returned found, t) => (Returned (Output found), t)
    | (Threw e, t) =>
        if Js.instanceof_NeonProjectNotFound e
        then then_run returns o t (handler (without_adopt props)) hist
        else (Threw e, t)
    | (ReplaceSignalled force, t) => (ReplaceSignalled force, t)
    | (OutOfFuel, t) => (OutOfFuel, t)
    end.
Proof.
  unfold NeonProject at 1. rewrite Hphase.
  unfold acts_on_adopt. rewrite Hadopt.
  rewrite run_bind, run_try_catch, run_bind.
  destruct (run returns o lookup hist) as [[found | e | force | ] t];
    cbn [and_then or_catch run]; rewrite ?app_nil_r; try reflexivity.
  destruct (Js.instanceof_NeonProjectNotFound e); cbn [negb run and_then].
  - rewrite app_nil_r. unfold then_run, NeonProject. rewrite Hphase.
    unfold acts_on_adopt, project_name_of, create_body.
    cbn [without_adopt adopt name region_id pg_version default_branch_name
         settings default_endpoint_settings history_retention_seconds bind].
    reflexivity.
  - rewrite app_nil_r. reflexivity.
Qed.

Lemma lookup_finds_none :
  o _ hist (ListProjects name) = inr [] ->
  run returns o lookup hist
  = (Threw (not_found name), [Requested (ListProjects name)]).
Proof.
  intros Ho. unfold fetchProject, await. cbn [bind run]. rewrite Ho.
  reflexivity.
Qed.

Lemma lookup_finds_several first second others :
  o _ hist (ListProjects name) = inr (first :: second :: others) ->
  run returns o lookup hist
  = (Threw (several_projects name), [Requested (ListProjects name)]).
Proof.
  intros Ho. unfold fetchProject, await. cbn [bind run]. rewrite Ho.
  reflexivity.
Qed.

End Adoption.

(** In the create phase with [adopt: true] the NeonProject handler
    looks a project of the name up before it creates anything.  A
    project that the lookup yields is returned as the output, with the
    lookup's requests and no other.  When the search yields no project
    the handler goes on as a create without [adopt] does.  When it
    yields several, or the lookup fails in another way, the error is
    raised and nothing is created. *)
Theorem adoption_looks_up_before_creating :
  forall createPhysicalName formatRole formatConnectionUri connection_of_uri
         returns (o : Oracle NeonE) this id props hist,
    phase this = Create ->
    adopt props = Some true ->
    let handler p :=
      NeonProject createPhysicalName formatRole formatConnectionUri
        connection_of_uri this id p in
    let name := project_name_of createPhysicalName this id props in
    let lookup := fetchProject formatRole connection_of_uri props name in
    (forall found t,
        run returns o lookup hist = (Returned found, t) ->
        run returns o (handler props) hist = (Returned (Output found), t))
    /\ (o _ hist (ListProjects name) = inr [] ->
        run returns o (handler props) hist
        = then_run returns o [Requested (ListProjects name)]
            (handler (without_adopt props)) hist)
    /\ (forall first second others,
           o _ hist (ListProjects name) = inr (first :: second :: others) ->
           run returns o (handler props) hist
           = (Threw (several_projects name), [Requested (ListProjects name)]))
    /\ (forall e t,
           run returns o lookup hist = (Threw e, t) ->
           Js.instanceof_NeonProjectNotFound e = false ->
           run returns o (handler props) hist = (Threw e, t)).
Proof.
  intros cpn fr fc cu returns o this id props hist Hphase Hadopt
         handler name lookup.
  subst handler name lookup. cbv beta.
  repeat split.
  - intros found t Hrun.
    rewrite (adopting_run cpn fr fc cu returns o this id props hist Hphase Hadopt).
    rewrite Hrun. reflexivity.
  - intros Ho.
    rewrite (adopting_run cpn fr fc cu returns o this id props hist Hphase Hadopt).
    rewrite (lookup_finds_none cpn fr cu returns o this id props hist Ho).
    reflexivity.
  - intros first second others Ho.
    rewrite (adopting_run cpn fr fc cu returns o this id props hist Hphase Hadopt).
    rewrite (lookup_finds_several cpn fr cu returns o this id props hist
               first second others Ho).
    reflexivity.
  - intros e t Hrun Hclass.
    rewrite (adopting_run cpn fr fc cu returns o this id props hist Hphase Hadopt).
    rewrite Hrun, Hclass. reflexivity.
Qed.

Definition project (id name : string) : Project :=
  mkProject id name "2025-01-01T00:00:00Z" "2025-01-02T00:00:00Z"
    "neon.tech" "aws-us-east-1" 17 None None None.

(** A provider that knows two projects under every name. *)
Definition ambiguous : Oracle NeonE :=
  fun X hist ev =>
    match ev in NeonE X return X with
    | ListProjects search => inr [project "p1" search; project "p2" search]
    | ListProjectEndpoints _ => inr []
    | ListProjectBranches _ _ => inr []
    | ListProjectBranchRoles _ _ => inr []
    | ListProjectBranchDatabases _ _ => inr []
    | GetConnectionUri _ _ _ _ _ => inr "postgres://"
    | CreateProject _ => inl (Js.new_Error "not expected")
    | WaitForOperations _ => inr tt
    | GetProjectBranch _ _ => inl (Js.new_Error "not expected")
    | UpdateProject id _ => inr (project id "renamed")
    | DeleteProject _ => inr (mkDeleteResponse None 200)
    | FirstRejected _ => 0%nat
    end.

Definition adopting_props : NeonProjectProps :=
  mkProps (Some true) None (Some "db") None None None None None None.

Lemma adoption_looks_up_before_creating_witness :
  run true ambiguous
      (NeonProject Samples.createPhysicalName AdoptSetting.formatRole
         AdoptSetting.formatConnectionUri AdoptSetting.connection_of_uri
         (mkContext Create None Samples.root) "db" adopting_props) []
  = (Threw (several_projects "db"), [Requested (ListProjects "db")]).
Proof.
  apply (proj1 (proj2 (proj2
           (adoption_looks_up_before_creating Samples.createPhysicalName
              AdoptSetting.formatRole AdoptSetting.formatConnectionUri
              AdoptSetting.connection_of_uri true ambiguous
              (mkContext Create None Samples.root) "db" adopting_props []
              ltac:(reflexivity) ltac:(reflexivity))))
           (project "p1" "db") (project "p2" "db") []).
  reflexivity.
Defined.

(** Requests that read; the report of which rejection came first is
    no request and passes as well. *)
Definition reads (X : Type) (ev : NeonE X) : bool :=
  match ev with
  | ListProjects _ | ListProjectEndpoints _ | ListProjectBranches _ _
  | ListProjectBranchRoles _ _ | ListProjectBranchDatabases _ _
  | GetConnectionUri _ _ _ _ _ | FirstRejected _ => true
  | _ => false
  end.

Lemma for_each_reads {A B : Type} (f : A -> M B) (l : list A) :
  (forall a, issues_only reads (f a)) -> issues_only reads (for_each f l).
Proof.
  intros Hf. induction l as [ | a l IH]; cbn [for_each]; only_allowed.
  - apply Hf.
  - apply IH.
Qed.

(** The lookup of a project by name, which [NeonProjectRef] and the
    adoption of [NeonProject] make, only reads: whatever the provider
    answers, it creates, updates and deletes nothing. *)
Theorem lookup_only_reads :
  forall formatRole connection_of_uri returns (o : Oracle NeonE)
         props name hist,
    forallb (entry_allowed reads)
      (snd (run returns o
              (NeonRef.NeonProjectRef formatRole connection_of_uri props name)
              hist))
    = true.
Proof.
  intros fr cu returns o props name hist.
  apply issues_only_run.
  unfold NeonRef.NeonProjectRef, fetchProject, start, reject_first.
  only_allowed; try (apply for_each_reads; only_allowed).
Qed.

(** The props of an update that differ from [props] only in what the
    update request does not carry. *)
Definition same_update (props props' : NeonProjectProps) : Prop :=
  name props = name props'
  /\ settings props = settings props'
  /\ default_endpoint_settings props = default_endpoint_settings props'
  /\ history_retention_seconds props = history_retention_seconds props'.

(** The update phase of NeonProject makes one request, the update of
    the recorded project, which carries the name, the settings, the
    default endpoint settings and the history retention; the region,
    the Postgres version and the default branch name of the props are
    not looked at, so a change of them alone changes nothing in what
    the handler does.  The replace-mutator is never invoked, and an
    output that is returned keeps the id, the creation time, the
    connection URIs, the roles, the databases, the branch and the
    endpoints of the previous output. *)
Theorem update_keeps_the_project :
  forall createPhysicalName formatRole formatConnectionUri connection_of_uri
         this id props previous,
    phase this = Update ->
    output this = Some previous ->
    let handler p :=
      NeonProject createPhysicalName formatRole formatConnectionUri
        connection_of_uri this id p in
    (forall props', same_update props props' -> handler props = handler props')
    /\ (forall returns (o : Oracle NeonE) hist,
           let res := run returns o (handler props) hist in
           snd res
           = [Requested
                (UpdateProject (out_id previous)
                   (update_body
                      (project_name_of createPhysicalName this id props)
                      props))]
           /\ (forall out,
                  fst res = Returned out ->
                  exists r,
                    out = Output r
                    /\ out_id r = out_id previous
                    /\ out_created_at r = out_created_at previous
                    /\ out_connection_uris r = out_connection_uris previous
                    /\ out_roles r = out_roles previous
                    /\ out_databases r = out_databases previous
                    /\ out_branch r = out_branch previous
                    /\ out_endpoints r = out_endpoints previous)).
Proof.
  intros cpn fr fc cu this id props previous Hphase Hout handler.
  subst handler. cbv beta. split.
  - intros props' (Hname & Hsettings & Hdefault & Hretention).
    unfold NeonProject. rewrite Hphase, Hout.
    unfold project_name_of, update_body.
    rewrite Hname, Hsettings, Hdefault, Hretention. reflexivity.
  - intros returns o hist res. subst res.
    unfold NeonProject. rewrite Hphase, Hout.
    unfold await. cbn [bind run].
    destruct (o _ hist _) as [e | updated]; cbn [bind run fst snd].
    + split; [ reflexivity | intros out H; discriminate H ].
    + split; [ reflexivity | ].
      intros out H. injection H as <-. eexists.
      split; [ reflexivity | ]. cbn. repeat split; reflexivity.
Qed.

Definition recorded_project : NeonProjectOutput :=
  mkOutput "p1" "db" "2025-01-01T00:00:00Z" "2025-01-02T00:00:00Z"
    "neon.tech" "aws-us-east-1" 17 None None None [] [] []
    (mkBranch "b1" Js.JNull) [].

Definition moved_props : NeonProjectProps :=
  mkProps None None (Some "db") (Some "aws-eu-central-1") (Some 16)
    (Some "dev") None None None.

Lemma update_keeps_the_project_witness :
  NeonProject Samples.createPhysicalName AdoptSetting.formatRole
    AdoptSetting.formatConnectionUri AdoptSetting.connection_of_uri
    (mkContext Update (Some recorded_project) Samples.root) "db"
    AdoptSetting.unnamed_project
  = NeonProject Samples.createPhysicalName AdoptSetting.formatRole
      AdoptSetting.formatConnectionUri AdoptSetting.connection_of_uri
      (mkContext Update (Some recorded_project) Samples.root) "db"
      moved_props.
Proof.
  apply (proj1 (update_keeps_the_project Samples.createPhysicalName
                  AdoptSetting.formatRole AdoptSetting.formatConnectionUri
                  AdoptSetting.connection_of_uri
                  (mkContext Update (Some recorded_project) Samples.root) "db"
                  AdoptSetting.unnamed_project recorded_project
                  ltac:(reflexivity) ltac:(reflexivity))).
  repeat split.
Defined.

(** In the delete phase of NeonProject an error of the delete request
    with a status other than 404 is raised, under the message "Failed
    to delete project: " followed by the error's message, and the
    destroyed state is not reported; an answer without an error is a
    success whatever its status. *)
Theorem refused_project_delete_is_raised :
  forall createPhysicalName formatRole formatConnectionUri connection_of_uri
         returns (o : Oracle NeonE) hist this id props previous,
    phase this = Delete ->
    delete props <> Some false ->
    output this = Some previous ->
    out_id previous <> "" ->
    let handler :=
      NeonProject createPhysicalName formatRole formatConnectionUri
        connection_of_uri this id props in
    let request := DeleteProject (out_id previous) in
    (forall message status,
        o _ hist request = inr (mkDeleteResponse (Some message) status) ->
        status <> 404 ->
        run returns o handler hist
        = (Threw (Js.new_Error ("Failed to delete project: " ++ message)),
           [Requested request]))
    /\ (forall status,
           o _ hist request = inr (mkDeleteResponse None status) ->
           run returns o handler hist = (Returned Destroyed, [Requested request]))
    /\ (forall e,
           o _ hist request = inl e ->
           run returns o handler hist = (Threw e, [Requested request])).
Proof.
  intros cpn fr fc cu returns o hist this id props previous
         Hphase Hdelete Hout Hne handler request.
  subst handler request.
  unfold NeonProject. rewrite Hphase, Hout. cbn [option_map].
  rewrite (truthy_nonempty _ Hne), (is_false_other _ Hdelete).
  cbn [negb andb Js.nullish]. unfold await. cbn [bind run].
  split; [ | split ].
  - intros message status Ho Hstatus. rewrite Ho.
    cbn [bind run delete_error delete_status].
    destruct (Z.eqb_spec status 404); [ contradiction | ]. reflexivity.
  - intros status Ho. rewrite Ho. reflexivity.
  - intros e Ho. rewrite Ho. reflexivity.
Qed.

(** A provider that refuses every delete with a server error. *)
Definition refusing : Oracle NeonE :=
  fun X hist ev =>
    match ev in NeonE X return X with
    | DeleteProject _ => inr (mkDeleteResponse (Some "locked") 500)
    | ev' => ambiguous _ hist ev'
    end.

Lemma refused_project_delete_is_raised_witness :
  run true refusing
      (NeonProject Samples.createPhysicalName AdoptSetting.formatRole
         AdoptSetting.formatConnectionUri AdoptSetting.connection_of_uri
         (mkContext Delete (Some recorded_project) Samples.root) "db"
         AdoptSetting.unnamed_project) []
  = (Threw (Js.new_Error ("Failed to delete project: " ++ "locked")),
     [Requested (DeleteProject "p1")]).
Proof.
  apply (proj1 (refused_project_delete_is_raised Samples.createPhysicalName
                  AdoptSetting.formatRole AdoptSetting.formatConnectionUri
                  AdoptSetting.connection_of_uri true refusing []
                  (mkContext Delete (Some recorded_project) Samples.root) "db"
                  AdoptSetting.unnamed_project recorded_project
                  ltac:(reflexivity) ltac:(discriminate) ltac:(reflexivity)
                  ltac:(discriminate))
           "locked" 500).
  - reflexivity.
  - discriminate.
Defined.

End NeonLifecycle.

(* ================================================================== *)
(** ** Stripe: updates and refused deletes *)
(* ================================================================== *)

Module StripeLifecycle.

Import Stripe.

(** The update request of a rate card. *)
Definition card_update (id : string) (props : RateCardProps)
  : StripeE (Js.Error + payload KRateCard) :=
  Request KRateCard POST ("/v2/billing/rate_cards/" ++ id)
    (Some (Js.JObj ([("display_name", Js.JStr (displayName props))]
                      ++ Js.field "lookup_key" Js.JStr (lookupKey props)
                      ++ Js.field "metadata" metadata_json (metadata props)))).

(** Props of a rate card that differ only in what is fixed at
    creation. *)
Definition same_card_update (props props' : RateCardProps) : Prop :=
  displayName props = displayName props'
  /\ lookupKey props = lookupKey props'
  /\ metadata props = metadata props'
  /\ rcp_apiKey props = rcp_apiKey props'.

(** Props of a rate that differ only in the rate card and the metered
    item. *)
Definition same_rate_update (props props' : RateProps) : Prop :=
  rp_unitAmount props = rp_unitAmount props'
  /\ tiers props = tiers props'
  /\ tiersMode props = tiersMode props'
  /\ rp_metadata props = rp_metadata props'
  /\ rp_apiKey props = rp_apiKey props'.

(** The update request of a rate: the amounts, the tiers mode and the
    metadata, for the rate under its rate card. *)
Definition rate_update (rateCardId id : string) (props : RateProps)
  : StripeE (Js.Error + payload KRate) :=
  Request KRate POST
    ("/v2/billing/rate_cards/" ++ rateCardId ++ "/rates/" ++ id)
    (Some
       (Js.JObj
          (Js.field "unit_amount" Js.JStr
             (option_map JsNumber.String_number (rp_unitAmount props))
             ++ Js.field "tiers"
                  (fun ts => Js.JArr (map tier_json (map apiTier ts)))
                  (tiers props)
             ++ Js.field "tiers_mode" Js.JStr (tiersMode props)
             ++ Js.field "metadata" metadata_json (rp_metadata props)))).

(** The props give a unit amount or tiers, and not both. *)
Definition priced (props : RateProps) : Prop :=
  Validation.hasTiers props = negb (Validation.hasUnitAmount props).

(** The update phase of RateCard makes one request, to the recorded
    card, with the display name, the lookup key and the metadata: the
    currency, the service interval, its count and the tax behaviour of
    the props are not looked at, so a change of them alone changes
    nothing in what the handler does.  The update phase of Rate, for
    props that give a unit amount or tiers and not both, makes one
    request, to the recorded rate under the recorded rate card, with
    the amounts, the tiers mode and the metadata: the rate card and
    the metered item of the props are not looked at. *)
Theorem update_ignores_what_creation_fixed :
  forall env,
    (forall this id props previous,
        phase this = Update ->
        output this = Some previous ->
        rco_id previous <> "" ->
        (forall props',
            same_card_update props props' ->
            RateCard env this id props = RateCard env this id props')
        /\ (forall client returns (o : Oracle StripeE) hist,
               createStripeV2Client (option_map inr (rcp_apiKey props)) env
               = inr client ->
               snd (run returns o (RateCard env this id props) hist)
               = [Requested (card_update (rco_id previous) props)]))
    /\ (forall this id props previous,
          phase this = Update ->
          output this = Some previous ->
          ro_id previous <> "" ->
          (forall props',
              same_rate_update props props' ->
              Rate env this id props = Rate env this id props')
          /\ (forall client returns (o : Oracle StripeE) hist,
                 createStripeV2Client (option_map inr (rp_apiKey props)) env
                 = inr client ->
                 priced props ->
                 snd (run returns o (Rate env this id props) hist)
                 = [Requested
                      (rate_update (ro_rateCard previous) (ro_id previous)
                         props)])).
Proof.
  intros env. split.
  - intros this id props previous Hphase Hout Hne. split.
    + intros props' (Hname & Hkey & Hmeta & Hapi).
      unfold RateCard. rewrite Hapi.
      destruct (createStripeV2Client _ env); [ reflexivity | ].
      rewrite Hphase, Hout. cbn [phase_eqb option_map].
      rewrite (truthy_nonempty _ Hne). cbn [andb].
      rewrite Hname, Hkey, Hmeta. reflexivity.
    + intros client returns o hist Hclient.
      unfold RateCard. rewrite Hclient, Hphase, Hout.
      cbn [phase_eqb option_map].
      rewrite (truthy_nonempty _ Hne). cbn [andb Js.nullish].
      unfold rateCards_update, await, card_update. cbn [bind try_catch run].
      destruct (o _ hist _) as [e | card]; reflexivity.
  - intros this id props previous Hphase Hout Hne. split.
    + intros props' (Hunit & Htiers & Hmode & Hmeta & Hapi).
      unfold Rate. rewrite Hapi.
      destruct (createStripeV2Client _ env); [ reflexivity | ].
      rewrite Hphase, Hout. cbn [phase_eqb option_map].
      rewrite (truthy_nonempty _ Hne). cbn [andb].
      rewrite Hunit, Htiers, Hmode, Hmeta. reflexivity.
    + intros client returns o hist Hclient Hpriced.
      unfold priced, Validation.hasTiers, Validation.hasUnitAmount in Hpriced.
      unfold Rate. rewrite Hclient, Hphase, Hout.
      cbn [phase_eqb option_map].
      rewrite (truthy_nonempty _ Hne). cbn [andb Js.nullish].
      rewrite Hpriced.
      destruct (match rp_unitAmount props with Some _ => true | None => false end);
        cbn [negb andb];
        unfold rates_update, await, rate_update; cbn [bind try_catch run];
        destruct (tiers props) as [ts | ]; cbn [option_map Js.field];
        destruct (o _ hist _) as [e | rate]; reflexivity.
Qed.

Definition recorded_card : RateCardOutput :=
  mapV2RateCardToOutput (Samples.card "rc_2" (Some "storage")).

Definition usd_card : RateCardProps :=
  mkRateCardProps "Storage" "usd" None None None (Some "storage") None
    None None.

Definition eur_card : RateCardProps :=
  mkRateCardProps "Storage" "eur" (Some "year") (Some 2) (Some "inclusive")
    (Some "storage") None None (Some true).

Lemma update_ignores_what_creation_fixed_witness :
  RateCard (Some "sk_test") (mkContext Update (Some recorded_card) Samples.root)
    "card" usd_card
  = RateCard (Some "sk_test")
      (mkContext Update (Some recorded_card) Samples.root) "card" eur_card.
Proof.
  apply (proj1 (proj1 (update_ignores_what_creation_fixed (Some "sk_test"))
                  (mkContext Update (Some recorded_card) Samples.root)
                  "card" usd_card recorded_card
                  ltac:(reflexivity) ltac:(reflexivity) ltac:(discriminate))).
  repeat split.
Defined.

(** A Stripe error that does not report a missing resource. *)
Definition refusal (e : Js.Error) : Prop :=
  is_404 e = false /\ Js.is_string (Js.err_code e) "resource_missing" = false.

Lemma refusal_is_rethrown (e : Js.Error) (resourceType : string) id :
  refusal e -> handleStripeV2DeleteError e resourceType id = Some e.
Proof.
  intros [H404 Hcode]. unfold handleStripeV2DeleteError.
  unfold is_404 in H404. rewrite Hcode. cbn [orb].
  rewrite H404. reflexivity.
Qed.

(** The delete requests of the Stripe handlers. *)
Definition card_delete (id : string) : StripeE (Js.Error + payload KDeleted) :=
  Request KDeleted DELETE ("/v2/billing/rate_cards/" ++ id) None.

Definition rate_delete (rateCardId id : string)
  : StripeE (Js.Error + payload KDeleted) :=
  Request KDeleted DELETE
    ("/v2/billing/rate_cards/" ++ rateCardId ++ "/rates/" ++ id) None.

Definition plan_delete (id : string)
  : StripePlans.PlanE (Js.Error + StripePlans.payload StripePlans.KDeleted) :=
  StripePlans.Request StripePlans.KDeleted DELETE
    ("/v2/billing/pricing_plans/" ++ id) None.

Definition component_delete (pricingPlanId id : string)
  : StripePlans.PlanE (Js.Error + StripePlans.payload StripePlans.KDeleted) :=
  StripePlans.Request StripePlans.KDeleted DELETE
    ("/v2/billing/pricing_plans/" ++ pricingPlanId ++ "/components/" ++ id)
    None.

(** The props of a component name the rate card or the license fee
    that their type asks for. *)
Definition component_complete (props : StripePlans.PricingPlanComponentProps)
  : Prop :=
  String.eqb (StripePlans.pc_type props) "rate_card"
  && negb (Js.truthy (StripePlans.resolve_id rco_id
                        (StripePlans.pc_rateCard props))) = false
  /\ String.eqb (StripePlans.pc_type props) "license_fee"
     && negb (Js.truthy (StripePlans.resolve_id StripePlans.license_fee_id
                           (StripePlans.pc_licenseFee props))) = false.

(** In the delete phase of the Stripe handlers RateCard, Rate,
    PricingPlan and PricingPlanComponent, an error of the delete call
    that does not report a missing resource (no status or statusCode
    404, no code resource_missing) is raised as it is, after the one
    delete request, and the destroyed state is not reported. *)
Theorem refused_stripe_delete_is_raised :
  forall env returns,
    (forall (o : Oracle StripeE) hist this id props previous client error,
        phase this = Delete ->
        createStripeV2Client (option_map inr (rcp_apiKey props)) env
        = inr client ->
        output this = Some previous ->
        rco_id previous <> "" ->
        o _ hist (card_delete (rco_id previous)) = inl error ->
        refusal error ->
        run returns o (RateCard env this id props) hist
        = (Threw error, [Requested (card_delete (rco_id previous))]))
    /\ (forall (o : Oracle StripeE) hist this id props previous client error,
          phase this = Delete ->
          createStripeV2Client (option_map inr (rp_apiKey props)) env
          = inr client ->
          output this = Some previous ->
          ro_id previous <> "" ->
          ro_rateCard previous <> "" ->
          o _ hist (rate_delete (ro_rateCard previous) (ro_id previous))
          = inl error ->
          refusal error ->
          run returns o (Rate env this id props) hist
          = (Threw error,
             [Requested (rate_delete (ro_rateCard previous) (ro_id previous))]))
    /\ (forall (o : Oracle StripePlans.PlanE) hist this id props previous
               client error,
          phase this = Delete ->
          createStripeV2Client (option_map inr (StripePlans.pp_apiKey props))
            env = inr client ->
          output this = Some previous ->
          StripePlans.ppo_id previous <> "" ->
          o _ hist (plan_delete (StripePlans.ppo_id previous)) = inl error ->
          refusal error ->
          run returns o (StripePlans.PricingPlan env this id props) hist
          = (Threw error,
             [Requested (plan_delete (StripePlans.ppo_id previous))]))
    /\ (forall (o : Oracle StripePlans.PlanE) hist this id props previous
               client error,
          phase this = Delete ->
          createStripeV2Client (option_map inr (StripePlans.pc_apiKey props))
            env = inr client ->
          component_complete props ->
          output this = Some previous ->
          StripePlans.pco_id previous <> "" ->
          StripePlans.pco_pricingPlan previous <> "" ->
          let request :=
            component_delete (StripePlans.pco_pricingPlan previous)
              (StripePlans.pco_id previous) in
          o _ hist request = inl error ->
          refusal error ->
          run returns o (StripePlans.PricingPlanComponent env this id props) hist
          = (Threw error, [Requested request])).
Proof.
  intros env returns. split; [ | split; [ | split ] ].
  - intros o hist this id props previous client error
           Hphase Hclient Hout Hne Ho Hrefusal.
    unfold RateCard. rewrite Hclient, Hphase, Hout.
    cbn [phase_eqb option_map].
    rewrite (truthy_nonempty _ Hne). cbn [Js.nullish].
    unfold delete_remote, rateCards_del, await, card_delete in *.
    cbn [bind try_catch run]. cbn [payload] in *. rewrite Ho.
    cbn [bind try_catch run].
    rewrite (proj1 Hrefusal), (refusal_is_rethrown _ _ _ Hrefusal).
    reflexivity.
  - intros o hist this id props previous client error
           Hphase Hclient Hout Hne Hne' Ho Hrefusal.
    unfold Rate. rewrite Hclient, Hphase, Hout.
    cbn [phase_eqb option_map].
    rewrite (truthy_nonempty _ Hne), (truthy_nonempty _ Hne').
    cbn [andb Js.nullish].
    unfold delete_remote, rates_del, await, rate_delete in *.
    cbn [bind try_catch run]. cbn [payload] in *. rewrite Ho.
    cbn [bind try_catch run].
    rewrite (proj1 Hrefusal), (refusal_is_rethrown _ _ _ Hrefusal).
    reflexivity.
  - intros o hist this id props previous client error
           Hphase Hclient Hout Hne Ho Hrefusal.
    unfold StripePlans.PricingPlan. rewrite Hclient, Hphase, Hout.
    cbn [phase_eqb option_map].
    rewrite (truthy_nonempty _ Hne). cbn [Js.nullish].
    unfold StripePlans.delete_remote, StripePlans.pricingPlans_del, await,
      plan_delete in *.
    cbn [bind try_catch run]. cbn [StripePlans.payload] in *. rewrite Ho.
    cbn [bind try_catch run].
    rewrite (proj1 Hrefusal), (refusal_is_rethrown _ _ _ Hrefusal).
    reflexivity.
  - intros o hist this id props previous client error
           Hphase Hclient [Hcard Hfee] Hout Hne Hne' request Ho Hrefusal.
    subst request.
    unfold StripePlans.PricingPlanComponent.
    rewrite Hclient, Hcard, Hfee, Hphase, Hout.
    cbn [phase_eqb option_map].
    rewrite (truthy_nonempty _ Hne), (truthy_nonempty _ Hne').
    cbn [andb Js.nullish].
    unfold StripePlans.delete_remote, StripePlans.pricingPlanComponents_del,
      await, component_delete in *.
    cbn [bind try_catch run]. cbn [StripePlans.payload] in *. rewrite Ho.
    cbn [bind try_catch run].
    rewrite (proj1 Hrefusal), (refusal_is_rethrown _ _ _ Hrefusal).
    reflexivity.
Qed.

Definition in_use : Js.Error :=
  Js.mkError Js.ErrorC "rate card is in use" (Some 400) None
    (Some "resource_in_use") None.

Lemma refused_stripe_delete_is_raised_witness :
  run true (Samples.rejecting in_use)
      (RateCard (Some "sk_test")
         (mkContext Delete (Some recorded_card) Samples.root) "card" usd_card)
      []
  = (Threw in_use, [Requested (card_delete "rc_2")]).
Proof.
  apply (proj1 (refused_stripe_delete_is_raised (Some "sk_test") true)
           (Samples.rejecting in_use) []
           (mkContext Delete (Some recorded_card) Samples.root) "card"
           usd_card recorded_card (mkClient "sk_test") in_use).
  - reflexivity.
  - reflexivity.
  - reflexivity.
  - discriminate.
  - reflexivity.
  - split; reflexivity.
Defined.

End StripeLifecycle.

(* ================================================================== *)
(** ** Stripe: pricing plans and their components *)
(* ================================================================== *)

Module Plans.

Import Stripe StripePlans.

(** The requests of the PricingPlan handler in its create phase. *)
Definition plan_create (props : PricingPlanProps)
  : PlanE (Js.Error + payload KPlan) :=
  Request KPlan POST "/v2/billing/pricing_plans"
    (Some (Js.JObj
             ([("display_name", Js.JStr (pp_displayName props));
               ("currency", Js.JStr (pp_currency props));
               ("tax_behavior",
                 Js.JStr (Js.nullish (pp_taxBehavior props) "exclusive"))]
                ++ Js.field "lookup_key" Js.JStr (pp_lookupKey props)
                ++ Js.field "metadata" metadata_json (pp_metadata props)))).

Definition plan_activate (id version : string)
  : PlanE (Js.Error + payload KPlan) :=
  Request KPlan POST ("/v2/billing/pricing_plans/" ++ id)
    (Some (Js.JObj [("live_version", Js.JStr version)])).

(** Creating a pricing plan without a live version takes one request
    and reports the plan the provider answers with.  With a live
    version it takes two: the plan is created, and then the plan of
    the id that the provider answered with is updated with the live
    version alone; the output is the plan of the second answer.  When
    that second request is refused with an error that is no conflict,
    the error is raised and the plan of the first request stays
    created. *)
Theorem live_version_is_set_after_creation :
  forall env returns (o : Oracle PlanE) hist this id props client created,
    phase this = Create ->
    createStripeV2Client (option_map inr (pp_apiKey props)) env = inr client ->
    o _ hist (plan_create props) = inr created ->
    let handler := PricingPlan env this id props in
    let hist' := (hist ++ [Requested (plan_create props)])%list in
    (Js.truthy (pp_liveVersion props) = false ->
     run returns o handler hist
     = (Returned (Output (mapV2PricingPlanToOutput created)),
        [Requested (plan_create props)]))
    /\ (forall version,
           pp_liveVersion props = Some version ->
           version <> "" ->
           let activate := plan_activate (plan_id created) version in
           (forall activated,
               o _ hist' activate = inr activated ->
               run returns o handler hist
               = (Returned (Output (mapV2PricingPlanToOutput activated)),
                  [Requested (plan_create props); Requested activate]))
           /\ (forall error,
                  o _ hist' activate = inl error ->
                  isStripeV2ConflictError error = false ->
                  run returns o handler hist
                  = (Threw error,
                     [Requested (plan_create props); Requested activate]))).
Proof.
  intros env returns o hist this id props client created
         Hphase Hclient Hcreate handler hist'.
  subst handler hist'.
  unfold PricingPlan. rewrite Hclient, Hphase. cbn [phase_eqb andb].
  unfold pricingPlans_create, pricingPlans_update, await, plan_create in *.
  cbn [bind try_catch run]. cbn [payload] in *. rewrite Hcreate.
  cbn [bind try_catch run].
  split.
  - intros Hnone. rewrite Hnone. reflexivity.
  - intros version Hversion Hne.
    unfold plan_activate. rewrite Hversion, (truthy_nonempty _ Hne).
    cbn [Js.field app bind try_catch run].
    split.
    + intros activated Ho. rewrite Ho. reflexivity.
    + intros error Ho Hconflict. rewrite Ho.
      cbn [bind try_catch run]. rewrite Hconflict. reflexivity.
Qed.

Definition draft : V2PricingPlan :=
  mkV2Plan "pp_1" "Pro" "usd" "exclusive" None None (Some "1") None
    1700000000 1700000000 false.

Definition live : V2PricingPlan :=
  mkV2Plan "pp_1" "Pro" "usd" "exclusive" None (Some "1") (Some "1") None
    1700000000 1700000001 false.

(** A provider that creates the plan [draft] and answers every other
    request on plans with the plan [live]. *)
Definition activating : Oracle PlanE :=
  fun X hist ev =>
    match ev in PlanE X return X with
    | Request KPlan POST "/v2/billing/pricing_plans" _ => inr draft
    | Request KPlan _ _ _ => inr live
    | Request KPlanList _ _ _ => inr []
    | Request KComponent _ _ _ => inl (Js.new_Error "not expected")
    | Request KDeleted _ _ _ => inl (Js.new_Error "not expected")
    end.

Definition pro_plan : PricingPlanProps :=
  mkPlanProps "Pro" "usd" None None (Some "latest") None None None.

Lemma live_version_is_set_after_creation_witness :
  run true activating
      (PricingPlan (Some "sk_test") (mkContext Create None Samples.root)
         "plan" pro_plan) []
  = (Returned (Output (mapV2PricingPlanToOutput live)),
     [Requested (plan_create pro_plan);
      Requested (plan_activate "pp_1" "latest")]).
Proof.
  apply (proj1 (proj2 (live_version_is_set_after_creation (Some "sk_test") true
                         activating [] (mkContext Create None Samples.root)
                         "plan" pro_plan (mkClient "sk_test") draft
                         ltac:(reflexivity) ltac:(reflexivity)
                         ltac:(reflexivity))
                  "latest" ltac:(reflexivity) ltac:(discriminate))).
  reflexivity.
Defined.

(** The PricingPlanComponent handler checks, before it looks at the
    phase, that the props name the rate card (for the type rate_card)
    or the license fee (for the type license_fee): props that lack it
    make the handler fail without a request in every phase, the delete
    phase included, so a component recorded with such props is not
    deleted.  The Rate handler looks at the phase first: its delete
    phase reads nothing of the props but the API key, and runs the
    same for props that its validation would refuse. *)
Theorem validation_before_or_after_delete :
  forall env this id,
    (forall returns (o : Oracle PlanE) hist props client,
        createStripeV2Client (option_map inr (pc_apiKey props)) env
        = inr client ->
        (pc_type props = "rate_card" ->
         Js.truthy (resolve_id rco_id (pc_rateCard props)) = false ->
         run returns o (PricingPlanComponent env this id props) hist
         = (Threw rateCard_required, []))
        /\ (pc_type props = "license_fee" ->
            Js.truthy (resolve_id license_fee_id (pc_licenseFee props)) = false ->
            run returns o (PricingPlanComponent env this id props) hist
            = (Threw licenseFee_required, [])))
    /\ (forall that id' props props',
          phase that = Delete ->
          rp_apiKey props = rp_apiKey props' ->
          Rate env that id' props = Rate env that id' props').
Proof.
  intros env this id. split.
  - intros returns o hist props client Hclient.
    unfold PricingPlanComponent. rewrite Hclient.
    split; intros Htype Hmissing; rewrite Htype, Hmissing; reflexivity.
  - intros that id' props props' Hphase Hapi.
    unfold Rate. rewrite Hapi, Hphase. reflexivity.
Qed.

Definition recorded_component : PricingPlanComponentOutput :=
  mkComponentOutput "ppc_1" "pp_1" "rate_card" (Some "rc_2") None None
    1700000000 1700000000 false.

Definition card_component : PricingPlanComponentProps :=
  mkComponentProps (inl "pp_1") "rate_card" None None None None.

Lemma validation_before_or_after_delete_witness :
  run true activating
      (PricingPlanComponent (Some "sk_test")
         (mkContext Delete (Some recorded_component) Samples.root)
         "component" card_component) []
  = (Threw rateCard_required, []).
Proof.
  apply (proj1 (proj1 (validation_before_or_after_delete (Some "sk_test")
                         (mkContext Delete (Some recorded_component)
                            Samples.root)
                         "component")
                  true activating [] card_component (mkClient "sk_test")
                  ltac:(reflexivity))).
  - reflexivity.
  - reflexivity.
Defined.

End Plans.

(* ================================================================== *)
(** ** Tunnel routes: lookups and the ends of the listing *)
(* ================================================================== *)

Module RouteListing.

Import Cloudflare ListRoutes.

(** The test of [findRouteByNetworkAndTunnel]. *)
Definition matches (network tunnelId : string) (route : CloudflareRoute)
  : bool :=
  String.eqb (route_network route) network
  && String.eqb (route_tunnel_id route) tunnelId.

(** [findRouteByNetworkAndTunnel] reads every page of the listing and
    returns the first route, in the order of the listing, whose
    network and tunnel id are both the ones asked for; it returns
    [null] exactly when no listed route has both. *)
Theorem lookup_returns_the_first_match :
  forall handleApiError returns (o : Oracle CloudflareE) api hist pages fuel
         network tunnelId,
    serves o api hist 1 pages ->
    complete pages ->
    (List.length pages <= fuel)%nat ->
    let found := List.find (matches network tunnelId) (gathered pages) in
    run returns o
        (findRouteByNetworkAndTunnel handleApiError fuel api network tunnelId)
        hist
    = (Returned found, requests api 1 (List.length pages))
    /\ (forall route,
           found = Some route ->
           In route (gathered pages)
           /\ route_network route = network
           /\ route_tunnel_id route = tunnelId)
    /\ (found = None ->
        forall route,
          In route (gathered pages) ->
          route_network route <> network \/ route_tunnel_id route <> tunnelId).
Proof.
  intros h returns o api hist pages fuel network tunnelId Hs Hc Hf found.
  split; [ | split ].
  - unfold findRouteByNetworkAndTunnel, listTunnelRoutes.
    rewrite run_bind.
    rewrite (loop_unlimited h returns o api pages fuel [] 1 hist Hs Hc Hf).
    cbn [and_then app run]. rewrite app_nil_r. reflexivity.
  - intros route Hfound. apply find_some in Hfound.
    destruct Hfound as [Hin Hm]. unfold matches in Hm.
    apply andb_true_iff in Hm. destruct Hm as [Hn Ht].
    apply String.eqb_eq in Hn. apply String.eqb_eq in Ht. auto.
  - intros Hnone route Hin.
    pose proof (find_none _ _ Hnone route Hin) as Hm. unfold matches in Hm.
    apply andb_false_iff in Hm. destruct Hm as [Hn | Ht].
    + left. apply String.eqb_neq. exact Hn.
    + right. apply String.eqb_neq. exact Ht.
Qed.

Lemma lookup_returns_the_first_match_witness :
  run true (Samples.listing Samples.two_pages)
      (findRouteByNetworkAndTunnel Samples.handleApiError 2 Samples.api
         "172.16.0.0/12" "t2") []
  = (Returned (Some Samples.r3), requests Samples.api 1 2).
Proof.
  apply (proj1 (lookup_returns_the_first_match Samples.handleApiError true
                  (Samples.listing Samples.two_pages) Samples.api []
                  Samples.two_pages 2 "172.16.0.0/12" "t2"
                  ltac:(simpl; split; [ reflexivity
                                      | split; [ reflexivity | exact I ] ])
                  ltac:(simpl; repeat split; reflexivity)
                  ltac:(simpl; lia))).
Defined.

Lemma requests_snoc (api : CloudflareApi) :
  forall n page,
    (requests api page n
       ++ [Requested (page_request api (page + Z.of_nat n))])%list
    = requests api page (S n).
Proof.
  induction n as [ | n IH]; intros page.
  - cbn [requests app]. rewrite Z.add_0_r. reflexivity.
  - cbn [requests app]. specialize (IH (page + 1)).
    replace (page + 1 + Z.of_nat n) with (page + Z.of_nat (S n)) in IH by lia.
    rewrite IH. reflexivity.
Qed.

(** Successful pages that all announce a further page. *)
Definition unfinished (pages : list Page) : Prop :=
  Forall (fun p => ok (head p) = true /\ more p = true) pages.

Section Ends.

Variable handleApiError : ResponseHead -> string -> string -> string -> Js.Error.
Variable returns : bool.
Variable o : Oracle CloudflareE.
Variable api : CloudflareApi.

(** After unfinished pages the loop stands at the next page with their
    routes gathered. *)
Lemma loop_after_unfinished :
  forall pages fuel routes page hist,
    serves o api hist page pages ->
    unfinished pages ->
    run returns o
        (listTunnelRoutes_loop handleApiError (List.length pages + fuel) api
           None routes page) hist
    = (let (out, t) :=
         run returns o
             (listTunnelRoutes_loop handleApiError fuel api None
                (routes ++ gathered pages)
                (page + Z.of_nat (List.length pages)))
             (hist ++ requests api page (List.length pages))%list in
       (out, (requests api page (List.length pages) ++ t)%list)).
Proof.
  induction pages as [ | p rest IH]; intros fuel routes page hist Hs Hu.
  - cbn [List.length requests gathered map List.concat Nat.add app].
    rewrite !app_nil_r, Z.add_0_r.
    destruct (run returns o _ hist); reflexivity.
  - destruct Hs as [Hp Hs]. inversion Hu as [ | p' rest' [Hok Hmore] Hu' ]; subst.
    cbn [List.length Nat.add].
    rewrite (run_page handleApiError returns o api p _ None routes page hist
               Hp Hok).
    unfold and_then. cbn [Js.truthy_number andb]. cbv beta iota zeta.
    rewrite Hmore.
    rewrite (IH fuel _ _ _ Hs Hu').
    replace (page + 1 + Z.of_nat (List.length rest))
      with (page + Z.of_nat (S (List.length rest))) by lia.
    assert (Hg : ((routes ++ list_result (json p)) ++ gathered rest
                  = routes ++ gathered (p :: rest))%list)
      by (unfold gathered; simpl; rewrite app_assoc; reflexivity).
    assert (Hh : ((hist ++ [Requested (page_request api page)])
                    ++ requests api (page + 1) (List.length rest)
                  = hist ++ Requested (page_request api page)
                      :: requests api (page + 1) (List.length rest))%list)
      by (rewrite <- app_assoc; reflexivity).
    cbn [body] in *. rewrite Hg, Hh. cbn [requests app].
    destruct (run returns o _ _); reflexivity.
Qed.

Lemma run_refused_page p fuel limit routes page hist :
  o _ hist (page_request api page) = inr p ->
  ok (head p) = false ->
  run returns o
      (listTunnelRoutes_loop handleApiError (S fuel) api limit routes page) hist
  = (Threw (handleApiError (head p) "list" "route" "all"),
     [Requested (page_request api page)]).
Proof.
  intros Hp Hok. rewrite loop_unfold, run_bind.
  unfold await. cbn [run].
  match goal with
  | |- context [o ?T hist ?ev] =>
      replace (o T hist ev) with (@inr Js.Error Page p)
        by (symmetry; exact Hp)
  end.
  cbn [run]. unfold and_then. cbn [body] in *. rewrite Hok. reflexivity.
Qed.

End Ends.

(** When a page of the listing is refused, [listTunnelRoutes] raises
    the error of [handleApiError] for that response and returns none
    of the routes of the pages it read before. *)
Theorem refused_page_ends_the_listing :
  forall handleApiError returns (o : Oracle CloudflareE) api hist pages bad fuel,
    serves o api hist 1 (pages ++ [bad])%list ->
    unfinished pages ->
    ok (head bad) = false ->
    (List.length pages < fuel)%nat ->
    run returns o (listTunnelRoutes handleApiError fuel api None) hist
    = (Threw (handleApiError (head bad) "list" "route" "all"),
       requests api 1 (S (List.length pages))).
Proof.
  intros h returns o api hist pages bad fuel Hs Hu Hbad Hfuel.
  assert (Hsplit : serves o api hist 1 pages
                   /\ o _ (hist ++ requests api 1 (List.length pages))%list
                        (page_request api (1 + Z.of_nat (List.length pages)))
                      = inr bad).
  { clear Hu Hfuel. revert hist Hs. generalize 1 as page.
    induction pages as [ | p rest IH]; intros page hist Hs.
    - destruct Hs as [Hb _]. split; [ exact I | ].
      cbn [List.length requests]. rewrite app_nil_r, Z.add_0_r. exact Hb.
    - destruct Hs as [Hp Hs]. destruct (IH _ _ Hs) as [Hrest Hb].
      split; [ split; assumption | ].
      cbn [List.length requests].
      replace (page + Z.of_nat (S (List.length rest)))
        with (page + 1 + Z.of_nat (List.length rest)) by lia.
      rewrite <- app_assoc in Hb. exact Hb. }
  destruct Hsplit as [Hs' Hb].
  unfold listTunnelRoutes.
  replace fuel with (List.length pages + S (fuel - S (List.length pages)))%nat
    by lia.
  rewrite (loop_after_unfinished h returns o api pages _ [] 1 hist Hs' Hu).
  rewrite (run_refused_page h returns o api bad _ None _ _ _ Hb Hbad).
  rewrite requests_snoc. reflexivity.
Qed.

Definition refused_page : FetchResponse RouteList :=
  mkResponse (mkHead 502 "Bad Gateway" "")
    (mkRouteList [] (mkInfo 2 100 201)).

Lemma refused_page_ends_the_listing_witness :
  run true (Samples.listing [Samples.page [Samples.r1; Samples.r2] 1 201;
                             refused_page])
      (listTunnelRoutes Samples.handleApiError 5 Samples.api None) []
  = (Threw (Samples.handleApiError (head refused_page) "list" "route" "all"),
     requests Samples.api 1 2).
Proof.
  apply (refused_page_ends_the_listing Samples.handleApiError true
           (Samples.listing [Samples.page [Samples.r1; Samples.r2] 1 201;
                             refused_page])
           Samples.api [] [Samples.page [Samples.r1; Samples.r2] 1 201]
           refused_page 5).
  - simpl. split; [ reflexivity | split; [ reflexivity | exact I ] ].
  - repeat constructor.
  - reflexivity.
  - simpl. lia.
Defined.

(** [listTunnelRoutes] has no bound of its own on the number of pages:
    as long as every page announces a further one (and no limit is
    reached), it asks for the next, so against a provider that always
    does it uses up every budget of iterations and never returns. *)
Theorem listing_follows_every_announced_page :
  forall handleApiError returns (o : Oracle CloudflareE) api hist pages,
    serves o api hist 1 pages ->
    unfinished pages ->
    run returns o
        (listTunnelRoutes handleApiError (List.length pages) api None) hist
    = (OutOfFuel, requests api 1 (List.length pages)).
Proof.
  intros h returns o api hist pages Hs Hu.
  unfold listTunnelRoutes.
  replace (List.length pages) with (List.length pages + 0)%nat at 1 by lia.
  rewrite (loop_after_unfinished h returns o api pages 0 [] 1 hist Hs Hu).
  cbn [listTunnelRoutes_loop run]. rewrite app_nil_r. reflexivity.
Qed.

Lemma listing_follows_every_announced_page_witness :
  run true (Samples.listing [Samples.page [Samples.r1] 1 201;
                             Samples.page [Samples.r2] 1 201])
      (listTunnelRoutes Samples.handleApiError 2 Samples.api None) []
  = (OutOfFuel, requests Samples.api 1 2).
Proof.
  apply (listing_follows_every_announced_page Samples.handleApiError true
           (Samples.listing [Samples.page [Samples.r1] 1 201;
                             Samples.page [Samples.r2] 1 201])
           Samples.api []
           [Samples.page [Samples.r1] 1 201; Samples.page [Samples.r2] 1 201]).
  - simpl. split; [ reflexivity | split; [ reflexivity | exact I ] ].
  - repeat constructor.
Defined.

(** A negative limit is taken for a limit that is reached at once:
    [listTunnelRoutes] reads the first page only and returns its
    routes without the last [-limit] of them. *)
Theorem negative_limit_cuts_the_first_page :
  forall handleApiError returns (o : Oracle CloudflareE) api hist fuel limit p,
    limit < 0 ->
    o _ hist (page_request api 1) = inr p ->
    ok (head p) = true ->
    let routes := list_result (json p) in
    run returns o (listTunnelRoutes handleApiError (S fuel) api (Some limit)) hist
    = (Returned (firstn (List.length routes - Z.to_nat (- limit)) routes),
       [Requested (page_request api 1)]).
Proof.
  intros h returns o api hist fuel limit p Hneg Hp Hok routes.
  unfold listTunnelRoutes.
  rewrite (run_page h returns o api p fuel (Some limit) [] 1 hist Hp Hok).
  unfold and_then. cbv beta iota zeta. cbn [app Js.nullish].
  assert (Ht : Js.truthy_number (Some limit) = true).
  { simpl. destruct (Z.eqb_spec limit 0); [ lia | reflexivity ]. }
  rewrite Ht. cbn [andb].
  destruct (Z.leb_spec limit (Z.of_nat (List.length (list_result (json p)))));
    [ | lia ].
  cbn [run]. unfold Js.slice0.
  destruct (Z.leb_spec 0 limit); [ lia | ].
  reflexivity.
Qed.

Lemma negative_limit_cuts_the_first_page_witness :
  run true (Samples.listing Samples.two_pages)
      (listTunnelRoutes Samples.handleApiError 1 Samples.api (Some (-1))) []
  = (Returned [Samples.r1], [Requested (page_request Samples.api 1)]).
Proof.
  apply (negative_limit_cuts_the_first_page Samples.handleApiError true
           (Samples.listing Samples.two_pages) Samples.api [] 0 (-1)
           (Samples.page [Samples.r1; Samples.r2] 1 201)).
  - lia.
  - reflexivity.
  - reflexivity.
Defined.

End RouteListing.

(* ================================================================== *)
(** ** WARP profiles: the split tunnel *)
(* ================================================================== *)

Module SplitTunnels.

Import Cloudflare.

(** The path of a PUT request. *)
Definition put_path (e : Entry CloudflareE) : option string :=
  match e with
  | @Requested _ _ (Fetch _ PUT path _) => Some path
  | _ => None
  end.

(** The paths of the PUT requests of a run, in order. *)
Fixpoint put_paths (t : list (Entry CloudflareE)) : list string :=
  match t with
  | [] => []
  | e :: t' =>
      match put_path e with
      | Some path => path :: put_paths t'
      | None => put_paths t'
      end
  end.

(** The list of a policy that a split tunnel configuration is written
    to: the includes for the mode include, the excludes for every
    other mode. *)
Definition split_tunnel_path (api : CloudflareApi) (policyId : string)
           (config : SplitTunnelConfig) : string :=
  policy_path api ++ "/" ++ policyId
    ++ (if String.eqb (split_mode config) "include"
        then "/include" else "/exclude").

(** In the update phase of WarpDeviceProfile, once the PATCH of the
    recorded policy succeeded, a split tunnel configuration of the
    props is written with one PUT request to the include list of that
    policy when its mode is include and to its exclude list for every
    other mode; without a configuration no PUT request is made, so a
    split tunnel that was written before stays as it is. *)
Theorem split_tunnel_is_put_after_the_policy :
  forall handleApiError createPhysicalName returns (o : Oracle CloudflareE)
         api this id props hist previous resp,
    phase this = Update ->
    output this = Some previous ->
    wp_name props = None \/ wp_name props = Some (wo_name previous) ->
    wo_policyId previous <> "" ->
    o _ hist (Fetch KNoBody PATCH
                (policy_path api ++ "/" ++ wo_policyId previous)
                (Some (buildRequestBody (wo_name previous) (wp_settings props))))
    = inr resp ->
    ok (head resp) = true ->
    put_paths
      (snd (run returns o
              (WarpDeviceProfile handleApiError createPhysicalName
                 api this id props) hist))
    = match splitTunnel (wp_settings props) with
      | Some config => [split_tunnel_path api (wo_policyId previous) config]
      | None => []
      end.
Proof.
  intros h cpn returns o api this id props hist previous resp
         Hphase Hout Hname Hne Ho Hok.
  assert (Hn : profile_name cpn this id props = wo_name previous).
  { unfold profile_name. rewrite Hout.
    destruct Hname as [-> | ->]; reflexivity. }
  unfold WarpDeviceProfile. rewrite Hn, Hphase, Hout.
  cbn [phase_eqb option_map].
  unfold Js.is_string. rewrite String.eqb_refl.
  rewrite (truthy_nonempty _ Hne). cbn [negb andb Js.nullish bind].
  unfold updatePolicy, api_patch, await. cbn [bind run].
  answered Ho. rewrite Hok. cbn [negb bind run].
  destruct (splitTunnel (wp_settings props)) as [config | ].
  - unfold updateSplitTunnel, split_tunnel_path, api_put, await.
    destruct (String.eqb (split_mode config) "include"); cbn [bind run].
    + destruct (o _ _ (Fetch KNoBody PUT _ _)) as [e | resp'];
        cbn [bind run snd put_paths put_path];
        [ reflexivity | ].
      destruct (negb (ok (head resp'))); reflexivity.
    + destruct (o _ _ (Fetch KNoBody PUT _ _)) as [e | resp'];
        cbn [bind run snd put_paths put_path];
        [ reflexivity | ].
      destruct (negb (ok (head resp'))); reflexivity.
  - reflexivity.
Qed.

Definition office_routes : SplitTunnelConfig :=
  mkSplitConfig "exclude"
    [mkSplitEntry (Some "10.0.0.0/8") None (Some "Internal");
     mkSplitEntry None (Some "intranet.example.com") None].

Definition tunnelled : WarpSettings :=
  mkWarpSettings None None None None None None None None None None None None
    None None None None (Some office_routes).

Definition corp_profile : WarpDeviceProfileOutput :=
  mkWarpOutput "p9" "corp" UpdatePhase.no_settings 1 2.

Lemma split_tunnel_is_put_after_the_policy_witness :
  put_paths
    (snd (run true (Samples.answering Samples.success)
            (WarpDeviceProfile Samples.handleApiError
               Samples.createPhysicalName Samples.api
               (mkContext Update (Some corp_profile) Samples.root) "corp"
               (mkWarpProps None tunnelled None None)) []))
  = [split_tunnel_path Samples.api "p9" office_routes].
Proof.
  apply (split_tunnel_is_put_after_the_policy Samples.handleApiError
           Samples.createPhysicalName true
           (Samples.answering Samples.success) Samples.api
           (mkContext Update (Some corp_profile) Samples.root) "corp"
           (mkWarpProps None tunnelled None None) [] corp_profile
           (Samples.no_body Samples.success)).
  - reflexivity.
  - reflexivity.
  - left. reflexivity.
  - discriminate.
  - reflexivity.
  - reflexivity.
Defined.

(** The PATCH request of the default profile. *)
(** The PATCH of the account's default policy. *)
Definition default_patch (api : CloudflareApi) (requestBody : Js.Json)
  : CloudflareE (Js.Error + FetchResponse (body KNoBody)) :=
  Fetch KNoBody PATCH ("/accounts/" ++ accountId api ++ "/devices/policy")
    (Some requestBody).

(** An entry of the split tunnel as the default policy is sent it:
    the address when there is one, and the description when it is not
    empty. *)
Definition sent_entry (entry : SplitTunnelEntry) : Js.Json :=
  Js.JObj
    (match entry_address entry with
     | Some address => [("address", Js.JStr address)]
     | None => []
     end
       ++ match entry_description entry with
          | Some description =>
              if String.eqb description "" then []
              else [("description", Js.JStr description)]
          | None => []
          end).

(** The body carries each device setting that is defined under its
    key of the API, and the entries of the split tunnel under
    [include] for the mode include and under [exclude] for every
    other mode. *)
Definition carries_device_settings (body : Js.Json)
           (props : WarpDefault.WarpDefaultProfileProps) : Prop :=
  Js.get "service_mode_v2" body
  = option_map UpdatePhase.service_mode (WarpDefault.serviceModeV2 props)
  /\ Js.get "disable_auto_fallback" body
     = option_map Js.JBool (WarpDefault.disableAutoFallback props)
  /\ Js.get "allow_mode_switch" body
     = option_map Js.JBool (WarpDefault.allowModeSwitch props)
  /\ Js.get "switch_locked" body
     = option_map Js.JBool (WarpDefault.switchLocked props)
  /\ Js.get "tunnel_protocol" body
     = option_map Js.JStr (WarpDefault.tunnelProtocol props)
  /\ Js.get "auto_connect" body
     = option_map Js.JNum (WarpDefault.autoConnect props)
  /\ Js.get "allowed_to_leave" body
     = option_map Js.JBool (WarpDefault.allowedToLeave props)
  /\ Js.get "captive_portal" body
     = option_map Js.JNum (WarpDefault.captivePortal props)
  /\ Js.get "support_url" body
     = option_map Js.JStr (WarpDefault.supportUrl props)
  /\ Js.get "exclude_office_ips" body
     = option_map Js.JBool (WarpDefault.excludeOfficeIps props)
  /\ Js.get "lan_allow_minutes" body
     = option_map Js.JNum (WarpDefault.lanAllowMinutes props)
  /\ Js.get "lan_allow_subnet_size" body
     = option_map Js.JNum (WarpDefault.lanAllowSubnetSize props)
  /\ (forall config,
         WarpDefault.splitTunnel props = Some config ->
         Js.get (if String.eqb (split_mode config) "include"
                 then "include" else "exclude") body
         = Some (Js.JArr (map sent_entry (entries config)))).

Lemma split_entry_sent (entry : SplitTunnelEntry) :
  WarpDefault.split_entry entry = sent_entry entry.
Proof.
  unfold WarpDefault.split_entry, sent_entry.
  destruct entry as [[address | ] host [description | ]];
    cbn [entry_address entry_description Js.truthy Js.field];
    unfold Js.truthy_string;
    try destruct (String.eqb description ""); reflexivity.
Qed.

(** Reads a device setting off the body of the default policy. *)
Ltac device_setting :=
  unfold WarpDefault.deviceSettings;
  repeat first [ rewrite get_field_hit | rewrite get_field_skip by reflexivity ];
  repeat match goal with
         | |- context [match ?v with Some _ => _ | None => _ end] =>
             destruct v; cbn [option_map]
         | |- context [if ?b then _ else _] => destruct b
         end;
  repeat rewrite get_cons_skip by reflexivity;
  try reflexivity.

Lemma deviceSettings_carried (props : WarpDefault.WarpDefaultProfileProps) :
  carries_device_settings (Js.JObj (WarpDefault.deviceSettings props)) props.
Proof.
  unfold carries_device_settings.
  split; [ | repeat split; try (device_setting; fail) ].
  - unfold WarpDefault.deviceSettings. rewrite get_field_hit.
    unfold UpdatePhase.service_mode.
    destruct (WarpDefault.serviceModeV2 props) as [[mode [port | ]] | ];
      cbn [option_map sm_mode sm_port Js.truthy_number Js.field app].
    + destruct (port =? 0); reflexivity.
    + reflexivity.
    + device_setting.
  - intros config Hconfig. unfold WarpDefault.deviceSettings.
    rewrite Hconfig.
    destruct (String.eqb (split_mode config) "include");
      rewrite !get_field_skip by reflexivity;
      rewrite get_cons_hit;
      do 2 f_equal; apply map_ext; intros entry; apply split_entry_sent.
Qed.

(** Outside the delete phase the WarpDefaultProfile handler makes one
    request, a PATCH of the account's default policy.  Its body
    carries each device setting that is defined under its key of the
    API ([service_mode_v2] with the mode, and the port when it is not
    0) and, under [include] or [exclude], the entries of the split
    tunnel; no PUT request is made.  Of an entry the body carries the
    address and the description, never the host: an entry that is
    given by its host alone is sent as an empty object. *)
Theorem default_profile_is_one_patch :
  forall handleApiError returns (o : Oracle CloudflareE) api hist this id props,
    phase this <> Delete ->
    (exists body rest,
        snd (run returns o
               (WarpDefault.WarpDefaultProfile handleApiError api this id props)
               hist)
        = Requested (default_patch api body) :: rest
        /\ filter Requests.is_request rest = []
        /\ carries_device_settings body props)
    /\ (forall entry key,
           In key (Js.keys (sent_entry entry)) ->
           key = "address" \/ key = "description")
    /\ (forall host,
           sent_entry (mkSplitEntry None (Some host) None) = Js.JObj []).
Proof.
  intros h returns o api hist this id props Hphase.
  split; [ | split ].
  - exists (Js.JObj (WarpDefault.deviceSettings props)).
    unfold WarpDefault.WarpDefaultProfile.
    destruct (phase this) eqn:Hp; [ | | congruence ]; cbn [phase_eqb];
      unfold WarpDefault.updateDefaultPolicy, api_patch, await, default_patch;
      cbn [bind run];
      (destruct (o _ hist _) as [e | resp]; cbn [bind run snd];
       [ eexists; repeat split; apply deviceSettings_carried | ]);
      (destruct (negb (ok (head resp))); cbn [bind run snd];
       eexists; repeat split; apply deviceSettings_carried).
  - intros entry key. unfold sent_entry.
    destruct entry as [[address | ] host [description | ]];
      cbn [entry_address entry_description app Js.keys map fst];
      try destruct (String.eqb description "");
      cbn [app map fst In]; intuition.
  - reflexivity.
Qed.

Definition default_tunnel : WarpDefault.WarpDefaultProfileProps :=
  WarpDefault.mkDefaultProps (Some (mkServiceMode "warp" None)) None None
    (Some true) None (Some 0) None None None
    None None None (Some office_routes) None.

Lemma default_profile_is_one_patch_witness :
  exists body rest,
    snd (run true (Samples.answering Samples.success)
           (WarpDefault.WarpDefaultProfile Samples.handleApiError Samples.api
              (mkContext Create None Samples.root) "default" default_tunnel)
           [])
    = Requested (default_patch Samples.api body) :: rest
    /\ filter Requests.is_request rest = []
    /\ carries_device_settings body default_tunnel.
Proof.
  apply (proj1 (default_profile_is_one_patch Samples.handleApiError true
                  (Samples.answering Samples.success) Samples.api []
                  (mkContext Create None Samples.root) "default"
                  default_tunnel ltac:(discriminate))).
Defined.

End SplitTunnels.

(* ================================================================== *)
(** ** Programs that return or throw *)
(* ================================================================== *)

Section Halting.

Variable E : Type -> Type.

(** No path of the program invokes the replace-mutator or runs out of
    iterations. *)
Inductive halts {A : Type} : Prog E A -> Prop :=
| h_ret a : halts (Ret a)
| h_throw e : halts (Throw e)
| h_vis X (ev : E X) k : (forall x, halts (k x)) -> halts (Vis ev k).

Lemma halts_bind {A B : Type} (p : Prog E A) (f : A -> Prog E B) :
  halts p -> (forall a, halts (f a)) -> halts (bind p f).
Proof.
  intros Hp Hf. induction Hp; simpl; try constructor; auto.
Qed.

Lemma halts_try_catch {A : Type} (p : Prog E A) h :
  halts p -> (forall e, halts (h e)) -> halts (try_catch p h).
Proof.
  intros Hp Hh. induction Hp; simpl; try constructor; auto.
Qed.

Lemma halts_await {X : Type} (ev : E (Js.Error + X)) : halts (await ev).
Proof. constructor. intros [e | x]; constructor. Qed.

(** The outcome of a run that returned or threw. *)
Definition settled {A : Type} (out : Outcome A) : Prop :=
  match out with
  | Returned _ | Threw _ => True
  | _ => False
  end.

Lemma halts_run {A : Type} (p : Prog E A) :
  halts p ->
  forall returns (o : Oracle E) hist, settled (fst (run returns o p hist)).
Proof.
  intros Hp returns o. induction Hp as [a | e | X ev k _ IH]; intros hist;
    simpl; try exact I.
  specialize (IH (o X hist ev) (hist ++ [Requested ev])%list).
  destruct (run returns o (k (o X hist ev)) (hist ++ [Requested ev])%list).
  exact IH.
Qed.

End Halting.

Arguments halts {E A} p.
Arguments settled {A} out.

(** Discharges [halts] goals by following the program text. *)
Ltac halting :=
  repeat first
    [ apply h_ret | apply h_throw
    | apply halts_await
    | apply halts_bind
    | apply halts_try_catch
    | apply h_vis
    | progress intros
    | progress cbv zeta
    | match goal with
      | |- halts (if ?b then _ else _) => destruct b
      | |- halts (match ?x with _ => _ end) => destruct x
      | |- halts (let (_, _) := ?x in _) => destruct x
      end ].

(* ================================================================== *)
(** ** Local D1 migrations *)
(* ================================================================== *)

Module Migrations.

Import D1Migrations.

Definition is_dispose (e : Entry D1E) : bool :=
  match e with
  | @Requested _ _ Dispose => true
  | _ => false
  end.

Definition not_dispose (X : Type) (ev : D1E X) : bool :=
  match ev with
  | Dispose => false
  | _ => true
  end.

Section Finally.

Variable returns : bool.
Variable o : Oracle D1E.

(** A guarded program that returns or throws is followed by the
    finally block, whose observations come last. *)
Lemma run_try_finally {A : Type} (p : M A) (f : M unit) hist :
  halts p ->
  snd (run returns o (try_finally p f) hist)
  = (snd (run returns o p hist)
       ++ snd (run returns o f (hist ++ snd (run returns o p hist))))%list.
Proof.
  intros Hp. unfold try_finally.
  rewrite run_bind, run_try_catch, run_bind.
  pose proof (halts_run _ p Hp returns o hist) as Hs.
  destruct (run returns o p hist) as [[a | e | force | ] t];
    cbn [fst settled] in Hs; try contradiction;
    cbn [and_then or_catch run snd]; rewrite ?app_nil_r.
  - cbn [and_then]. rewrite run_bind.
    destruct (run returns o f (hist ++ t)%list) as [[[] | e | force | ] t'];
      cbn [and_then run snd]; rewrite ?app_nil_r; reflexivity.
  - cbn [and_then]. rewrite run_bind.
    destruct (run returns o f (hist ++ t)%list) as [[[] | e' | force | ] t'];
      cbn [and_then run snd]; rewrite ?app_nil_r; reflexivity.
Qed.

End Finally.

Lemma for_of_halts {A : Type} (l : list A) (body : A -> M unit) :
  (forall x, halts (body x)) -> halts (for_of l body).
Proof.
  intros Hb. induction l as [ | x l IH]; cbn [for_of]; halting.
  - apply Hb.
  - apply IH.
Qed.

Lemma for_of_no_dispose {A : Type} (l : list A) (body : A -> M unit) :
  (forall x, issues_only not_dispose (body x)) ->
  issues_only not_dispose (for_of l body).
Proof.
  intros Hb. induction l as [ | x l IH]; cbn [for_of]; only_allowed.
  - apply Hb.
  - apply IH.
Qed.

(** [applyLocalD1Migrations] disposes of the Miniflare instance it
    constructed at the end of every run, whether the migrations went
    through or a step failed, and at no other time: the disposal is
    the last thing the function asks for, and it asks for it once. *)
Theorem instance_is_always_disposed :
  forall split split_statements trim returns (o : Oracle D1E) options hist,
    exists before,
      snd (run returns o
             (applyLocalD1Migrations split split_statements trim options) hist)
      = (before ++ [Requested Dispose])%list
      /\ existsb is_dispose before = false.
Proof.
  intros split split_statements trim returns o options hist.
  unfold applyLocalD1Migrations.
  match goal with
  | |- context [try_finally ?p _] => set (body := p)
  end.
  assert (Hh : halts body).
  { subst body. halting; apply for_of_halts; halting. }
  assert (Hd : issues_only not_dispose body).
  { subst body. only_allowed; apply for_of_no_dispose; only_allowed. }
  rewrite (run_try_finally returns o body (await Dispose) hist Hh).
  exists (snd (run returns o body hist)). split.
  - f_equal. unfold await. cbn [run].
    destruct (o _ _ Dispose) as [e | []]; reflexivity.
  - pose proof (issues_only_run _ not_dispose body Hd returns o hist) as Hall.
    clear - Hall. induction (snd (run returns o body hist)) as [ | e t IH].
    + reflexivity.
    + cbn [forallb existsb] in *. apply andb_true_iff in Hall.
      destruct Hall as [He Ht]. rewrite (IH Ht), orb_false_r.
      destruct e as [X ev | force]; [ | reflexivity ].
      destruct ev; try reflexivity. discriminate He.
Qed.

(** A local database whose migrations table has the columns
    [columns] and the rows [applied], and where every request
    resolves. *)
Definition database (columns : list Column) (applied : list AppliedMigration)
  : Oracle D1E :=
  fun X _ ev =>
    match ev in D1E T return T with
    | Ready => inr tt
    | GetD1Database _ => inr tt
    | All KColumns _ => inr columns
    | All KApplied _ => inr applied
    | Run _ => inr tt
    | Batch _ => inr tt
    | Dispose => inr tt
    end.

(** The values bound to the last statement of each batch of a trace. *)
Definition records (t : list (Entry D1E)) : list (list string) :=
  flat_map
    (fun e =>
       match e with
       | @Requested _ _ (Batch statements) =>
           [bound (last statements (prepare ""))]
       | _ => []
       end) t.

Definition recorded (applied : list AppliedMigration) (name : string) : bool :=
  existsb (fun m => String.eqb (applied_name m) name) applied.

Definition import_name (file : D1SqlFile) : string :=
  file_id file ++ "-" ++ file_hash file.

Section Batches.

Variable returns : bool.
Variables (columns : list Column) (applied : list AppliedMigration).

Lemma run_batches {A : Type} (done : A -> bool)
      (statements : A -> list Statement) (l : list A) :
  forall hist,
    run returns (database columns applied)
      (for_of l (fun file => if done file then Ret tt
                             else await (Batch (statements file)))) hist
    = (Returned tt,
       map (fun file => Requested (Batch (statements file)))
         (filter (fun file => negb (done file)) l)).
Proof.
  induction l as [ | file l IH]; intros hist; cbn [for_of].
  - reflexivity.
  - rewrite run_bind. cbn [filter]. destruct (done file); cbn [negb].
    + cbn [run and_then]. rewrite IH. reflexivity.
    + cbn [await run database and_then]. rewrite IH. reflexivity.
Qed.

Lemma records_batches {A : Type} (statements : A -> list Statement)
      (values : A -> list string) (l : list A) :
  (forall file, bound (last (statements file) (prepare "")) = values file) ->
  records (map (fun file => Requested (Batch (statements file))) l)
  = map values l.
Proof.
  intros Hlast. induction l as [ | file l IH]; [ reflexivity | ].
  cbn [map records flat_map app] in *. rewrite Hlast. f_equal. exact IH.
Qed.

End Batches.

Lemma records_app (t t' : list (Entry D1E)) :
  records (t ++ t') = (records t ++ records t')%list.
Proof. apply flat_map_app. Qed.

Lemma records_cons (e : Entry D1E) (t : list (Entry D1E)) :
  records (e :: t)
  = (match e with
     | @Requested _ _ (Batch statements) =>
         [bound (last statements (prepare ""))]
     | _ => []
     end ++ records t)%list.
Proof. reflexivity. Qed.

(** Against a local database where every request resolves,
    [applyLocalD1Migrations] returns after one batch for each
    migration whose id, and then one for each import whose
    [id-hash], is not among the names of the migrations table, in
    the order of the options; the last statement of each batch
    records that name with its kind.  A file that the table names is
    not run again. *)
Theorem unapplied_files_are_batched_in_order :
  forall split split_statements trim returns columns applied options hist,
    let result :=
      run returns (database columns applied)
        (applyLocalD1Migrations split split_statements trim options) hist in
    fst result = Returned tt
    /\ records (snd result)
       = (map (fun file => [file_id file; "migration"])
            (filter (fun file => negb (recorded applied (file_id file)))
               (migrations options))
          ++ map (fun file => [import_name file; "import"])
               (filter (fun file => negb (recorded applied (import_name file)))
                  (imports options)))%list.
Proof.
  intros split split_statements trim returns columns applied options hist.
  cbv zeta. unfold applyLocalD1Migrations, try_finally.
  rewrite run_bind, run_try_catch, run_bind.
  cbn [bind await run database].
  set (setup := if (List.length columns =? 0)%nat then _ else _).
  rewrite run_bind.
  assert (Hsetup : exists t, forall hist',
             run returns (database columns applied) setup hist'
             = (Returned tt, t) /\ records t = []).
  { subst setup. destruct (List.length columns =? 0)%nat.
    - eexists. intros hist'. split; reflexivity.
    - destruct (negb _).
      + eexists. intros hist'. split; reflexivity.
      + exists []. intros hist'. split; reflexivity. }
  destruct Hsetup as [t Hsetup].
  match goal with
  | |- context [run returns _ setup ?h] =>
      destruct (Hsetup h) as [Hrun Hnone]
  end.
  rewrite Hrun.
  cbn [and_then bind await run database].
  rewrite run_bind, run_batches. cbn [and_then].
  rewrite run_batches.
  cbn [and_then or_catch run bind await database fst snd].
  split; [ reflexivity | ].
  repeat first [ rewrite records_app | rewrite records_cons ].
  rewrite Hnone. change (records []) with (@nil (list string)).
  cbn [app]. rewrite ?app_nil_r.
  f_equal.
  - apply (records_batches _ (fun file => [file_id file; "migration"])).
    intros file. rewrite last_last. reflexivity.
  - apply (records_batches
             (fun file => _) (fun file => [import_name file; "import"])).
    intros file. rewrite last_last. reflexivity.
Qed.

End Migrations.

(* ================================================================== *)
(** ** Runs of the handlers against the sample providers *)
(* ================================================================== *)

Module Runs.

Import Cloudflare.

Definition moved_route_props : TunnelRouteProps :=
  mkRouteProps "10.9.0.0/16" (inl "t1") (Some "moved") None None None None.

Definition commented_route_props : TunnelRouteProps :=
  mkRouteProps "10.1.0.0/16" (inl "t1") (Some "note") None None None None.

(** A changed network: the replace-mutator is invoked first. *)
Example TunnelRoute_network_change :
  run false (Samples.answering Samples.success)
      (TunnelRoute Samples.handleApiError 1 Samples.api
         (UpdatePhase.updating (route_output Samples.r2)) "route"
         moved_route_props) []
  = (ReplaceSignalled true, [ReplaceCalled true]).
Proof. reflexivity. Qed.

(** An unchanged network and tunnel: one PATCH with the comment. *)
Example TunnelRoute_comment_change :
  snd (run false (Samples.answering Samples.success)
         (TunnelRoute Samples.handleApiError 1 Samples.api
            (UpdatePhase.updating (route_output Samples.r2)) "route"
            commented_route_props) [])
  = [Requested (UpdatePhase.route_patch Samples.api "r2" commented_route_props)].
Proof. reflexivity. Qed.

Definition corp_profile : WarpDeviceProfileProps :=
  mkWarpProps (Some "corp") UpdatePhase.no_settings None None.

(** A conflict on create under an adopting scope: the profile is found
    by its name and its policy id recorded. *)
Example WarpDeviceProfile_adopts_corp :
  run false Samples.with_existing_profile
      (WarpDeviceProfile Samples.handleApiError Samples.createPhysicalName
         Samples.api (Adoption.creating Samples.adopting) "profile"
         corp_profile) []
  = (Returned
       (Output
          (profile_output "p9" "corp" UpdatePhase.no_settings 0 3)),
     [Adoption.clock;
      Requested
        (UpdatePhase.policy_create Samples.api "corp" UpdatePhase.no_settings);
      Requested (Adoption.policies_list Samples.api);
      Adoption.clock]).
Proof. reflexivity. Qed.

(** The same conflict in a scope that does not adopt: the error of the
    create call comes back. *)
Example WarpDeviceProfile_does_not_adopt :
  fst (run false Samples.with_existing_profile
         (WarpDeviceProfile Samples.handleApiError Samples.createPhysicalName
            Samples.api (Adoption.creating Samples.root) "profile"
            corp_profile) [])
  = Threw (Samples.handleApiError Samples.conflict "create"
             "warp_device_profile" "corp").
Proof. reflexivity. Qed.

Definition storage_card : Stripe.RateCardProps :=
  Stripe.mkRateCardProps "Storage" "usd" None None None (Some "storage") None
    None (Some true).

(** A conflict on create with a lookup key: the card with that key is
    updated and returned. *)
Example RateCard_adopts_storage :
  run false Samples.with_existing_card
      (Stripe.RateCard (Some "sk_test") (Adoption.creating Samples.root)
         "storage" storage_card) []
  = (Returned
       (Output (Stripe.mapV2RateCardToOutput
                  (Samples.card "rc_2" (Some "storage")))),
     [Requested (Adoption.card_create storage_card);
      Requested Adoption.card_list;
      Requested (Adoption.card_adopt "rc_2" storage_card)]).
Proof. reflexivity. Qed.

(** Without an API key in the props or the environment the Stripe
    handlers fail before they look at their props. *)
Example Rate_without_api_key :
  exists e,
    run false Samples.with_existing_card
        (Stripe.Rate None (Adoption.creating Samples.root) "rate"
           Validation.both_rate_props) []
    = (Threw e, [])
    /\ Js.includes (Js.message e) "Stripe API key is required" = true.
Proof. eexists. split; reflexivity. Qed.

Definition amountless_rate_props : Stripe.RateProps :=
  Stripe.mkRateProps (inl "rc_1") (inl "mi_1") None (Some []) None None None.

(** Neither a unit amount nor a tier. *)
Example Rate_without_amounts :
  run false Samples.with_existing_card
      (Stripe.Rate (Some "sk_test") (Adoption.creating Samples.root) "rate"
         amountless_rate_props) []
  = (Threw Stripe.neither_error, []).
Proof. reflexivity. Qed.

Definition rate_limited : Js.Error :=
  Js.mkError Js.ErrorC "too many requests" (Some 429) None None None.

(** An SDK that rejects the first two raw requests with a rate-limit
    error and answers the third. *)
Definition throttled : Oracle Stripe.RawE :=
  fun X hist ev =>
    match ev in Stripe.RawE X return X with
    | Stripe.RawRequest _ _ _ =>
        if (List.length hist <? 4)%nat then inl rate_limited
        else inr (Stripe.mkRaw (Some "application/json") "{}")
    | Stripe.Sleep _ => tt
    end.

Definition list_cards : Entry Stripe.RawE :=
  Requested (Stripe.RawRequest GET "/v2/billing/rate_cards" None).

(** Two rate-limit errors, then success: three attempts with pauses of
    1000 ms and 2000 ms. *)
Example request_is_retried_twice :
  run false throttled
      (Stripe.request Retry.JSON_stringify Retry.JSON_parse GET
         "/v2/billing/rate_cards" None) []
  = (Returned (Js.JObj []),
     [list_cards; Requested (Stripe.Sleep 1000);
      list_cards; Requested (Stripe.Sleep 2000);
      list_cards]).
Proof. reflexivity. Qed.

(** An SDK that always reports a rate limit: five attempts, then the
    error. *)
Definition always_limited : Oracle Stripe.RawE :=
  fun X hist ev =>
    match ev in Stripe.RawE X return X with
    | Stripe.RawRequest _ _ _ => inl rate_limited
    | Stripe.Sleep _ => tt
    end.

Example request_gives_up_after_five :
  run false always_limited
      (Stripe.request Retry.JSON_stringify Retry.JSON_parse GET
         "/v2/billing/rate_cards" None) []
  = (Threw rate_limited, Retry.retry_trace list_cards 4 1000).
Proof. reflexivity. Qed.

(** Printing and parsing of amounts. *)
Example String_of_small : JsNumber.String 1500 = "1500".
Proof. reflexivity. Qed.

Example String_of_huge : JsNumber.String (10 ^ 21) = "1e+21".
Proof. reflexivity. Qed.

Example parseInt_of_exponential : JsNumber.parseInt "1e+21" = Some 1.
Proof. reflexivity. Qed.

End Runs.
